(** * FederatedStreamAPI: the federated-model pipeline of [src/api]

    A shallow embedding of [src/api/federado.py] (class
    [ProcesadorFederado]), of the validators of [src/api/models.py] and of
    the submit handler of [src/api/main.py], with the properties of the
    validation -> aggregation -> noise -> confidence pipeline.

    Conventions of the embedding.
    - A Python [str] is a [string]: a sequence of code points below 256.
    - A Python [int] is a [Z]; a Python or NumPy [float] is an exact
      rational [Q], so every arithmetic statement below is the statement
      of the source read in exact arithmetic.
    - An insertion-ordered [dict] that the source iterates over is an
      association list ([dict]); the two registries of the processor, only
      ever looked up by key, are [gmap]s.
    - A NumPy array of sample counts has dtype [int64]: its sum is taken
      modulo 2^64.
    - A raised exception is the [Raise] branch of [result].
    - [np.random.laplace] reads the next entry of an explicit sequence of
      standard Laplace variates, after checking its scale;
      [datetime.now()] is an argument.
    - The processor carries, beside its files, what opening each path
      for writing raises. *)

From Stdlib Require Import ZArith QArith Qround Qminmax String Ascii List Lia Lqa Bool.
From stdpp Require Import base gmap strings list.
Import ListNotations.

Set Warnings "-register-all".

Local Open Scope Z_scope.

(** ** Python values, strings, dictionaries and exceptions *)
Module Py.

(** Exceptions of the source and of the libraries it calls. *)
Inductive exc : Type :=
| KeyError (clave : string)
| IndexError
| TypeError
| ValueError
| ZeroDivisionError
| OSError
| HTTPException (status_code : Z) (detail : string).

Inductive result (A : Type) : Type :=
| Ok (a : A)
| Raise (e : exc).
Arguments Ok {A} a.
Arguments Raise {A} e.

Definition bind {A B} (r : result A) (k : A -> result B) : result B :=
  match r with
  | Ok a => k a
  | Raise e => Raise e
  end.

Definition is_ok {A} (r : result A) : bool :=
  match r with Ok _ => true | Raise _ => false end.

(** [for x in l: acc = f(acc, x)], stopping at the first exception. *)
Fixpoint foldM {A B} (f : B -> A -> result B) (l : list A) (b : B) : result B :=
  match l with
  | [] => Ok b
  | x :: l' => bind (f b x) (foldM f l')
  end.

(** [[f(x) for x in l]], stopping at the first exception. *)
Fixpoint mapM {A B} (f : A -> result B) (l : list A) : result (list B) :=
  match l with
  | [] => Ok []
  | x :: l' => bind (f x) (fun y => bind (mapM f l') (fun ys => Ok (y :: ys)))
  end.

(** A JSON-shaped Python value, as pydantic hands it over for a field of
    type [Any]. *)
Inductive valor : Type :=
| VNone
| VBool (b : bool)
| VInt (z : Z)
| VFloat (q : Q)
| VStr (s : string)
| VList (l : list valor)
| VDict (d : list (string * valor)).

(** Insertion-ordered dictionary with [str] keys. *)
Definition dict (V : Type) : Type := list (string * V).

Fixpoint dict_get {V} (d : dict V) (k : string) : option V :=
  match d with
  | [] => None
  | (k', v) :: d' => if String.eqb k k' then Some v else dict_get d' k
  end.

(** [k in d] *)
Definition dict_in {V} (k : string) (d : dict V) : bool :=
  match dict_get d k with Some _ => true | None => false end.

(** [d.get(k, default)] *)
Definition dict_get_default {V} (d : dict V) (k : string) (def : V) : V :=
  match dict_get d k with Some v => v | None => def end.

(** [d[k]] *)
Definition dict_index {V} (d : dict V) (k : string) : result V :=
  match dict_get d k with Some v => Ok v | None => Raise (KeyError k) end.

(** [d[k] = v]: an existing key keeps its position, a new one goes last. *)
Fixpoint dict_set {V} (d : dict V) (k : string) (v : V) : dict V :=
  match d with
  | [] => [(k, v)]
  | (k', v') :: d' =>
      if String.eqb k k' then (k', v) :: d' else (k', v') :: dict_set d' k v
  end.

Definition keys {V} (d : dict V) : list string := map fst d.

(** [isinstance(v, (int, float))]; [bool] is a subclass of [int]. *)
Definition is_number (v : valor) : bool :=
  match v with
  | VBool _ | VInt _ | VFloat _ => true
  | _ => false
  end.

(** The numeric value of a number in an arithmetic expression. *)
Definition number_value (v : valor) : option Q :=
  match v with
  | VBool b => Some (if b then 1 else 0)%Q
  | VInt z => Some (inject_Z z)
  | VFloat q => Some q
  | _ => None
  end.

(** [isinstance(v, list) and all(isinstance(x, (int, float)) for x in v)] *)
Definition is_number_list (v : valor) : bool :=
  match v with
  | VList l => forallb is_number l
  | _ => false
  end.

(** *** Strings *)

Definition code (c : ascii) : N := N_of_ascii c.

(** [str.lower] on one code point below 256: A-Z, and the Latin-1 capitals
    U+00C0..U+00DE except the multiplication sign U+00D7. *)
Definition lower_char (c : ascii) : ascii :=
  let n := code c in
  if ((65 <=? n) && (n <=? 90))%N
     || ((192 <=? n) && (n <=? 222) && negb (n =? 215))%N
  then ascii_of_N (n + 32) else c.

Fixpoint lower (s : string) : string :=
  match s with
  | EmptyString => EmptyString
  | String c s' => String (lower_char c) (lower s')
  end.

(** [sub in s] *)
Fixpoint py_in (sub s : string) : bool :=
  String.prefix sub s
  || match s with
     | EmptyString => false
     | String _ s' => py_in sub s'
     end.

Definition hex_digit (n : N) : ascii :=
  if (n <? 10)%N then ascii_of_N (48 + n) else ascii_of_N (87 + n).

Definition dquote : ascii := ascii_of_N 34.
Definition backslash : ascii := ascii_of_N 92.

(** One character of [json.encoder.py_encode_basestring_ascii]: the
    escapes of [ESCAPE_DCT], and a [\uXXXX] escape (lower-case hex) for
    every other code point outside [' '..'~']. *)
Definition escape_char (c : ascii) : string :=
  let n := code c in
  if (n =? 92)%N then String backslash (String backslash EmptyString)
  else if (n =? 34)%N then String backslash (String dquote EmptyString)
  else if (n =? 8)%N then String backslash "b"
  else if (n =? 12)%N then String backslash "f"
  else if (n =? 10)%N then String backslash "n"
  else if (n =? 13)%N then String backslash "r"
  else if (n =? 9)%N then String backslash "t"
  else if ((32 <=? n) && (n <=? 126))%N then String c EmptyString
  else String backslash
         (String "u" (String "0" (String "0"
           (String (hex_digit (n / 16)) (String (hex_digit (n mod 16)) EmptyString))))).

Fixpoint escape (s : string) : string :=
  match s with
  | EmptyString => EmptyString
  | String c s' => escape_char c +:+ escape s'
  end.

(** A JSON string literal. *)
Definition json_str (s : string) : string :=
  String dquote (escape s +:+ String dquote EmptyString).

(** [", ".join(l)] *)
Fixpoint join (sep : string) (l : list string) : string :=
  match l with
  | [] => EmptyString
  | [x] => x
  | x :: l' => x +:+ sep +:+ join sep l'
  end.

(** Decimal digits of a natural number, by a bounded loop. *)
Fixpoint digits_fuel (fuel : nat) (n : N) (acc : string) : string :=
  match fuel with
  | O => acc
  | S fuel' =>
      let acc' := String (ascii_of_N (48 + n mod 10)) acc in
      if (n <? 10)%N then acc' else digits_fuel fuel' (n / 10) acc'
  end.

(** [repr] of an [int]. *)
Definition repr_int (z : Z) : string :=
  let n := Z.to_N (Z.abs z) in
  let ds := digits_fuel (S (N.to_nat (N.log2 n))) n EmptyString in
  if z <? 0 then String "-" ds else ds.

Section Json.
(** [float.__repr__], the shortest decimal that reads back as the same
    binary64 value: not a function of the exact value the embedding
    keeps, so it is a parameter. *)
Variable repr_float : Q -> string.

(** [json.dumps(v, default=str)] with the default separators [", "] and
    [": "]; every [valor] is serialisable, so [default] is never used. *)
Fixpoint json_dumps (v : valor) : string :=
  match v with
  | VNone => "null"
  | VBool true => "true"
  | VBool false => "false"
  | VInt z => repr_int z
  | VFloat q => repr_float q
  | VStr s => json_str s
  | VList l =>
      "[" +:+ join ", " (map json_dumps l) +:+ "]"
  | VDict d =>
      "{" +:+ join ", " (map (fun kv => json_str (fst kv) +:+ ": " +:+ json_dumps (snd kv)) d) +:+ "}"
  end.
End Json.

End Py.

(** ** The NumPy operations the aggregator calls *)
Module Np.
Import Py.

(** An [ndarray] of numbers: its shape and its entries in row-major
    order. *)
Record ndarray : Type := mk_ndarray { shape : list nat; data : list Q }.

Definition shape_eqb (s1 s2 : list nat) : bool :=
  bool_decide (s1 = s2).

(** [np.array(v)] for a value that the source goes on to compute with.
    Numbers (and [bool]s) give a 0-d array; a list of arrays of one common
    shape gives an array of one more dimension; a ragged list is NumPy's
    [ValueError] (inhomogeneous shape, NumPy >= 1.24).  A [str], [dict] or
    [None] leaf gives an array NumPy cannot compute with: the [len] or the
    product that follows [np.array] in every use of the source raises
    [TypeError], which the embedding raises here. *)
Fixpoint np_array (v : valor) : result ndarray :=
  match v with
  | VBool _ | VInt _ | VFloat _ =>
      match number_value v with
      | Some q => Ok (mk_ndarray [] [q])
      | None => Raise TypeError
      end
  | VList l =>
      bind (mapM np_array l) (fun arrs =>
        match arrs with
        | [] => Ok (mk_ndarray [0%nat] [])
        | a :: rest =>
            if forallb (fun b => shape_eqb (shape b) (shape a)) rest
            then Ok (mk_ndarray (length arrs :: shape a) (concat (map data arrs)))
            else Raise ValueError
        end)
  | VNone | VStr _ | VDict _ => Raise TypeError
  end.

(** [len(arr)]: a 0-d array is unsized. *)
Definition np_len (a : ndarray) : result nat :=
  match shape a with
  | [] => Raise TypeError
  | n :: _ => Ok n
  end.

(** [arr * w] for a scalar weight. *)
Definition np_scale (a : ndarray) (w : Q) : ndarray :=
  mk_ndarray (shape a) (map (fun x => x * w)%Q (data a)).

(** Entry-wise sum of two rows of entries of one length. *)
Fixpoint add_data (xs ys : list Q) : list Q :=
  match xs, ys with
  | x :: xs', y :: ys' => (x + y)%Q :: add_data xs' ys'
  | _, _ => []
  end.

(** [np.sum(arrays, axis=0)] for a Python list of arrays: the list is first
    stacked, which needs one common shape ([ValueError] otherwise), then
    summed along the new first axis.  An empty list sums to [0.0]. *)
Definition np_sum_axis0 (arrays : list ndarray) : result ndarray :=
  match arrays with
  | [] => Ok (mk_ndarray [] [0%Q])
  | a :: rest =>
      if forallb (fun b => shape_eqb (shape b) (shape a)) rest
      then Ok (mk_ndarray (shape a) (fold_left add_data (map data rest) (data a)))
      else Raise ValueError
  end.

Definition product (l : list nat) : nat := fold_right Nat.mul 1%nat l.

(** [arr.tolist()]: nested Python lists of [float]s, a bare [float] for a
    0-d array. *)
Fixpoint tolist_aux (sh : list nat) (d : list Q) : valor :=
  match sh with
  | [] => VFloat (hd 0%Q d)
  | n :: sh' =>
      let k := product sh' in
      VList (map (fun i => tolist_aux sh' (firstn k (skipn (i * k) d))) (seq 0 n))
  end.

Definition tolist (a : ndarray) : valor := tolist_aux (shape a) (data a).

Definition Qsum (l : list Q) : Q := fold_right Qplus 0%Q l.

(** Entry-wise products [a_i * w_i]. *)
Fixpoint mul_data (xs ws : list Q) : list Q :=
  match xs, ws with
  | x :: xs', w :: ws' => (x * w)%Q :: mul_data xs' ws'
  | _, _ => []
  end.

(** The value of a 64-bit signed integer after wrap-around. *)
Definition int64 (z : Z) : Z := (z + 2 ^ 63) mod 2 ^ 64 - 2 ^ 63.

(** [np.array(pesos) / np.sum(pesos)] for a list of [int] sample counts
    that fit in 64 bits: the array has dtype [int64], so [np.sum] adds
    modulo 2^64, and the quotient is that of floats.  When the total is
    zero the source's weights are infinite or nan, values the rational
    reading does not have: what is proved about weights below is proved
    for a total that is not zero. *)
Definition normalizar (muestras : list Z) : list Q :=
  let total := inject_Z (int64 (fold_right Z.add 0 muestras)) in
  map (fun n => inject_Z n / total)%Q muestras.

(** [np.average(valores, weights=pesos)] with [axis=None]: the values must
    form an array of the shape of the weights ([TypeError] otherwise), the
    weights must not sum to zero ([ZeroDivisionError]), and the result is
    [sum(a * w) / sum(w)]. *)
Definition np_average (valores : list valor) (pesos : list Q) : result Q :=
  bind (np_array (VList valores)) (fun a =>
    if shape_eqb (shape a) [length pesos] then
      let scl := Qsum pesos in
      if Qeq_bool scl 0 then Raise ZeroDivisionError
      else Ok (Qsum (mul_data (data a) pesos) / scl)%Q
    else Raise TypeError).

(** [np.mean(l)] of a non-empty list of floats. *)
Definition np_mean (l : list Q) : Q :=
  (Qsum l / inject_Z (Z.of_nat (length l)))%Q.

(** [int(x)]: truncation toward zero. *)
Definition py_int (x : Q) : Z :=
  if Qle_bool 0 x then Qfloor x else Qceiling x.

(** Nearest integer, ties to the even one. *)
Definition round_half_even (x : Q) : Z :=
  let f := Qfloor x in
  let r := (x - inject_Z f)%Q in
  match Qcompare r (1 # 2) with
  | Lt => f
  | Gt => f + 1
  | Eq => if Z.even f then f else f + 1
  end.

(** [round(x, 3)] *)
Definition round3 (x : Q) : Q :=
  (inject_Z (round_half_even (x * 1000)) / 1000)%Q.

(** The state of [np.random]: the sequence of standard Laplace variates it
    is going to produce, and how many have been consumed. *)
Record generador : Type := mk_generador { variates : nat -> Q; consumidos : nat }.

(** The next draw of the generator, [loc + scale * L]. *)
Definition extraer (loc scale : Q) (g : generador) : Q * generador :=
  ((loc + scale * variates g (consumidos g))%Q,
   mk_generador (variates g) (S (consumidos g))).

(** [n] successive draws. *)
Fixpoint extraer_n (loc scale : Q) (n : nat) (g : generador) : list Q * generador :=
  match n with
  | O => ([], g)
  | S n' =>
      let '(x, g1) := extraer loc scale g in
      let '(xs, g2) := extraer_n loc scale n' g1 in
      (x :: xs, g2)
  end.

(** [np.random.laplace(loc, scale)]: a negative scale is a [ValueError],
    raised before anything is drawn. *)
Definition laplace (loc scale : Q) (g : generador) : result (Q * generador) :=
  if Qle_bool 0 scale then Ok (extraer loc scale g) else Raise ValueError.

(** [np.random.laplace(loc, scale, size=n)]: the scale is checked first,
    whatever the size. *)
Definition laplace_size (loc scale : Q) (n : nat) (g : generador)
  : result (list Q * generador) :=
  if Qle_bool 0 scale then Ok (extraer_n loc scale n g) else Raise ValueError.

End Np.

(** ** [src/api/models.py] and [src/api/federado.py] *)
Module Federado.
Import Py Np.

(** [models.ModeloFederado] *)
Record ModeloFederado : Type := mk_ModeloFederado {
  tipo_modelo : string;
  parametros : dict valor;
  giro_hash : string;
  timestamp : string;
  metricas_validacion : dict Q;
  version_algoritmo : string;
  num_muestras_entrenamiento : Z
}.

(** [ModeloFederado.validar_giro_hash] *)
Definition validar_giro_hash (v : string) : result string :=
  if (String.length v <? 16)%nat then Raise ValueError else Ok v.

Definition claves_prohibidas : list string :=
  ["empresa_id"; "nombre"; "direccion"; "telefono"; "email"]%string.

(** [ModeloFederado.validar_parametros] *)
Definition validar_parametros (v : dict valor) : result (dict valor) :=
  if existsb
       (fun clave => existsb (fun prohibida => py_in prohibida (lower clave)) claves_prohibidas)
       (keys v)
  then Raise ValueError else Ok v.

Definition identificadores_prohibidos : list string :=
  ["empresa"; "nombre"; "direccion"; "telefono"; "email";
   "rfc"; "razon_social"; "contacto"]%string.

Section Validacion.
Variable repr_float : Q -> string.

(** [ProcesadorFederado.validar_anonimizacion] *)
Definition validar_anonimizacion (modelo : ModeloFederado) : bool :=
  if (String.length (giro_hash modelo) <? 16)%nat then false
  else
    let parametros_str := lower (json_dumps repr_float (VDict (parametros modelo))) in
    if existsb (fun identificador => py_in identificador parametros_str)
         identificadores_prohibidos
    then false
    else if num_muestras_entrenamiento modelo <? 50 then false
    else true.
End Validacion.

(** The [contribucion] dictionary built by [procesar_modelo_anonimo], one
    field per key: ["id"], ["timestamp"], ["giro_hash"], ["parametros"],
    ["metricas"], ["num_muestras"]. *)
Record Contribucion : Type := mk_Contribucion {
  c_id : string;
  c_timestamp : string;
  c_giro_hash : string;
  c_parametros : dict valor;
  c_metricas : dict Q;
  c_num_muestras : Z
}.

(** The aggregated-model dictionary the aggregators return, one field per
    key (["tipo_modelo"] is [a_tipo_modelo]). *)
Record ModeloAgregado : Type := mk_ModeloAgregado {
  a_tipo_modelo : string;
  parametros_agregados : dict valor;
  num_contribuciones : Z;
  metricas_agregadas : dict Q;
  timestamp_agregacion : string;
  confianza : Q;
  version : string
}.

(** [self.configuracion_privacidad] *)
Record ConfiguracionPrivacidad : Type := mk_ConfiguracionPrivacidad {
  min_contribuciones : Z;
  ruido_diferencial : bool;
  epsilon : Q;
  retencion_dias : Z
}.

(** What [_guardar_contribucion_segura] writes. *)
Record ContribucionSegura : Type := mk_ContribucionSegura {
  s_id : string;
  s_timestamp : string;
  s_tipo_modelo : string;
  s_num_parametros : Z;
  s_metricas_validacion : dict Q;
  s_num_muestras : Z
}.

(** The number of bytes of the UTF-8 encoding of a string. *)
Fixpoint bytes_utf8 (s : string) : nat :=
  match s with
  | EmptyString => 0%nat
  | String c s' => ((if (code c <? 128)%N then 1 else 2) + bytes_utf8 s')%nat
  end.

(** Whether some component of a path, between two ["/"], is longer than
    255 bytes; [n] is the length of the component read so far. *)
Fixpoint componente_larga (n : nat) (s : string) : bool :=
  match s with
  | EmptyString => (255 <? n)%nat
  | String c s' =>
      if (code c =? 47)%N then (255 <? n)%nat || componente_larga 0 s'
      else componente_larga ((if (code c <? 128)%N then 1 else 2) + n) s'
  end.

Fixpoint tiene_nul (s : string) : bool :=
  match s with
  | EmptyString => false
  | String c s' => (code c =? 0)%N || tiene_nul s'
  end.

(** What [os.makedirs] and [open(ruta, 'w')] raise for a path on an
    otherwise writable disk, as Linux has it: [ValueError] for an embedded
    null byte, [OSError] for a component of more than 255 bytes or a path
    of more than 4095. *)
Definition error_de_ruta (ruta : string) : option exc :=
  if tiene_nul ruta then Some ValueError
  else if (4095 <? bytes_utf8 ruta)%nat || componente_larga 0 ruta then Some OSError
  else None.

(** The processor: [self.modelos_activos], [self.contribuciones] and
    [self.configuracion_privacidad], together with the process-wide state
    its methods touch: the generator behind [np.random], the JSON files
    under [data/resultados/modelos] and [data/resultados/contribuciones],
    and what opening a path for writing raises, if anything (a property
    of the path, taken not to change while the processor runs). *)
Record ProcesadorFederado : Type := mk_ProcesadorFederado {
  modelos_activos : gmap string ModeloAgregado;
  contribuciones : gmap string (list Contribucion);
  configuracion_privacidad : ConfiguracionPrivacidad;
  np_random : generador;
  archivos_modelos : gmap string ModeloAgregado;
  archivos_contribuciones : gmap string ContribucionSegura;
  error_de_escritura : string -> option exc
}.

(** [ProcesadorFederado.__init__], on a disk that refuses only the paths
    that are not valid names. *)
Definition nuevo (g : generador) : ProcesadorFederado :=
  mk_ProcesadorFederado ∅ ∅ (mk_ConfiguracionPrivacidad 3 true 1 90) g ∅ ∅
    error_de_ruta.

Definition primero {A} (l : list A) : result A :=
  match l with
  | [] => Raise IndexError
  | x :: _ => Ok x
  end.

(** The normalised weights of a contribution list. *)
Definition pesos_de (contribuciones : list Contribucion) : list Q :=
  normalizar (map c_num_muestras contribuciones).

(** [ProcesadorFederado._calcular_confianza] *)
Definition _calcular_confianza (contribuciones : list Contribucion) : result Q :=
  let num_contribuciones := Z.of_nat (length contribuciones) in
  let confianza_base := Qmin 0.9 (0.3 + (inject_Z num_contribuciones - 3) * 0.1)%Q in
  bind (primero contribuciones) (fun c0 =>
    let confianza_base :=
      match c_metricas c0 with
      | [] => confianza_base
      | _ :: _ =>
          let metricas_promedio :=
            flat_map (fun contrib =>
              match dict_get (c_metricas contrib) "r2" with
              | Some v => [v]
              | None =>
                  match dict_get (c_metricas contrib) "accuracy" with
                  | Some v => [v]
                  | None => []
                  end
              end) contribuciones in
          match metricas_promedio with
          | [] => confianza_base
          | _ :: _ => (confianza_base * np_mean metricas_promedio)%Q
          end
      end in
    Ok (round3 confianza_base)).

(** The loop [for i, params in enumerate(...): np.array(params[clave]) * pesos[i]]. *)
Definition arrays_ponderados (clave : string) (todos : list (dict valor)) (pesos : list Q)
  : result (list ndarray) :=
  mapM (fun '(params, w) =>
          bind (dict_index params clave) (fun v =>
          bind (np_array v) (fun a => Ok (np_scale a w))))
       (combine todos pesos).

(** The weighted sum of one parameter over all contributions, stored under
    its key when the first contribution has the key. *)
Definition agregar_clave (clave : string) (todos : list (dict valor)) (pesos : list Q)
    (primer : dict valor) (acc : dict valor) : result (dict valor) :=
  if dict_in clave primer then
    bind (arrays_ponderados clave todos pesos) (fun arrays =>
    bind (np_sum_axis0 arrays) (fun s => Ok (dict_set acc clave (tolist s))))
  else Ok acc.

(** [len(v)] followed by [v[:n]] and [list.extend]: a list or a [str]. *)
Definition py_sequence (v : valor) : result (list valor) :=
  match v with
  | VList l => Ok l
  | VStr s => Ok (map (fun c => VStr (String c EmptyString)) (list_ascii_of_string s))
  | _ => Raise TypeError
  end.

(** The loop that pools a weight-proportional prefix of each contribution's
    trees. *)
Definition seleccionar_arboles (todos : list (dict valor)) (pesos : list Q)
  : result (list valor) :=
  foldM (fun arboles_agregados '(params, w) =>
           bind (dict_index params "arboles") (fun v =>
           bind (py_sequence v) (fun arboles =>
             let num_arboles :=
               Z.max 1 (py_int (inject_Z (Z.of_nat (length arboles)) * w)) in
             Ok (arboles_agregados ++ firstn (Z.to_nat num_arboles) arboles))))
        (combine todos pesos) [].

(** [for metrica in nombres: ... np.average(valores, weights=pesos)] *)
Definition promediar_metricas (nombres : list string)
    (contribuciones : list Contribucion) (pesos : list Q) : result (dict Q) :=
  foldM (fun metricas_agregadas metrica =>
           let valores :=
             map (fun c => VFloat (dict_get_default (c_metricas c) metrica 0%Q))
                 contribuciones in
           bind (np_average valores pesos) (fun x =>
             Ok (dict_set metricas_agregadas metrica x)))
        nombres [].

(** [ProcesadorFederado._agregar_modelo_prediccion]; [ahora] is
    [datetime.now().isoformat()]. *)
Definition _agregar_modelo_prediccion (contribuciones : list Contribucion)
    (ahora : string) : result ModeloAgregado :=
  let todos_parametros := map c_parametros contribuciones in
  let pesos := pesos_de contribuciones in
  bind (primero todos_parametros) (fun primer =>
  bind (agregar_clave "coeficientes" todos_parametros pesos primer []) (fun pa1 =>
  bind (if dict_in "arboles" primer
        then bind (seleccionar_arboles todos_parametros pesos) (fun arboles =>
               Ok (dict_set pa1 "arboles" (VList arboles)))
        else Ok pa1) (fun parametros_agregados =>
  bind (promediar_metricas ["mse"; "r2"; "mae"]%string contribuciones pesos)
    (fun metricas_agregadas =>
  bind (_calcular_confianza contribuciones) (fun confianza =>
    Ok (mk_ModeloAgregado "prediccion_demanda" parametros_agregados
          (Z.of_nat (length contribuciones)) metricas_agregadas ahora
          confianza "1.0")))))).

(** [ProcesadorFederado._agregar_modelo_clasificacion] *)
Definition _agregar_modelo_clasificacion (contribuciones : list Contribucion)
    (ahora : string) : result ModeloAgregado :=
  let pesos := pesos_de contribuciones in
  let todos_parametros := map c_parametros contribuciones in
  bind (primero todos_parametros) (fun primer =>
  bind (agregar_clave "matriz_confusion" todos_parametros pesos primer []) (fun pa1 =>
  bind (agregar_clave "probabilidades_clase" todos_parametros pesos primer pa1)
    (fun parametros_agregados =>
  bind (promediar_metricas ["accuracy"; "precision"; "recall"; "f1"]%string
          contribuciones pesos) (fun metricas_agregadas =>
  bind (_calcular_confianza contribuciones) (fun confianza =>
    Ok (mk_ModeloAgregado "clasificacion_viajero" parametros_agregados
          (Z.of_nat (length contribuciones)) metricas_agregadas ahora
          confianza "1.0")))))).

(** One round of the loop over [primer_modelo.items()] of the generic
    aggregation. *)
Definition paso_generico (contribuciones : list Contribucion) (pesos : list Q)
    (parametros_agregados : dict valor) (item : string * valor)
  : result (dict valor) :=
  let '(clave, valor) := item in
  if is_number valor then
    let valores :=
      map (fun c => dict_get_default (c_parametros c) clave (VInt 0)) contribuciones in
    bind (np_average valores pesos) (fun x =>
      Ok (dict_set parametros_agregados clave (VFloat x)))
  else if is_number_list valor then
    bind (foldM (fun arrays '(contrib, w) =>
                   bind (np_array (dict_get_default (c_parametros contrib) clave (VList [])))
                     (fun arr =>
                   bind (np_len arr) (fun n =>
                     if (0 <? n)%nat then Ok (arrays ++ [np_scale arr w])
                     else Ok arrays)))
                (combine contribuciones pesos) [])
      (fun arrays =>
         match arrays with
         | [] => Ok parametros_agregados
         | _ :: _ =>
             bind (np_sum_axis0 arrays) (fun s =>
               Ok (dict_set parametros_agregados clave (tolist s)))
         end)
  else Ok parametros_agregados.

(** [ProcesadorFederado._agregar_modelo_generico] *)
Definition _agregar_modelo_generico (contribuciones : list Contribucion)
    (ahora : string) : result ModeloAgregado :=
  let pesos := pesos_de contribuciones in
  bind (primero contribuciones) (fun c0 =>
  let primer_modelo := c_parametros c0 in
  bind (foldM (paso_generico contribuciones pesos) primer_modelo [])
    (fun parametros_agregados =>
  bind (promediar_metricas (keys (c_metricas c0)) contribuciones pesos)
    (fun metricas_agregadas =>
  bind (_calcular_confianza contribuciones) (fun confianza =>
    Ok (mk_ModeloAgregado "generico" parametros_agregados
          (Z.of_nat (length contribuciones)) metricas_agregadas ahora
          confianza "1.0"))))).

(** [1 / epsilon] on Python floats. *)
Definition inverso (epsilon : Q) : result Q :=
  if Qeq_bool epsilon 0 then Raise ZeroDivisionError else Ok (1 / epsilon)%Q.

(** One round of the loop of [_aplicar_ruido_diferencial] over
    [modelo["parametros_agregados"].items()]: the entry is replaced in the
    dictionary being iterated. *)
Definition paso_ruido (epsilon : Q) (estado : dict valor * generador)
    (item : string * valor) : result (dict valor * generador) :=
  let '(parametros, g) := estado in
  let '(clave, valor) := item in
  if is_number valor then
    bind (inverso epsilon) (fun escala =>
    bind (laplace 0 escala g) (fun '(ruido, g') =>
      match number_value valor with
      | Some x => Ok (dict_set parametros clave (VFloat (x + ruido)), g')
      | None => Raise TypeError
      end))
  else if is_number_list valor then
    match valor with
    | VList l =>
        bind (inverso epsilon) (fun escala =>
        bind (laplace_size 0 escala (length l) g) (fun '(ruido, g') =>
          bind (np_array valor) (fun a =>
            Ok (dict_set parametros clave
                  (tolist (mk_ndarray (shape a) (add_data (data a) ruido))), g'))))
    | _ => Raise TypeError
    end
  else Ok (parametros, g).

(** [ProcesadorFederado._aplicar_ruido_diferencial]: the model with its
    parameters perturbed, and the generator after the draws. *)
Definition _aplicar_ruido_diferencial (cfg : ConfiguracionPrivacidad)
    (g : generador) (modelo : ModeloAgregado) : result (ModeloAgregado * generador) :=
  bind (foldM (paso_ruido (epsilon cfg)) (parametros_agregados modelo)
          (parametros_agregados modelo, g))
    (fun '(parametros, g') =>
       Ok (mk_ModeloAgregado (a_tipo_modelo modelo) parametros
             (num_contribuciones modelo) (metricas_agregadas modelo)
             (timestamp_agregacion modelo) (confianza modelo) (version modelo),
           g')).

(** The strategy [_agregar_modelo] selects for a model type. *)
Definition agregador (tipo_modelo : string)
  : list Contribucion -> string -> result ModeloAgregado :=
  if String.eqb tipo_modelo "prediccion_demanda" then _agregar_modelo_prediccion
  else if String.eqb tipo_modelo "clasificacion_viajero" then _agregar_modelo_clasificacion
  else _agregar_modelo_generico.

(** Aggregation followed by the noise pass when it is enabled: the
    snapshot [_agregar_modelo] is about to store. *)
Definition modelo_nuevo (cfg : ConfiguracionPrivacidad) (g : generador)
    (tipo_modelo : string) (contribuciones : list Contribucion) (ahora : string)
  : result (ModeloAgregado * generador) :=
  bind (agregador tipo_modelo contribuciones ahora) (fun modelo_agregado =>
    if ruido_diferencial cfg
    then _aplicar_ruido_diferencial cfg g modelo_agregado
    else Ok (modelo_agregado, g)).

(** The paths of the two kinds of files the processor writes. *)
Definition ruta_modelo (tipo_modelo : string) : string :=
  "data/resultados/modelos/" +:+ tipo_modelo +:+ "_agregado.json".

Definition ruta_contribucion (contribucion_id : string) : string :=
  "data/resultados/contribuciones/" +:+ contribucion_id +:+ ".json".

(** [ProcesadorFederado._guardar_modelo_agregado]: the processor after the
    call and the exception it raised, if any. *)
Definition _guardar_modelo_agregado (self : ProcesadorFederado) (tipo_modelo : string)
    (modelo : ModeloAgregado) : ProcesadorFederado * option exc :=
  match error_de_escritura self (ruta_modelo tipo_modelo) with
  | Some e => (self, Some e)
  | None =>
      (mk_ProcesadorFederado (modelos_activos self) (contribuciones self)
         (configuracion_privacidad self) (np_random self)
         (<[tipo_modelo := modelo]> (archivos_modelos self))
         (archivos_contribuciones self) (error_de_escritura self),
       None)
  end.

(** [ProcesadorFederado._agregar_modelo]: the processor after the call and
    the exception it raised, if any.  A raise of the aggregation or of the
    noise pass comes before the first draw and before the assignment to
    [self.modelos_activos]; the file is written after that assignment. *)
Definition _agregar_modelo (self : ProcesadorFederado) (tipo_modelo : string)
    (ahora : string) : ProcesadorFederado * option exc :=
  match contribuciones self !! tipo_modelo with
  | None => (self, Some (KeyError tipo_modelo))
  | Some contribs =>
      if Z.of_nat (length contribs) <? min_contribuciones (configuracion_privacidad self)
      then (self, None)
      else
        match modelo_nuevo (configuracion_privacidad self) (np_random self)
                tipo_modelo contribs ahora with
        | Raise e => (self, Some e)
        | Ok (modelo_agregado, g') =>
            _guardar_modelo_agregado
              (mk_ProcesadorFederado
                 (<[tipo_modelo := modelo_agregado]> (modelos_activos self))
                 (contribuciones self)
                 (configuracion_privacidad self)
                 g'
                 (archivos_modelos self)
                 (archivos_contribuciones self)
                 (error_de_escritura self))
              tipo_modelo modelo_agregado
        end
  end.

(** [ProcesadorFederado._guardar_contribucion_segura]: the contribution
    dictionary has no ["tipo_modelo"] key, so the file says ["unknown"]. *)
Definition _guardar_contribucion_segura (self : ProcesadorFederado)
    (contribucion_id : string) (contribucion : Contribucion)
  : ProcesadorFederado * option exc :=
  let contribucion_segura :=
    mk_ContribucionSegura contribucion_id (c_timestamp contribucion) "unknown"
      (Z.of_nat (length (c_parametros contribucion)))
      (c_metricas contribucion) (c_num_muestras contribucion) in
  match error_de_escritura self (ruta_contribucion contribucion_id) with
  | Some e => (self, Some e)
  | None =>
      (mk_ProcesadorFederado (modelos_activos self) (contribuciones self)
         (configuracion_privacidad self) (np_random self) (archivos_modelos self)
         (<[contribucion_id := contribucion_segura]> (archivos_contribuciones self))
         (error_de_escritura self),
       None)
  end.

(** The registration of a contribution in [self.contribuciones]. *)
Definition registrar (self : ProcesadorFederado) (tipo : string)
    (contribucion : Contribucion) : ProcesadorFederado :=
  mk_ProcesadorFederado (modelos_activos self)
    (<[tipo := default [] (contribuciones self !! tipo) ++ [contribucion]]>
       (contribuciones self))
    (configuracion_privacidad self) (np_random self) (archivos_modelos self)
    (archivos_contribuciones self) (error_de_escritura self).

(** The [contribucion] dictionary [procesar_modelo_anonimo] builds. *)
Definition contribucion_de (modelo : ModeloFederado) (contribucion_id : string)
  : Contribucion :=
  mk_Contribucion contribucion_id (timestamp modelo) (giro_hash modelo)
    (parametros modelo) (metricas_validacion modelo)
    (num_muestras_entrenamiento modelo).

(** [ProcesadorFederado.procesar_modelo_anonimo]: the processor after the
    call and the exception it re-raised, if any. *)
Definition procesar_modelo_anonimo (self : ProcesadorFederado)
    (modelo : ModeloFederado) (contribucion_id : string) (ahora : string)
  : ProcesadorFederado * option exc :=
  let contribucion := contribucion_de modelo contribucion_id in
  let self1 := registrar self (tipo_modelo modelo) contribucion in
  let '(self2, error) :=
    if min_contribuciones (configuracion_privacidad self1)
         <=? Z.of_nat (length (default [] (contribuciones self1 !! tipo_modelo modelo)))
    then _agregar_modelo self1 (tipo_modelo modelo) ahora
    else (self1, None) in
  match error with
  | Some e => (self2, Some e)
  | None => _guardar_contribucion_segura self2 contribucion_id contribucion
  end.

(** [ProcesadorFederado.obtener_modelo_agregado]: [ResultadoAgregado]
    has the seven fields of the stored dictionary. *)
Definition obtener_modelo_agregado (self : ProcesadorFederado)
    (tipo_modelo : string) : option ModeloAgregado :=
  modelos_activos self !! tipo_modelo.

(** One background task: a validated model, its contribution id and the
    time at which the task runs. *)
Definition tarea : Type := ModeloFederado * string * string.

(** The background tasks run one after the other; a task that raises is
    logged and the next one runs. *)
Definition procesar_todos (self : ProcesadorFederado) (tareas : list tarea)
  : ProcesadorFederado :=
  fold_left (fun st '(modelo, contribucion_id, ahora) =>
               fst (procesar_modelo_anonimo st modelo contribucion_id ahora))
            tareas self.

(** The number of contributions stored for a model type. *)
Definition num_almacenadas (self : ProcesadorFederado) (tipo : string) : Z :=
  Z.of_nat (length (default [] (contribuciones self !! tipo))).

(** *** The metrics side of the processor *)

(** [models.MetricasEmpresa]; the values of [metricas_agregadas] are kept
    as Python values so that the list test of the validators can be
    stated. *)
Record MetricasEmpresa : Type := mk_MetricasEmpresa {
  me_giro_hash : string;
  me_periodo_inicio : string;
  me_periodo_fin : string;
  me_metricas_agregadas : dict valor;
  me_timestamp_envio : string;
  ingresos_promedio_diario : option Q;
  clientes_promedio_diario : option Q;
  ocupacion_promedio : option Q;
  precio_promedio : option Q
}.

(** [isinstance(valor, (list, tuple)) and len(valor) < 10] *)
Definition lista_corta (valor : valor) : bool :=
  match valor with
  | VList l => (length l <? 10)%nat
  | _ => false
  end.

(** [MetricasEmpresa.validar_metricas_agregadas] *)
Definition validar_metricas_agregadas (v : dict valor) : result (dict valor) :=
  if existsb (fun kv => lista_corta (snd kv)) v then Raise ValueError else Ok v.

(** [ProcesadorFederado.validar_metricas_anonimas] *)
Definition validar_metricas_anonimas (metricas : MetricasEmpresa) : bool :=
  if (String.length (me_giro_hash metricas) <? 16)%nat then false
  else if existsb (fun kv => lista_corta (snd kv)) (me_metricas_agregadas metricas)
  then false
  else true.

(** One entry of [self.metricas_agregadas[giro_hash]]. *)
Record RegistroMetricas : Type := mk_RegistroMetricas {
  rm_id : string;
  rm_timestamp : string;
  rm_metricas : dict valor;
  rm_periodo : string
}.

(** What [_guardar_metricas_seguras] writes. *)
Record MetricasSeguras : Type := mk_MetricasSeguras {
  ms_id : string;
  ms_timestamp : string;
  ms_periodo : string;
  ms_num_metricas : Z;
  ms_giro_hash : string
}.

(** [self.metricas_agregadas] and the JSON files under
    [data/resultados/metricas] (writes are taken to succeed). *)
Record EstadoMetricas : Type := mk_EstadoMetricas {
  metricas_por_giro : gmap string (list RegistroMetricas);
  archivos_metricas : gmap string MetricasSeguras
}.

(** The result dictionary of [procesar_metricas_anonimas]. *)
Record ResultadoMetricas : Type := mk_ResultadoMetricas {
  res_id : string;
  total_contribuciones : Z
}.

Section Metricas.
(** [hashlib.sha256(s.encode()).hexdigest()] *)
Variable sha256_hexdigest : string -> string.

(** The id [procesar_metricas_anonimas] gives a submission. *)
Definition metricas_id_de (metricas : MetricasEmpresa) : string :=
  String.substring 0 16
    (sha256_hexdigest (me_timestamp_envio metricas +:+ "_" +:+ me_giro_hash metricas)).

(** [ProcesadorFederado._guardar_metricas_seguras] *)
Definition _guardar_metricas_seguras (self : EstadoMetricas) (metricas_id : string)
    (metricas : MetricasEmpresa) : EstadoMetricas :=
  let metricas_seguras :=
    mk_MetricasSeguras metricas_id (me_timestamp_envio metricas)
      (me_periodo_inicio metricas +:+ "_" +:+ me_periodo_fin metricas)
      (Z.of_nat (length (me_metricas_agregadas metricas)))
      (String.substring 0 8 (me_giro_hash metricas) +:+ "...") in
  mk_EstadoMetricas (metricas_por_giro self)
    (<[metricas_id := metricas_seguras]> (archivos_metricas self)).

(** [ProcesadorFederado.procesar_metricas_anonimas] *)
Definition procesar_metricas_anonimas (self : EstadoMetricas)
    (metricas : MetricasEmpresa) : EstadoMetricas * ResultadoMetricas :=
  let metricas_id := metricas_id_de metricas in
  let giro_hash := me_giro_hash metricas in
  let registro :=
    mk_RegistroMetricas metricas_id (me_timestamp_envio metricas)
      (me_metricas_agregadas metricas)
      (me_periodo_inicio metricas +:+ "_" +:+ me_periodo_fin metricas) in
  let lista := default [] (metricas_por_giro self !! giro_hash) ++ [registro] in
  let self1 :=
    mk_EstadoMetricas (<[giro_hash := lista]> (metricas_por_giro self))
      (archivos_metricas self) in
  (_guardar_metricas_seguras self1 metricas_id metricas,
   mk_ResultadoMetricas metricas_id (Z.of_nat (length lista))).

(** The submissions processed one after the other. *)
Definition procesar_metricas_todas (self : EstadoMetricas)
    (envios : list MetricasEmpresa) : EstadoMetricas :=
  fold_left (fun st m => fst (procesar_metricas_anonimas st m)) envios self.
End Metricas.

(** *** The prediction helpers *)

(** [round(x, 2)] *)
Definition round2 (x : Q) : Q :=
  (inject_Z (round_half_even (x * 100)) / 100)%Q.

(** One entry of [predicciones]. *)
Record Prediccion : Type := mk_Prediccion {
  p_fecha : string;
  p_prediccion : Q;
  p_confianza : Q
}.

Record Intervalo : Type := mk_Intervalo {
  i_fecha : string;
  limite_inferior : Q;
  limite_superior : Q
}.

(** [ProcesadorFederado._calcular_intervalos_confianza] *)
Definition _calcular_intervalos_confianza (predicciones : list Prediccion)
  : list Intervalo :=
  map (fun pred =>
         let valor := p_prediccion pred in
         let margen := (valor * 0.15)%Q in
         mk_Intervalo (p_fecha pred) (round2 (valor - margen)) (round2 (valor + margen)))
      predicciones.

Record Proyeccion : Type := mk_Proyeccion {
  mes : Z;
  proyeccion : Q;
  pr_confianza : Q
}.

(** [ProcesadorFederado._generar_proyecciones]; the series is the list of
    its values, [iloc[-1]] its last one. *)
Definition _generar_proyecciones (datos_historicos : list Q) (meses_futuro : Z)
  : list Proyeccion :=
  let ultimo_valor :=
    match datos_historicos with
    | [] => 1000%Q
    | _ :: _ => List.last datos_historicos 0%Q
    end in
  map (fun i =>
         let i := Z.of_nat i in
         mk_Proyeccion i
           (round2 (ultimo_valor * (1 + 0.02 * inject_Z i)))
           (Qmax 0.5 (0.9 - inject_Z i * 0.05)))
      (seq 1 (Z.to_nat meses_futuro)).

End Federado.

(** ** The submit handler of [src/api/main.py] *)
Module Api.
Import Py Np Federado.

(** What [AlmacenResultados.guardar_metadatos_contribucion] writes. *)
Record MetadatosSeguros : Type := mk_MetadatosSeguros {
  m_id : string;
  m_timestamp : string;
  m_tipo_modelo : string;
  m_giro_hash_parcial : string;
  m_metricas_validacion : dict Q;
  m_num_parametros : Z
}.

(** [AlmacenResultados]: the metadata files, and whether the directory
    can be written (a failing [open] raises [OSError]). *)
Record AlmacenResultados : Type := mk_AlmacenResultados {
  metadatos : gmap string MetadatosSeguros;
  escribible : bool
}.

(** The module-level objects of [main.py] and the tasks FastAPI has
    accepted for running after a response. *)
Record Servidor : Type := mk_Servidor {
  procesador_federado : ProcesadorFederado;
  almacen : AlmacenResultados;
  background_tasks : list (ModeloFederado * string)
}.

(** The body of a successful response. *)
Record Respuesta : Type := mk_Respuesta {
  r_status : string;
  r_contribucion_id : string;
  r_mensaje : string;
  r_timestamp : string
}.

(** [s[:8]] *)
Definition primeros8 (s : string) : string := String.substring 0 8 s.

(** [AlmacenResultados.guardar_metadatos_contribucion]; the dictionary the
    handler passes has no ["parametros"] key, so [num_parametros] is 0. *)
Definition guardar_metadatos_contribucion (self : AlmacenResultados)
    (contribucion_id : string) (modelo : ModeloFederado) : result AlmacenResultados :=
  let metadatos_seguros :=
    mk_MetadatosSeguros contribucion_id (timestamp modelo) (tipo_modelo modelo)
      (primeros8 (giro_hash modelo) +:+ "...") (metricas_validacion modelo) 0 in
  if escribible self
  then Ok (mk_AlmacenResultados
             (<[contribucion_id := metadatos_seguros]> (metadatos self)) true)
  else Raise OSError.

(** [str(e)]: Starlette's [HTTPException.__str__] is
    ["{status_code}: {detail}"]; the messages of the other exceptions are
    not modelled. *)
Definition str_exc (e : exc) : string :=
  match e with
  | HTTPException status_code detail => repr_int status_code +:+ ": " +:+ detail
  | KeyError clave => "'" +:+ clave +:+ "'"
  | _ => EmptyString
  end.

(** The two messages of the handler; their accented letters are the code
    points U+00F3 and U+00E1. *)
Definition detalle_400 : string :=
  "El modelo no cumple con los requisitos de anonimizaci"
    +:+ String (ascii_of_N 243) "n".

Definition mensaje_recibido : string :=
  "Modelo recibido y proces" +:+ String (ascii_of_N 225) "ndose de forma segura".

Section Handler.
Variable repr_float : Q -> string.

(** The [try] block of [enviar_modelo_federado].  [contribucion_id] is
    [sha256(f"{modelo.timestamp}_{uuid4()}").hexdigest()[:16]]. *)
Definition enviar_modelo_federado_try (srv : Servidor) (modelo : ModeloFederado)
    (contribucion_id : string) (ahora : string) : result (Servidor * Respuesta) :=
  if negb (validar_anonimizacion repr_float modelo) then
    Raise (HTTPException 400 detalle_400)
  else
    let tasks := background_tasks srv ++ [(modelo, contribucion_id)] in
    bind (guardar_metadatos_contribucion (almacen srv) contribucion_id modelo)
      (fun almacen' =>
         Ok (mk_Servidor (procesador_federado srv) almacen' tasks,
             mk_Respuesta "recibido" contribucion_id
               mensaje_recibido ahora)).

(** [enviar_modelo_federado]: every exception of the [try] block,
    the handler's own [HTTPException] included, is caught by
    [except Exception] and raised again as a 500.  A request that raises
    leaves the server as it was and queues no task. *)
Definition enviar_modelo_federado (srv : Servidor) (modelo : ModeloFederado)
    (contribucion_id : string) (ahora : string) : Servidor * result Respuesta :=
  match enviar_modelo_federado_try srv modelo contribucion_id ahora with
  | Ok (srv', respuesta) => (srv', Ok respuesta)
  | Raise e =>
      (srv, Raise (HTTPException 500 ("Error procesando modelo: " +:+ str_exc e)))
  end.

(** The status code FastAPI answers with. *)
Definition status_http {A} (r : result A) : Z :=
  match r with
  | Ok _ => 200
  | Raise (HTTPException status_code _) => status_code
  | Raise _ => 500
  end.
End Handler.

(** *** The fetch endpoint and the metrics endpoint *)

(** One row of [log_consultas]. *)
Record Consulta : Type := mk_Consulta {
  q_tipo_consulta : string;
  q_tipo_modelo : string;
  q_timestamp : string;
  q_resultado : string
}.

(** The audit log behind [AlmacenResultados.registrar_consulta_modelo],
    and whether the database can be written (a failing [INSERT] raises). *)
Record RegistroConsultas : Type := mk_RegistroConsultas {
  log_consultas : list Consulta;
  bd_escribible : bool
}.

(** [AlmacenResultados.registrar_consulta_modelo] *)
Definition registrar_consulta_modelo (self : RegistroConsultas) (tipo_modelo : string)
    (ahora : string) : result RegistroConsultas :=
  if bd_escribible self
  then Ok (mk_RegistroConsultas
             (log_consultas self
                ++ [mk_Consulta "modelo_agregado" tipo_modelo ahora "modelo_entregado"])
             true)
  else Raise OSError.

(** The [try] block of the handler [obtener_modelo_agregado] of
    [main.py]. *)
Definition obtener_modelo_agregado_try (procesador : ProcesadorFederado)
    (registro : RegistroConsultas) (tipo_modelo : string) (ahora : string)
  : result (RegistroConsultas * ModeloAgregado) :=
  match Federado.obtener_modelo_agregado procesador tipo_modelo with
  | None =>
      Raise (HTTPException 404
               ("No hay modelo agregado disponible para " +:+ tipo_modelo))
  | Some resultado =>
      bind (registrar_consulta_modelo registro tipo_modelo ahora) (fun registro' =>
        Ok (registro', resultado))
  end.

(** The handler [obtener_modelo_agregado] of [main.py]
    ([GET /federated/get-aggregated/{tipo_modelo}]). *)
Definition obtener_modelo_agregado_endpoint (procesador : ProcesadorFederado)
    (registro : RegistroConsultas) (tipo_modelo : string) (ahora : string)
  : RegistroConsultas * result ModeloAgregado :=
  match obtener_modelo_agregado_try procesador registro tipo_modelo ahora with
  | Ok (registro', resultado) => (registro', Ok resultado)
  | Raise e =>
      (registro, Raise (HTTPException 500 ("Error obteniendo modelo: " +:+ str_exc e)))
  end.

(** The body of a successful answer of the metrics endpoint. *)
Record RespuestaMetricas : Type := mk_RespuestaMetricas {
  rmt_status : string;
  rmt_metricas_id : string;
  rmt_contribuciones_totales : Z;
  rmt_timestamp : string
}.

(** The detail of the 400 of the metrics endpoint and the prefix of its
    500; the accented letters are U+00E9 and U+00F3. *)
Definition detalle_400_metricas : string :=
  "Las m" +:+ String (ascii_of_N 233)
    ("tricas no cumplen con los requisitos de anonimizaci"
       +:+ String (ascii_of_N 243) "n").

Definition prefijo_500_metricas : string :=
  "Error procesando m" +:+ String (ascii_of_N 233) "tricas: ".

Section HandlerMetricas.
Variable sha256_hexdigest : string -> string.

(** The handler [enviar_metricas_anonimas] of [main.py]. *)
Definition enviar_metricas_anonimas (estado : EstadoMetricas)
    (metricas : MetricasEmpresa) (ahora : string)
  : EstadoMetricas * result RespuestaMetricas :=
  let intento :=
    if negb (validar_metricas_anonimas metricas)
    then Raise (HTTPException 400 detalle_400_metricas)
    else
      let '(estado', resultado) :=
        procesar_metricas_anonimas sha256_hexdigest estado metricas in
      Ok (estado',
          mk_RespuestaMetricas "procesado" (res_id resultado)
            (total_contribuciones resultado) ahora) in
  match intento with
  | Ok (estado', respuesta) => (estado', Ok respuesta)
  | Raise e =>
      (estado, Raise (HTTPException 500 (prefijo_500_metricas +:+ str_exc e)))
  end.
End HandlerMetricas.

End Api.

(** ** The client-side gate of [src/cliente/cliente_federado.py] *)
Module Cliente.
Import Py Np Federado.

(** The fields of [ClienteFederado] the gate reads. *)
Record ClienteFederado : Type := mk_ClienteFederado {
  empresa_id : string;
  cf_giro_hash : string;
  min_muestras_entrenamiento : Z
}.

Section Validacion.
Variable repr_float : Q -> string.

(** [ClienteFederado._validar_anonimizacion_modelo] on the dictionary
    with the keys of a [ModeloFederado]. *)
Definition _validar_anonimizacion_modelo (self : ClienteFederado)
    (modelo : ModeloFederado) : bool :=
  let parametros_str := lower (json_dumps repr_float (VDict (parametros modelo))) in
  let identificadores_prohibidos :=
    [lower (empresa_id self); "empresa"; "nombre"; "direccion"; "telefono";
     "email"]%string in
  if existsb (fun identificador => py_in identificador parametros_str)
       identificadores_prohibidos
  then false
  else if negb (String.eqb (giro_hash modelo) (cf_giro_hash self)) then false
  else if num_muestras_entrenamiento modelo <? min_muestras_entrenamiento self
  then false
  else true.
End Validacion.

End Cliente.

(** ** Concrete contributions used by the examples below *)
Module Ejemplos.
Import Py Np Federado Api.

Definition hash16 : string := "0123456789abcdef".

Definition g0 : generador := mk_generador (fun i => inject_Z (Z.of_nat i) + (1 # 4))%Q 0.

Definition repr0 : Q -> string := fun _ => "0.0"%string.

(** A contribution with the given parameters, metrics and sample count. *)
Definition contrib (params : dict valor) (metricas : dict Q) (n : Z) : Contribucion :=
  mk_Contribucion "id" "2024-01-01T00:00:00" hash16 params metricas n.

(** The model a client submits for such a contribution. *)
Definition modelo (tipo : string) (params : dict valor) (metricas : dict Q) (n : Z)
  : ModeloFederado :=
  mk_ModeloFederado tipo params hash16 "2024-01-01T00:00:00" metricas "1.0" n.

(** Sample counts 100, 200, 300 and the scalar ["coef"] = 1, 2, 3. *)
Definition coef123 : list Contribucion :=
  [contrib [("coef"%string, VInt 1)] [] 100;
   contrib [("coef"%string, VInt 2)] [] 200;
   contrib [("coef"%string, VInt 3)] [] 300].

Definition sin_ruido : ConfiguracionPrivacidad :=
  mk_ConfiguracionPrivacidad 3 false 1 90.

(** Three regression contributions whose r2 is negative. *)
Definition r2_negativo : list Contribucion :=
  [contrib [] [("r2"%string, - (1 # 2))%Q] 100;
   contrib [] [("r2"%string, - (1 # 2))%Q] 100;
   contrib [] [("r2"%string, - (1 # 2))%Q] 100].

(** The same, one contribution more. *)
Definition r2_negativo4 : list Contribucion :=
  contrib [] [("r2"%string, - (1 # 2))%Q] 100 :: r2_negativo.

(** The first contribution reports no metric, the later ones an r2. *)
Definition primera_sin_metricas : list Contribucion :=
  [contrib [] [] 100;
   contrib [] [("r2"%string, 9 # 10)%Q] 200;
   contrib [] [("r2"%string, 8 # 10)%Q] 300].

(** A model whose only parameter is ["nombre_cliente"]. *)
Definition con_nombre_cliente (v : valor) : ModeloFederado :=
  modelo "prediccion_demanda" [("nombre_cliente"%string, v)] [] 1000.

(** A model whose only parameter is ["rfc"]: the validators of
    [ModeloFederado] accept it and the gate does not. *)
Definition con_rfc : ModeloFederado :=
  modelo "prediccion_demanda" [("rfc"%string, VInt 5)] [] 1000.

Definition almacen0 : AlmacenResultados := mk_AlmacenResultados ∅ true.

Definition servidor0 : Servidor := mk_Servidor (nuevo g0) almacen0 [].

(** Two contributions with ["coef"] = 6 and one, in the middle, without
    the key. *)
Definition media_muestra : list Contribucion :=
  [contrib [("coef"%string, VInt 6)] [("r2"%string, 9 # 10)%Q] 100;
   contrib [] [] 100;
   contrib [("coef"%string, VInt 6)] [("r2"%string, 9 # 10)%Q] 100].

(** An aggregated model with a scalar, a vector of numbers, a list of
    tree descriptors and a matrix among its parameters. *)
Definition modelo_mixto : ModeloAgregado :=
  mk_ModeloAgregado "generico"
    [("coef"%string, VFloat 2);
     ("vector"%string, VList [VFloat 1; VInt 2]);
     ("arboles"%string, VList [VStr "hoja"]);
     ("matriz"%string, VList [VList [VFloat 1]])]
    3 [("r2"%string, 9 # 10)%Q] "2024-01-01T00:00:00" (3 # 10) "1.0".

(** An aggregated classification model whose only parameter is a
    confusion matrix. *)
Definition con_matriz_confusion : ModeloAgregado :=
  mk_ModeloAgregado "clasificacion_viajero"
    [("matriz_confusion"%string,
      VList [VList [VFloat 5; VFloat 1]; VList [VFloat 2; VFloat 7]])]
    3 [("accuracy"%string, 9 # 10)%Q] "2024-01-01T00:00:00" (27 # 100) "1.0".

(** A vector of integers. *)
Definition vec (l : list Z) : valor := VList (map VInt l).

(** Three regression contributions whose coefficient vectors have the
    lengths 2, 3 and 2. *)
Definition coeficientes_desiguales : list Contribucion :=
  [contrib [("coeficientes"%string, vec [1; 2]%Z)] [("mse"%string, 1 # 2)%Q] 100;
   contrib [("coeficientes"%string, vec [1; 2; 3]%Z)] [("mse"%string, 1 # 2)%Q] 200;
   contrib [("coeficientes"%string, vec [1; 2]%Z)] [("mse"%string, 1 # 2)%Q] 300].

(** The background task that submits a contribution under a model type. *)
Definition tarea_de (c : Contribucion) (tipo : string) : tarea :=
  (mk_ModeloFederado tipo (c_parametros c) (c_giro_hash c) (c_timestamp c)
     (c_metricas c) "1.0" (c_num_muestras c), c_id c, "2024-01-02T00:00:00"%string).

Definition tareas_desiguales : list tarea :=
  map (fun c => tarea_de c "prediccion_demanda") coeficientes_desiguales.

(** Three regression contributions, the second without
    ["coeficientes"]. *)
Definition sin_coeficientes : list Contribucion :=
  [contrib [("coeficientes"%string, vec [1; 2]%Z)] [("mse"%string, 1 # 2)%Q] 100;
   contrib [("intercepto"%string, VInt 1)] [("mse"%string, 1 # 2)%Q] 200;
   contrib [("coeficientes"%string, vec [1; 2]%Z)] [("mse"%string, 1 # 2)%Q] 300].

Definition tareas_sin_coeficientes : list tarea :=
  map (fun c => tarea_de c "prediccion_demanda") sin_coeficientes.

(** Two tasks for one model type. *)
Definition dos_tareas : list tarea :=
  [tarea_de (contrib [("coef"%string, VInt 1)] [] 100) "optimizacion_precios";
   tarea_de (contrib [("coef"%string, VInt 2)] [] 200) "optimizacion_precios"].

(** Metrics of one month, with a segment hash of 16 characters and
    with one of 3. *)
Definition metricas_ok : MetricasEmpresa :=
  mk_MetricasEmpresa hash16 "2024-01-01" "2024-01-31"
    [("ingresos"%string, VFloat 1000); ("clientes"%string, VInt 40)]
    "2024-02-01T00:00:00" None None None None.

Definition metricas_hash_corto : MetricasEmpresa :=
  mk_MetricasEmpresa "abc" "2024-01-01" "2024-01-31"
    [("ingresos"%string, VFloat 1000)] "2024-02-01T00:00:00" None None None None.

(** A stand-in for SHA-256 in the examples. *)
Definition sha0 : string -> string :=
  fun s => ("00000000000000000000000000000000" +:+ s)%string.

(** No metrics received yet. *)
Definition estado_vacio : EstadoMetricas := mk_EstadoMetricas ∅ ∅.

(** Three classification contributions with class probabilities. *)
Definition probabilidades3 : list Contribucion :=
  [contrib [("probabilidades_clase"%string, VList [VFloat (1 # 2); VFloat (1 # 2)])]
     [("accuracy"%string, 9 # 10)%Q] 100;
   contrib [("probabilidades_clase"%string, VList [VFloat (1 # 4); VFloat (3 # 4)])]
     [("accuracy"%string, 8 # 10)%Q] 300;
   contrib [("probabilidades_clase"%string, VList [VInt 1; VInt 0])]
     [("accuracy"%string, 7 # 10)%Q] 100].

(** Two ensemble contributions with four and two tree descriptors. *)
Definition con_arboles : list Contribucion :=
  [contrib [("arboles"%string, VList [VStr "a1"; VStr "a2"; VStr "a3"; VStr "a4"])]
     [] 300;
   contrib [("arboles"%string, VList [VStr "b1"; VStr "b2"])] [] 100].

(** A client with an id, and one whose id is the empty string. *)
Definition cliente0 : Cliente.ClienteFederado :=
  Cliente.mk_ClienteFederado "EMP001" hash16 100.

Definition cliente_sin_id : Cliente.ClienteFederado :=
  Cliente.mk_ClienteFederado EmptyString hash16 100.


(** A model type that holds a null byte, and two tasks under it. *)
Definition tipo_con_nul : string := String (ascii_of_nat 0) "modelo".

Definition dos_tareas_con_nul : list tarea :=
  [tarea_de (contrib [("coef"%string, VInt 1)] [] 100) tipo_con_nul;
   tarea_de (contrib [("coef"%string, VInt 2)] [] 200) tipo_con_nul].

(** Three and four regression contributions with r2 = 0.8. *)
Definition r2_bueno3 : list Contribucion :=
  [contrib [] [("r2"%string, 8 # 10)%Q] 100;
   contrib [] [("r2"%string, 8 # 10)%Q] 100;
   contrib [] [("r2"%string, 8 # 10)%Q] 100].

Definition r2_bueno4 : list Contribucion :=
  contrib [] [("r2"%string, 8 # 10)%Q] 100 :: r2_bueno3.

End Ejemplos.

(** ** The quantities the specification names *)
Module Especificacion.
Import Py Np Federado.

(** The base confidence for [n] contributions:
    min(0.9, 0.3 + (n - 3) * 0.1). *)
Definition confianza_base (n : Z) : Q :=
  Qmin 0.9 (0.3 + (inject_Z n - 3) * 0.1)%Q.

(** The primary quality metric of a contribution: its ["r2"], or its
    ["accuracy"] when it has no ["r2"]. *)
Definition metrica_principal (c : Contribucion) : option Q :=
  match dict_get (c_metricas c) "r2" with
  | Some v => Some v
  | None => dict_get (c_metricas c) "accuracy"
  end.

(** The primary quality metrics of the contributions that have one. *)
Definition calidades (contribuciones : list Contribucion) : list Q :=
  omap metrica_principal contribuciones.

(** A lower-case ASCII letter or an underscore: the characters the
    blocklisted identifiers are made of. *)
Definition plano (c : ascii) : bool :=
  let n := code c in
  (((97 <=? n) && (n <=? 122)) || (n =? 95))%N.

Fixpoint todos_planos (s : string) : bool :=
  match s with
  | EmptyString => true
  | String c s' => plano c && todos_planos s'
  end.

(** The number a Python number stands for in arithmetic. *)
Definition valor_de (v : valor) : Q :=
  match number_value v with Some q => q | None => 0%Q end.

(** The value a contribution brings to the average of a parameter: its
    own value for the key, or 0 when it lacks the key. *)
Definition valor_o_cero (clave : string) (c : Contribucion) : Q :=
  match dict_get (c_parametros c) clave with
  | Some v => valor_de v
  | None => 0%Q
  end.

(** The same for a validation metric. *)
Definition metrica_o_cero (metrica : string) (c : Contribucion) : Q :=
  match dict_get (c_metricas c) metrica with
  | Some x => x
  | None => 0%Q
  end.

(** The weighted sum of the values [xs] with the weights [ws]. *)
Definition suma_ponderada (xs ws : list Q) : Q := Qsum (mul_data xs ws).

(** The list [valores] of the generic aggregation for a parameter key and
    for a metric. *)
Definition valores_de (contribuciones : list Contribucion) (clave : string)
  : list valor :=
  map (fun c => dict_get_default (c_parametros c) clave (VInt 0)) contribuciones.

Definition valores_metrica (contribuciones : list Contribucion) (metrica : string)
  : list valor :=
  map (fun c => VFloat (dict_get_default (c_metricas c) metrica 0%Q)) contribuciones.

(** The [i]-th draw after the state [g] of the generator, at scale
    [escala]: a Laplace(0, escala) variate. *)
Definition sorteo (escala : Q) (g : generador) (i : nat) : Q :=
  (0 + escala * variates g (consumidos g + i))%Q.

(** [n] successive draws from the [i]-th on. *)
Definition sorteos (escala : Q) (g : generador) (i n : nat) : list Q :=
  map (fun j => sorteo escala g (i + j)) (seq 0 n).

(** The number of draws an entry of the parameters takes: one for a
    scalar, one per element for a vector of numbers, none otherwise. *)
Definition sorteos_de (v : valor) : nat :=
  if is_number v then 1%nat
  else match v with
       | VList l => if forallb is_number l then length l else 0%nat
       | _ => 0%nat
       end.

(** A vector of numbers after the noise pass: the element at position
    [j] is increased by the draw number [i + j]. *)
Fixpoint perturbar_lista (escala : Q) (g : generador) (i : nat) (l : list valor)
  : list valor :=
  match l with
  | [] => []
  | x :: l' =>
      VFloat (valor_de x + sorteo escala g i) :: perturbar_lista escala g (S i) l'
  end.

(** An entry after the noise pass, when the draws before it number [i]. *)
Definition perturbar_valor (escala : Q) (g : generador) (i : nat) (v : valor) : valor :=
  if is_number v then VFloat (valor_de v + sorteo escala g i)
  else match v with
       | VList l => if forallb is_number l then VList (perturbar_lista escala g i l) else v
       | _ => v
       end.

(** The parameters after the noise pass. *)
Fixpoint perturbar (escala : Q) (g : generador) (i : nat) (items : dict valor)
  : dict valor :=
  match items with
  | [] => []
  | (k, v) :: rest =>
      (k, perturbar_valor escala g i v) :: perturbar escala g (i + sorteos_de v) rest
  end.

(** The number of draws the noise pass takes on a dictionary. *)
Definition total_sorteos (items : dict valor) : nat :=
  fold_right (fun kv n => (sorteos_de (snd kv) + n)%nat) 0%nat items.

(** The generator after [i] more draws. *)
Definition avanzar (g : generador) (i : nat) : generador :=
  mk_generador (variates g) (consumidos g + i).

(** The vector of numbers a contribution has under a key, if it has one. *)
Definition vector_de (clave : string) (c : Contribucion) : option (list valor) :=
  match dict_get (c_parametros c) clave with
  | Some (VList l) => if forallb is_number l then Some l else None
  | _ => None
  end.

(** No aggregated model is registered for a type that has fewer stored
    contributions than the quorum. *)
Definition quorum_respetado (self : ProcesadorFederado) : Prop :=
  forall tipo,
    is_Some (modelos_activos self !! tipo) ->
    min_contribuciones (configuracion_privacidad self) <= num_almacenadas self tipo.

(** The number of metrics submissions stored for a segment hash. *)
Definition num_metricas (self : EstadoMetricas) (giro : string) : Z :=
  Z.of_nat (length (default [] (metricas_por_giro self !! giro))).

(** The number of submissions of a list that carry a segment hash. *)
Definition envios_de (giro : string) (envios : list MetricasEmpresa) : Z :=
  Z.of_nat (length (List.filter (fun e => String.eqb (me_giro_hash e) giro) envios)).

(** The contributions a list of tasks appends for a model type, in
    order. *)
Definition contribuciones_de_tipo (tipo : string) (tareas : list tarea)
  : list Contribucion :=
  flat_map (fun '(modelo, contribucion_id, _) =>
              if String.eqb (tipo_modelo modelo) tipo
              then [contribucion_de modelo contribucion_id] else [])
           tareas.

(** An entry the noise pass perturbs. *)
Definition es_numerico (v : valor) : bool := is_number v || is_number_list v.

(** The vector of a contribution under a key, empty when it has none. *)
Definition vector_o_vacio (clave : string) (c : Contribucion) : list Q :=
  map valor_de (default [] (vector_de clave c)).

(** One weighted array of the sum: the vector of a contribution, of
    length [k], times its weight. *)
Definition ponderado (clave : string) (k : nat) (cw : Contribucion * Q) : ndarray :=
  np_scale (mk_ndarray [k] (vector_o_vacio clave (fst cw))) (snd cw).

(** The list of trees of a contribution, empty when it has none. *)
Definition arboles_de (c : Contribucion) : list valor :=
  match dict_get (c_parametros c) "arboles" with
  | Some (VList l) => l
  | _ => []
  end.

(** The number of trees taken from a list of [n] trees at weight [w]. *)
Definition num_arboles_de (n : nat) (w : Q) : nat :=
  Z.to_nat (Z.max 1 (py_int (inject_Z (Z.of_nat n) * w))).

(** The processor in which the snapshot of a model type has just been
    replaced, before the file of the snapshot is written. *)
Definition con_agregado (self : ProcesadorFederado) (tipo : string)
    (m : ModeloAgregado) (g' : generador) : ProcesadorFederado :=
  mk_ProcesadorFederado (<[tipo := m]> (modelos_activos self)) (contribuciones self)
    (configuracion_privacidad self) g' (archivos_modelos self)
    (archivos_contribuciones self) (error_de_escritura self).

(** What an append re-raises once its aggregation has returned, or when
    none is due: the error of the first file that cannot be written, the
    file of the snapshot coming before that of the contribution. *)
Definition error_al_guardar (self : ProcesadorFederado) (rutas : list string)
  : option exc :=
  fold_right (fun ruta resto =>
                match error_de_escritura self ruta with
                | Some e => Some e
                | None => resto
                end) None rutas.

(** The unweighted arithmetic mean. *)
Definition media (l : list Q) : Q :=
  (Qsum l / inject_Z (Z.of_nat (length l)))%Q.

End Especificacion.

(** * Properties *)
Import Py Np Federado Api Cliente Especificacion.

(** ** Sums of rationals *)

Lemma Qsum_app (l1 l2 : list Q) : (Qsum (l1 ++ l2) == Qsum l1 + Qsum l2)%Q.
Proof.
  induction l1 as [|x l1 IH]; simpl.
  - ring.
  - rewrite IH. ring.
Qed.

Lemma Qsum_map_div (l : list Z) (t : Q) :
  (Qsum (map (fun n => inject_Z n / t) l) == inject_Z (fold_right Z.add 0%Z l) / t)%Q.
Proof.
  induction l as [|n l IH]; simpl.
  - unfold Qdiv. ring.
  - rewrite IH, inject_Z_plus. unfold Qdiv. ring.
Qed.

Lemma suma_positiva (l : list Z) :
  l <> [] -> Forall (fun n => 0 < n)%Z l -> (0 < fold_right Z.add 0 l)%Z.
Proof.
  intros Hne Hpos. destruct l as [|n l]; [congruence|].
  inversion Hpos as [|? ? Hn Hl]; subst. simpl.
  assert (0 <= fold_right Z.add 0 l)%Z.
  { clear -Hl. induction Hl; simpl; lia. }
  lia.
Qed.

(** Below 2^63 the 64-bit sum is the sum. *)
Lemma int64_sin_desborde (z : Z) :
  (- 2 ^ 63 <= z < 2 ^ 63)%Z -> int64 z = z.
Proof.
  intros Hz. unfold int64. rewrite Z.mod_small; lia.
Qed.

Lemma normalizar_sin_desborde (l : list Z) :
  l <> [] -> Forall (fun n => 0 < n)%Z l -> (fold_right Z.add 0 l < 2 ^ 63)%Z ->
  normalizar l = map (fun n => inject_Z n / inject_Z (fold_right Z.add 0%Z l))%Q l.
Proof.
  intros Hne Hpos Hcota. unfold normalizar.
  pose proof (suma_positiva l Hne Hpos) as Ht.
  rewrite int64_sin_desborde by lia. reflexivity.
Qed.

Lemma Qsum_normalizar (l : list Z) :
  l <> [] -> Forall (fun n => 0 < n)%Z l -> (fold_right Z.add 0 l < 2 ^ 63)%Z ->
  (Qsum (normalizar l) == 1)%Q.
Proof.
  intros Hne Hpos Hcota. rewrite normalizar_sin_desborde by assumption.
  rewrite Qsum_map_div.
  apply Qmult_inv_r.
  pose proof (suma_positiva l Hne Hpos) as Ht.
  intros Heq. apply (Qlt_not_eq 0 (inject_Z (fold_right Z.add 0%Z l))).
  - rewrite <- (Zlt_Qlt 0). exact Ht.
  - symmetry. exact Heq.
Qed.

(** ** Aggregation weights *)




(** C6: the contributions with sample counts 100, 200, 300 and scalar
    ["coef"] = 1, 2, 3, aggregated with the noise pass disabled, get the
    weights 1/6, 2/6, 3/6 and the aggregated scalar 7/3 under ["coef"]. *)
Theorem agregacion_coef123 (g : generador) (ahora : string) :
  Forall2 Qeq (pesos_de Ejemplos.coef123) [1 # 6; 2 # 6; 3 # 6]%Q
  /\ exists m q,
       modelo_nuevo Ejemplos.sin_ruido g "optimizacion_precios" Ejemplos.coef123 ahora
       = Ok (m, g)
       /\ parametros_agregados m = [("coef"%string, VFloat q)]
       /\ (q == 1 * (1 # 6) + 2 * (2 # 6) + 3 * (3 # 6))%Q
       /\ (q == 7 # 3)%Q.
Proof.
  split.
  - repeat constructor.
  - eexists. eexists. split; [vm_compute; reflexivity|].
    split; [reflexivity|]. split; reflexivity.
Qed.

(** ** The confidence score *)

Lemma calidades_flat_map (contribuciones : list Contribucion) :
  flat_map (fun contrib =>
              match dict_get (c_metricas contrib) "r2" with
              | Some v => [v]
              | None =>
                  match dict_get (c_metricas contrib) "accuracy" with
                  | Some v => [v]
                  | None => []
                  end
              end) contribuciones
  = calidades contribuciones.
Proof.
  unfold calidades. induction contribuciones as [|c cs IH]; [reflexivity|].
  cbn [flat_map omap list_omap]. rewrite IH.
  unfold metrica_principal.
  destruct (dict_get (c_metricas c) "r2"); [reflexivity|].
  destruct (dict_get (c_metricas c) "accuracy"); reflexivity.
Qed.

Lemma calidades_solo_metricas (cs cs' : list Contribucion) :
  map c_metricas cs' = map c_metricas cs -> calidades cs' = calidades cs.
Proof.
  unfold calidades. revert cs'.
  induction cs as [|c cs IH]; intros [|c' cs'] Heq; try discriminate; [reflexivity|].
  injection Heq as Hc Hcs. cbn [omap list_omap].
  assert (Hm : metrica_principal c' = metrica_principal c).
  { unfold metrica_principal. rewrite Hc. reflexivity. }
  rewrite Hm, (IH _ Hcs). reflexivity.
Qed.

Lemma _calcular_confianza_eq (c0 : Contribucion) (resto : list Contribucion) :
  _calcular_confianza (c0 :: resto)
  = Ok (round3
          (match c_metricas c0, calidades (c0 :: resto) with
           | _ :: _, _ :: _ =>
               confianza_base (Z.of_nat (length (c0 :: resto)))
               * media (calidades (c0 :: resto))
           | _, _ => confianza_base (Z.of_nat (length (c0 :: resto)))
           end)%Q).
Proof.
  unfold _calcular_confianza. cbn [primero bind].
  rewrite calidades_flat_map.
  destruct (c_metricas c0); [reflexivity|].
  destruct (calidades (c0 :: resto)); reflexivity.
Qed.

(** C3: on three regression contributions whose r2 is -0.5 the function
    returns -0.15, outside [0,1], and with a fourth such contribution it
    returns -0.2: the score is not clamped, and it decreases with the
    contribution count when the mean quality is negative. *)
Theorem confianza_r2_negativo :
  exists q3 q4,
    _calcular_confianza Ejemplos.r2_negativo = Ok q3
    /\ _calcular_confianza Ejemplos.r2_negativo4 = Ok q4
    /\ (q3 == - (15 # 100))%Q /\ (q4 == - (2 # 10))%Q
    /\ ~ (0 <= q3)%Q /\ (q4 < q3)%Q.
Proof.
  eexists. eexists.
  split; [vm_compute; reflexivity|].
  split; [vm_compute; reflexivity|].
  repeat split; try reflexivity.
  intros H. vm_compute in H. apply H. reflexivity.
Qed.

(** C10: the quality adjustment is applied only when the first stored
    contribution has a non-empty metrics dictionary; with an empty one the
    score is the rounded base value whatever the later contributions
    report.  When applied, the factor is the unweighted mean of the primary
    metric (r2, or accuracy for a contribution without r2) over the
    contributions that have one, and the sample counts play no part: two
    lists with the same metrics dictionaries get the same score. *)
Theorem confianza_depende_de_la_primera (c0 : Contribucion) (resto : list Contribucion) :
  let cs := c0 :: resto in
  let base := confianza_base (Z.of_nat (length cs)) in
  (c_metricas c0 = [] -> _calcular_confianza cs = Ok (round3 base))
  /\ (c_metricas c0 <> [] -> calidades cs <> [] ->
      _calcular_confianza cs = Ok (round3 (base * media (calidades cs))))
  /\ (calidades cs = [] -> _calcular_confianza cs = Ok (round3 base))
  /\ (forall cs', map c_metricas cs' = map c_metricas cs ->
      _calcular_confianza cs' = _calcular_confianza cs).
Proof.
  intros cs base. subst cs base. rewrite _calcular_confianza_eq.
  repeat split.
  - intros ->. reflexivity.
  - intros H1 H2. destruct (c_metricas c0); [congruence|].
    destruct (calidades (c0 :: resto)); [congruence|]. reflexivity.
  - intros ->. destruct (c_metricas c0); reflexivity.
  - intros [|c0' resto'] Heq; [discriminate|].
    rewrite _calcular_confianza_eq.
    rewrite (calidades_solo_metricas _ _ Heq).
    assert (Hlen : length (c0' :: resto') = length (c0 :: resto)).
    { rewrite <- (length_map c_metricas (c0' :: resto')), Heq. apply length_map. }
    rewrite Hlen. injection Heq as -> _. reflexivity.
Qed.

Lemma confianza_depende_de_la_primera_witness :
  _calcular_confianza Ejemplos.primera_sin_metricas
  = Ok (round3 (confianza_base 3)).
Proof.
  apply (confianza_depende_de_la_primera
           (Ejemplos.contrib [] [] 100)
           [Ejemplos.contrib [] [("r2"%string, 9 # 10)%Q] 200;
            Ejemplos.contrib [] [("r2"%string, 8 # 10)%Q] 300]).
  reflexivity.
Defined.

(** ** Strings and the serialised parameters *)

Lemma prefix_app (sub a b : string) :
  String.prefix sub a = true -> String.prefix sub (a +:+ b) = true.
Proof.
  revert a. induction sub as [|c sub IH]; intros a H.
  - destruct (a +:+ b); reflexivity.
  - destruct a as [|x a]; [discriminate|]. simpl in *.
    destruct (ascii_dec c x); [apply IH; exact H | discriminate].
Qed.

Lemma py_in_unfold (sub : string) (c : ascii) (s : string) :
  py_in sub (String c s) = String.prefix sub (String c s) || py_in sub s.
Proof. reflexivity. Qed.

Lemma py_in_app_l (sub a b : string) :
  py_in sub a = true -> py_in sub (a +:+ b) = true.
Proof.
  induction a as [|x a IH]; intros H.
  - destruct sub; [|discriminate]. destruct b; reflexivity.
  - change (String x a +:+ b) with (String x (a +:+ b)).
    rewrite py_in_unfold in *. apply orb_true_iff in H as [H|H].
    + apply orb_true_iff. left.
      apply (prefix_app sub (String x a) b H).
    + apply orb_true_iff. right. apply IH, H.
Qed.

Lemma py_in_app_r (sub a b : string) :
  py_in sub b = true -> py_in sub (a +:+ b) = true.
Proof.
  intros H. induction a as [|x a IH]; [exact H|].
  change (String x a +:+ b) with (String x (a +:+ b)).
  rewrite py_in_unfold, IH. apply orb_true_r.
Qed.

Lemma lower_app (a b : string) : lower (a +:+ b) = lower a +:+ lower b.
Proof.
  induction a as [|x a IH]; [reflexivity|].
  simpl. rewrite IH. reflexivity.
Qed.

(** A character whose lower-case form is a letter or an underscore is
    copied by the JSON encoder as it is. *)
Lemma escape_char_plano (x : ascii) :
  plano (lower_char x) = true -> escape_char x = String x EmptyString.
Proof.
  destruct x as [[] [] [] [] [] [] [] []]; vm_compute; intros H;
    solve [reflexivity | discriminate H].
Qed.

Lemma prefix_lower_escape (sub k : string) :
  todos_planos sub = true ->
  String.prefix sub (lower k) = true ->
  String.prefix sub (lower (escape k)) = true.
Proof.
  revert k. induction sub as [|c sub IH]; intros k Hp H.
  - destruct (lower (escape k)); reflexivity.
  - destruct k as [|x k]; [discriminate|].
    simpl in Hp. apply andb_true_iff in Hp as [Hc Hsub].
    cbn [lower String.prefix] in H.
    destruct (ascii_dec c (lower_char x)) as [->|]; [|discriminate].
    cbn [escape]. rewrite (escape_char_plano x Hc).
    change (String x EmptyString +:+ escape k) with (String x (escape k)).
    cbn [lower String.prefix].
    destruct (ascii_dec (lower_char x) (lower_char x)); [|congruence].
    apply IH; assumption.
Qed.

Lemma py_in_lower_escape (sub k : string) :
  todos_planos sub = true ->
  py_in sub (lower k) = true ->
  py_in sub (lower (escape k)) = true.
Proof.
  intros Hp. induction k as [|x k IH]; intros H.
  - exact H.
  - cbn [lower] in H. rewrite py_in_unfold in H.
    apply orb_true_iff in H as [H|H].
    + assert (Hpre : String.prefix sub (lower (escape (String x k))) = true).
      { apply prefix_lower_escape; [exact Hp | exact H]. }
      destruct (lower (escape (String x k))) as [|y r] eqn:E.
      * destruct sub; [reflexivity | discriminate].
      * rewrite py_in_unfold, Hpre. reflexivity.
    + cbn [escape]. rewrite lower_app. apply py_in_app_r, IH, H.
Qed.

Lemma py_in_lower_join (sub sep x : string) (l : list string) :
  In x l -> py_in sub (lower x) = true -> py_in sub (lower (join sep l)) = true.
Proof.
  intros Hin Hx. induction l as [|y l IH]; [contradiction|].
  destruct l as [|z l].
  - destruct Hin as [->|[]]. exact Hx.
  - change (join sep (y :: z :: l)) with (y +:+ sep +:+ join sep (z :: l)).
    rewrite !lower_app. destruct Hin as [->|Hin].
    + apply py_in_app_l, Hx.
    + apply py_in_app_r, py_in_app_r, IH, Hin.
Qed.

(** A key of the parameters that contains an identifier made of plain
    characters, in any case, shows in the case-folded serialisation. *)
Lemma clave_en_parametros_str (repr_float : Q -> string) (d : dict valor)
    (clave : string) (v : valor) (sub : string) :
  In (clave, v) d ->
  todos_planos sub = true ->
  py_in sub (lower clave) = true ->
  py_in sub (lower (json_dumps repr_float (VDict d))) = true.
Proof.
  intros Hin Hp Hsub.
  change (json_dumps repr_float (VDict d))
    with ("{" +:+ join ", "
            (map (fun kv => json_str (fst kv) +:+ ": " +:+ json_dumps repr_float (snd kv)) d)
            +:+ "}")%string.
  rewrite !lower_app. apply py_in_app_r, py_in_app_l.
  apply (py_in_lower_join sub ", "
           (json_str clave +:+ ": " +:+ json_dumps repr_float v)).
  - apply (in_map (fun kv => json_str (fst kv) +:+ ": " +:+ json_dumps repr_float (snd kv))
             d (clave, v) Hin).
  - rewrite lower_app. apply py_in_app_l.
    unfold json_str.
    change (String dquote (escape clave +:+ String dquote EmptyString))
      with (String dquote EmptyString +:+ (escape clave +:+ String dquote EmptyString)).
    rewrite !lower_app. apply py_in_app_r, py_in_app_l.
    apply py_in_lower_escape; assumption.
Qed.

Lemma prefix_spec (sub s : string) :
  String.prefix sub s = true <-> exists b, s = sub +:+ b.
Proof.
  revert s. induction sub as [|c sub IH]; intros s.
  - split; [intros _; exists s; reflexivity | intros _; destruct s; reflexivity].
  - destruct s as [|x s].
    + split; [discriminate | intros [b Hb]; discriminate Hb].
    + simpl. destruct (ascii_dec c x) as [->|Hne].
      * rewrite IH. split; intros [b Hb]; exists b.
        -- rewrite Hb. reflexivity.
        -- injection Hb as Hb. exact Hb.
      * split; [discriminate|]. intros [b Hb]. injection Hb as Hc _. congruence.
Qed.

(** [py_in] is Python's substring test. *)
Lemma py_in_spec (sub s : string) :
  py_in sub s = true <-> exists a b, s = a +:+ sub +:+ b.
Proof.
  split.
  - induction s as [|x s IH]; intros H.
    + destruct sub; [|discriminate]. exists EmptyString, EmptyString. reflexivity.
    + rewrite py_in_unfold in H. apply orb_true_iff in H as [H|H].
      * apply prefix_spec in H as [b Hb]. exists EmptyString, b. exact Hb.
      * destruct (IH H) as (a & b & ->). exists (String x a), b. reflexivity.
  - intros (a & b & ->). apply py_in_app_r.
    destruct sub as [|c sub]; [destruct b; reflexivity|].
    change (String c sub +:+ b) with (String c (sub +:+ b)).
    rewrite py_in_unfold. apply orb_true_iff. left.
    apply prefix_spec. exists b. reflexivity.
Qed.

Lemma app_assoc_string (a b c : string) : (a +:+ b) +:+ c = a +:+ (b +:+ c).
Proof.
  induction a as [|x a IH]; [reflexivity|].
  change (String x ((a +:+ b) +:+ c) = String x (a +:+ (b +:+ c))).
  rewrite IH. reflexivity.
Qed.

Lemma py_in_trans (a b c : string) :
  py_in a b = true -> py_in b c = true -> py_in a c = true.
Proof.
  rewrite !py_in_spec. intros (a1 & a2 & ->) (b1 & b2 & ->).
  exists (b1 +:+ a1), (a2 +:+ b2).
  rewrite !app_assoc_string. reflexivity.
Qed.

(** Every key the pydantic validator forbids contains an identifier the
    gate forbids. *)
Lemma claves_prohibidas_cubiertas (prohibida : string) :
  In prohibida claves_prohibidas ->
  exists identificador,
    In identificador identificadores_prohibidos
    /\ py_in identificador prohibida = true.
Proof.
  intros H. simpl in H.
  destruct H as [<-|[<-|[<-|[<-|[<-|[]]]]]].
  - exists "empresa"%string. split; [simpl; tauto | reflexivity].
  - exists "nombre"%string. split; [simpl; tauto | reflexivity].
  - exists "direccion"%string. split; [simpl; tauto | reflexivity].
  - exists "telefono"%string. split; [simpl; tauto | reflexivity].
  - exists "email"%string. split; [simpl; tauto | reflexivity].
Qed.

Lemma identificadores_planos :
  forallb todos_planos identificadores_prohibidos = true.
Proof. reflexivity. Qed.

(** ** The anonymization gate and the submit handler *)

Section Puerta.
Variable repr_float : Q -> string.

Lemma validar_anonimizacion_false (modelo : ModeloFederado) :
  validar_anonimizacion repr_float modelo = false
  <-> ((String.length (giro_hash modelo) < 16)%nat
       \/ (exists identificador,
             In identificador identificadores_prohibidos
             /\ py_in identificador
                  (lower (json_dumps repr_float (VDict (parametros modelo)))) = true)
       \/ (num_muestras_entrenamiento modelo < 50)%Z).
Proof.
  unfold validar_anonimizacion.
  destruct (Nat.ltb_spec (String.length (giro_hash modelo)) 16) as [Hh|Hh].
  { split; [intros _; left; exact Hh | reflexivity]. }
  destruct (existsb _ identificadores_prohibidos) eqn:Hex.
  { split; [intros _|reflexivity]. right. left.
    apply existsb_exists in Hex. exact Hex. }
  assert (Hno : ~ exists identificador,
             In identificador identificadores_prohibidos
             /\ py_in identificador
                  (lower (json_dumps repr_float (VDict (parametros modelo)))) = true).
  { intros Hsome. apply existsb_exists in Hsome. congruence. }
  destruct (Z.ltb_spec (num_muestras_entrenamiento modelo) 50) as [Hn|Hn].
  { split; [intros _; right; right; exact Hn | reflexivity]. }
  split; [discriminate|].
  intros [H|[H|H]]; [lia | contradiction | lia].
Qed.

Lemma enviar_rechazado (srv : Servidor) (modelo : ModeloFederado)
    (contribucion_id ahora : string) :
  validar_anonimizacion repr_float modelo = false ->
  enviar_modelo_federado_try repr_float srv modelo contribucion_id ahora
  = Raise (HTTPException 400 detalle_400)
  /\ enviar_modelo_federado repr_float srv modelo contribucion_id ahora
     = (srv, Raise (HTTPException 500
                      ("Error procesando modelo: " +:+ str_exc (HTTPException 400 detalle_400)))).
Proof.
  intros H. unfold enviar_modelo_federado, enviar_modelo_federado_try.
  rewrite H. split; reflexivity.
Qed.
End Puerta.

(** C1: the gate rejects a model exactly when its segment hash is shorter
    than 16 characters, or the case-folded serialisation of its parameters
    contains a blocklisted identifier, or its sample count is below 50.  A
    parameter key that contains a blocklisted identifier in any case, such
    as ["nombre_cliente"], makes the gate reject whatever its value.  A
    rejected model makes the handler raise its validation error, and the
    server is left as it was: nothing is written to the store and no
    processing task is queued, so the model is never aggregated. *)
Theorem puerta_de_anonimizacion (repr_float : Q -> string) (modelo : ModeloFederado) :
  (validar_anonimizacion repr_float modelo = false
   <-> ((String.length (giro_hash modelo) < 16)%nat
        \/ (exists identificador,
              In identificador identificadores_prohibidos
              /\ py_in identificador
                   (lower (json_dumps repr_float (VDict (parametros modelo)))) = true)
        \/ (num_muestras_entrenamiento modelo < 50)%Z))
  /\ incl ["empresa"; "nombre"; "email"; "telefono"; "direccion"; "rfc"]%string
          identificadores_prohibidos
  /\ (forall clave v identificador,
        In (clave, v) (parametros modelo) ->
        In identificador identificadores_prohibidos ->
        py_in identificador (lower clave) = true ->
        validar_anonimizacion repr_float modelo = false)
  /\ (forall srv contribucion_id ahora,
        validar_anonimizacion repr_float modelo = false ->
        enviar_modelo_federado_try repr_float srv modelo contribucion_id ahora
        = Raise (HTTPException 400 detalle_400)
        /\ exists e,
             enviar_modelo_federado repr_float srv modelo contribucion_id ahora
             = (srv, Raise e))
  /\ (validar_parametros (parametros modelo) = Raise ValueError ->
      validar_anonimizacion repr_float modelo = false).
Proof.
  assert (Hclave : forall clave v identificador,
             In (clave, v) (parametros modelo) ->
             In identificador identificadores_prohibidos ->
             py_in identificador (lower clave) = true ->
             validar_anonimizacion repr_float modelo = false).
  { intros clave v identificador Hin Hid Hsub.
    apply validar_anonimizacion_false. right. left.
    exists identificador. split; [exact Hid|].
    apply (clave_en_parametros_str repr_float _ clave v); [exact Hin| |exact Hsub].
    pose proof identificadores_planos as Hall.
    rewrite forallb_forall in Hall. apply Hall, Hid. }
  split; [apply validar_anonimizacion_false|].
  split.
  { intros x Hx. simpl in Hx. simpl.
    repeat destruct Hx as [<-|Hx]; tauto. }
  split; [exact Hclave|].
  split.
  - intros srv contribucion_id ahora H.
    destruct (enviar_rechazado repr_float srv modelo contribucion_id ahora H) as [H1 H2].
    split; [exact H1|]. eexists. exact H2.
  - unfold validar_parametros.
    destruct (existsb _ (keys (parametros modelo))) eqn:Hex; [intros _|discriminate].
    apply existsb_exists in Hex as (clave & Hclave_in & Hex).
    apply existsb_exists in Hex as (prohibida & Hp & Hsub).
    unfold keys in Hclave_in. apply in_map_iff in Hclave_in as ([k v] & <- & Hin).
    destruct (claves_prohibidas_cubiertas prohibida Hp) as (identificador & Hid & Hcub).
    apply (Hclave k v identificador Hin Hid).
    apply (py_in_trans _ prohibida); assumption.
Qed.

Lemma puerta_de_anonimizacion_witness :
  validar_anonimizacion Ejemplos.repr0 (Ejemplos.con_nombre_cliente (VInt 5)) = false.
Proof.
  apply (puerta_de_anonimizacion Ejemplos.repr0 (Ejemplos.con_nombre_cliente (VInt 5)))
    with (clave := "nombre_cliente"%string) (v := VInt 5) (identificador := "nombre"%string).
  - left. reflexivity.
  - right. left. reflexivity.
  - reflexivity.
Defined.

(** C9: the handler is entered by the requests that the validators of
    [ModeloFederado] accept (FastAPI answers the others itself, before the
    handler, and not with the handler's 400).  Among these, a model that
    fails the anonymization validation makes the handler answer with
    status 500 and a detail that starts with ["Error procesando modelo: "]
    followed by the text of the 400: the 400 raised inside the [try] block
    is caught by the handler's own [except Exception].  No such request
    makes the handler answer with status 400. *)
Theorem enviar_modelo_nunca_400 (repr_float : Q -> string) (srv : Servidor)
    (modelo : ModeloFederado) (contribucion_id ahora : string) :
  validar_parametros (parametros modelo) = Ok (parametros modelo) ->
  validar_giro_hash (giro_hash modelo) = Ok (giro_hash modelo) ->
  let respuesta :=
    snd (enviar_modelo_federado repr_float srv modelo contribucion_id ahora) in
  (validar_anonimizacion repr_float modelo = false ->
   enviar_modelo_federado_try repr_float srv modelo contribucion_id ahora
   = Raise (HTTPException 400 detalle_400)
   /\ respuesta
      = Raise (HTTPException 500
                 ("Error procesando modelo: 400: " +:+ detalle_400))
   /\ status_http respuesta = 500%Z
   /\ fst (enviar_modelo_federado repr_float srv modelo contribucion_id ahora) = srv)
  /\ status_http respuesta <> 400%Z.
Proof.
  intros _ _ respuesta. subst respuesta. split.
  - intros H.
    destruct (enviar_rechazado repr_float srv modelo contribucion_id ahora H) as [H1 H2].
    rewrite H1, H2. cbn [fst snd status_http].
    split; [reflexivity|]. split; [reflexivity|]. split; reflexivity.
  - unfold enviar_modelo_federado.
    destruct (enviar_modelo_federado_try repr_float srv modelo contribucion_id ahora)
      as [[srv' r]|e]; cbn [snd status_http]; discriminate.
Qed.

Lemma enviar_modelo_nunca_400_witness :
  validar_parametros (parametros Ejemplos.con_rfc) = Ok (parametros Ejemplos.con_rfc)
  /\ validar_giro_hash (giro_hash Ejemplos.con_rfc) = Ok (giro_hash Ejemplos.con_rfc)
  /\ validar_anonimizacion Ejemplos.repr0 Ejemplos.con_rfc = false
  /\ status_http
       (snd (enviar_modelo_federado Ejemplos.repr0 Ejemplos.servidor0
               Ejemplos.con_rfc "00112233aabbccdd" "2024-01-01T00:00:01")) = 500%Z.
Proof.
  split; [reflexivity|]. split; [reflexivity|]. split; [reflexivity|].
  pose proof (enviar_modelo_nunca_400 Ejemplos.repr0 Ejemplos.servidor0
                Ejemplos.con_rfc "00112233aabbccdd" "2024-01-01T00:00:01"
                eq_refl eq_refl) as H.
  cbv zeta in H. destruct H as [H _].
  destruct (H eq_refl) as (_ & _ & Hs & _). exact Hs.
Defined.

(** ** NumPy arrays of numbers and the generic aggregation *)

Lemma np_array_numero v :
  is_number v = true -> np_array v = Ok (mk_ndarray [] [valor_de v]).
Proof. destruct v; try discriminate; intros _; reflexivity. Qed.

Lemma mapM_ok_Forall2 {A B} (f : A -> result B) l ys :
  mapM f l = Ok ys <-> Forall2 (fun x y => f x = Ok y) l ys.
Proof.
  revert ys. induction l as [|x l IH]; intros ys; simpl.
  - split; [intros [= <-]; constructor | intros H; inversion H; reflexivity].
  - split.
    + destruct (f x) as [y|e] eqn:E; [|discriminate]. simpl.
      destruct (mapM f l) as [ys'|e]; [|discriminate]. simpl.
      intros [= <-]. constructor; [exact E | apply IH; reflexivity].
    + intros H. inversion H as [|? y ? ys' Hx Hl]; subst.
      rewrite Hx. simpl. apply IH in Hl. rewrite Hl. reflexivity.
Qed.

Lemma np_array_VList l :
  np_array (VList l)
  = bind (mapM np_array l) (fun arrs =>
        match arrs with
        | [] => Ok (mk_ndarray [0%nat] [])
        | a :: rest =>
            if forallb (fun b => shape_eqb (shape b) (shape a)) rest
            then Ok (mk_ndarray (length arrs :: shape a) (concat (map data arrs)))
            else Raise ValueError
        end).
Proof.
  reflexivity.
Qed.

Lemma Forall2_numeros l arrs :
  Forall2 (fun x y => np_array x = Ok y) l arrs ->
  Forall (fun a => shape a = []) arrs ->
  forallb is_number l = true /\ map data arrs = map (fun v => [valor_de v]) l.
Proof.
  induction 1 as [|v a l arrs Hv Hl IH]; intros Hs; [split; reflexivity|].
  inversion Hs as [|? ? Ha Hrest]; subst.
  destruct (IH Hrest) as [IH1 IH2].
  assert (Hnum : is_number v = true).
  { destruct v; try reflexivity; try discriminate.
    rewrite np_array_VList in Hv.
    destruct (mapM np_array l0) as [arrs0|]; [|discriminate]. simpl in Hv.
    destruct arrs0 as [|a0 r0].
    - injection Hv as <-. discriminate.
    - destruct (forallb _ r0); [|discriminate]. injection Hv as <-. discriminate. }
  split.
  - simpl. rewrite Hnum, IH1. reflexivity.
  - simpl. rewrite IH2. rewrite (np_array_numero v Hnum) in Hv.
    injection Hv as <-. reflexivity.
Qed.

Lemma concat_singletons {A B} (f : A -> B) (l : list A) :
  concat (map (fun v => [f v]) l) = map f l.
Proof. induction l as [|x l IH]; [reflexivity|]. simpl. rewrite IH. reflexivity. Qed.

Lemma np_array_lista_numeros l :
  forallb is_number l = true ->
  np_array (VList l) = Ok (mk_ndarray [length l] (map valor_de l)).
Proof.
  intros H. rewrite np_array_VList.
  assert (Hm : mapM np_array l = Ok (map (fun v => mk_ndarray [] [valor_de v]) l)).
  { apply mapM_ok_Forall2. clear -H. induction l as [|v l IH]; [constructor|].
    simpl in H. apply andb_true_iff in H as [Hv Hl].
    constructor; [apply np_array_numero, Hv | apply IH, Hl]. }
  rewrite Hm. cbn [bind].
  destruct l as [|v l]; [reflexivity|]. cbn [map].
  assert (Hall : forallb (fun b => shape_eqb (shape b) (shape (mk_ndarray [] [valor_de v])))
                   (map (fun v0 => mk_ndarray [] [valor_de v0]) l) = true).
  { apply forallb_forall. intros b Hb. apply in_map_iff in Hb as (w & <- & _). reflexivity. }
  rewrite Hall. cbn [shape length]. rewrite length_map.
  f_equal. f_equal. cbn [map concat data]. f_equal.
  rewrite map_map. cbn [data]. apply concat_singletons.
Qed.

Lemma np_array_lista_inv l a n :
  np_array (VList l) = Ok a -> shape a = [n] ->
  forallb is_number l = true /\ a = mk_ndarray [length l] (map valor_de l).
Proof.
  intros Ha Hs.
  assert (Hnum : forallb is_number l = true).
  { rewrite np_array_VList in Ha.
    destruct (mapM np_array l) as [arrs|] eqn:Hm; [|discriminate]. cbn [bind] in Ha.
    apply mapM_ok_Forall2 in Hm.
    destruct arrs as [|a0 rest].
    - inversion Hm. reflexivity.
    - destruct (forallb _ rest) eqn:Hall; [|discriminate].
      injection Ha as <-. cbn [shape] in Hs. injection Hs as _ Hs0.
      apply (Forall2_numeros l (a0 :: rest) Hm).
      constructor; [exact Hs0|].
      rewrite forallb_forall in Hall. apply List.Forall_forall. intros b Hb.
      specialize (Hall b Hb). unfold shape_eqb in Hall.
      apply bool_decide_eq_true in Hall. congruence. }
  split; [exact Hnum|].
  rewrite (np_array_lista_numeros l Hnum) in Ha. congruence.
Qed.


Lemma np_average_inv valores pesos x :
  np_average valores pesos = Ok x ->
  forallb is_number valores = true
  /\ length valores = length pesos
  /\ Qeq_bool (Qsum pesos) 0 = false
  /\ x = (suma_ponderada (map valor_de valores) pesos / Qsum pesos)%Q.
Proof.
  unfold np_average. intros H.
  destruct (np_array (VList valores)) as [a|] eqn:Ha; [|discriminate]. cbn [bind] in H.
  destruct (shape_eqb (shape a) [length pesos]) eqn:Hs; [|discriminate].
  unfold shape_eqb in Hs. apply bool_decide_eq_true in Hs.
  destruct (np_array_lista_inv _ _ _ Ha Hs) as [Hnum ->].
  cbn [shape data] in *.
  destruct (Qeq_bool (Qsum pesos) 0) eqn:Hq; [discriminate|].
  injection H as <-. injection Hs as Hlen.
  repeat split; assumption.
Qed.

Lemma np_average_numeros valores pesos :
  forallb is_number valores = true ->
  length valores = length pesos ->
  ~ (Qsum pesos == 0)%Q ->
  np_average valores pesos
  = Ok (suma_ponderada (map valor_de valores) pesos / Qsum pesos)%Q.
Proof.
  intros Hnum Hlen Hne. unfold np_average.
  rewrite (np_array_lista_numeros _ Hnum). cbn [bind shape data].
  rewrite Hlen. unfold shape_eqb. rewrite bool_decide_eq_true_2 by reflexivity.
  destruct (Qeq_bool (Qsum pesos) 0) eqn:Hq; [|reflexivity].
  apply Qeq_bool_eq in Hq. contradiction.
Qed.

Lemma dict_get_set_eq {V} (d : dict V) k v : dict_get (dict_set d k v) k = Some v.
Proof.
  induction d as [|[k' v'] d IH]; simpl.
  - rewrite String.eqb_refl. reflexivity.
  - destruct (String.eqb k k') eqn:E; simpl; rewrite E; [reflexivity | exact IH].
Qed.

Lemma dict_get_set_ne {V} (d : dict V) k k' v :
  k' <> k -> dict_get (dict_set d k v) k' = dict_get d k'.
Proof.
  intros Hne. induction d as [|[k0 v0] d IH]; simpl.
  - destruct (String.eqb k' k) eqn:E; [apply String.eqb_eq in E; contradiction | reflexivity].
  - destruct (String.eqb k k0) eqn:E; simpl.
    + apply String.eqb_eq in E. subst k0.
      destruct (String.eqb k' k) eqn:E'; [apply String.eqb_eq in E'; contradiction | reflexivity].
    + rewrite IH. reflexivity.
Qed.

Lemma dict_get_In {V} (d : dict V) k v :
  List.NoDup (keys d) -> In (k, v) d -> dict_get d k = Some v.
Proof.
  induction d as [|[k0 v0] d IH]; intros Hnd Hin; [contradiction|].
  simpl in *. apply List.NoDup_cons_iff in Hnd as [Hnot Hnd].
  destruct Hin as [[= -> ->]|Hin].
  - rewrite String.eqb_refl. reflexivity.
  - destruct (String.eqb k k0) eqn:E.
    + apply String.eqb_eq in E. subst k0. exfalso. apply Hnot.
      apply (in_map fst) in Hin. exact Hin.
    + apply IH; assumption.
Qed.

Lemma length_normalizar l : length (normalizar l) = length l.
Proof. unfold normalizar. apply length_map. Qed.

Lemma length_pesos_de cs : length (pesos_de cs) = length cs.
Proof. unfold pesos_de. rewrite length_normalizar. apply length_map. Qed.

Lemma foldM_total {A B} (f : B -> A -> result B) (l : list A) (b : B) :
  (forall b' x, In x l -> exists b'', f b' x = Ok b'') ->
  exists r, foldM f l b = Ok r.
Proof.
  revert b. induction l as [|x l IH]; intros b H; simpl.
  - eexists. reflexivity.
  - destruct (H b x (or_introl eq_refl)) as [b'' Hb]. rewrite Hb. simpl.
    apply IH. intros b' y Hy. apply H. right. exact Hy.
Qed.

Lemma dict_in_keys {V} (d : dict V) k : dict_in k d = true -> In k (keys d).
Proof.
  unfold dict_in. induction d as [|[k0 v0] d IH]; simpl; [discriminate|].
  destruct (String.eqb k k0) eqn:E.
  - apply String.eqb_eq in E. intros _. left. congruence.
  - intros H. right. apply IH, H.
Qed.

Section Generico.
Variable contribuciones : list Contribucion.
Let pesos := pesos_de contribuciones.

Lemma valores_de_valor_o_cero clave :
  map valor_de (valores_de contribuciones clave) = map (valor_o_cero clave) contribuciones.
Proof.
  unfold valores_de. rewrite map_map. apply map_ext. intros c.
  unfold valor_o_cero, dict_get_default.
  destruct (dict_get (c_parametros c) clave); reflexivity.
Qed.

Lemma paso_generico_inv acc clave v acc' :
  paso_generico contribuciones pesos acc (clave, v) = Ok acc' ->
  (forall k, k <> clave -> dict_get acc' k = dict_get acc k)
  /\ (is_number v = true ->
      exists x, np_average (valores_de contribuciones clave) pesos = Ok x
                /\ dict_get acc' clave = Some (VFloat x)).
Proof.
  unfold paso_generico. fold (valores_de contribuciones clave).
  destruct (is_number v) eqn:Hv.
  - destruct (np_average (valores_de contribuciones clave) pesos) as [x|] eqn:Hx; [|discriminate].
    cbn [bind]. intros [= <-]. split.
    + intros k Hk. apply dict_get_set_ne, Hk.
    + intros _. exists x. split; [reflexivity | apply dict_get_set_eq].
  - destruct (is_number_list v).
    + destruct (foldM _ (combine contribuciones pesos) []) as [arrays|]; [|discriminate].
      cbn [bind]. destruct arrays as [|a arrays].
      * intros [= <-]. split; [reflexivity | discriminate].
      * destruct (np_sum_axis0 (a :: arrays)) as [s|]; [|discriminate].
        cbn [bind]. intros [= <-]. split; [|discriminate].
        intros k Hk. apply dict_get_set_ne, Hk.
    + intros [= <-]. split; [reflexivity | discriminate].
Qed.

Lemma foldM_paso_generico items acc params :
  foldM (paso_generico contribuciones pesos) items acc = Ok params ->
  (forall k, ~ In k (keys items) -> dict_get params k = dict_get acc k)
  /\ (List.NoDup (keys items) ->
      forall clave v, In (clave, v) items -> is_number v = true ->
      exists x, np_average (valores_de contribuciones clave) pesos = Ok x
                /\ dict_get params clave = Some (VFloat x)).
Proof.
  revert acc. induction items as [|[k0 v0] items IH]; intros acc H.
  - injection H as <-. split; [reflexivity | intros _ ? ? []].
  - cbn [foldM] in H.
    destruct (paso_generico contribuciones pesos acc (k0, v0)) as [acc1|] eqn:Hstep;
      [|discriminate].
    cbn [bind] in H. destruct (IH _ H) as [IHa IHb].
    destruct (paso_generico_inv _ _ _ _ Hstep) as [Hother Hthis].
    split.
    + intros k Hk. cbn [keys map fst] in Hk.
      rewrite IHa by (intros Hin; apply Hk; right; exact Hin).
      apply Hother. intros ->. apply Hk. left. reflexivity.
    + intros Hnd clave v Hin Hv. cbn [keys map fst] in Hnd.
      apply List.NoDup_cons_iff in Hnd as [Hnot Hnd].
      destruct Hin as [[= -> ->]|Hin].
      * destruct (Hthis Hv) as (x & Hx & Hget). exists x. split; [exact Hx|].
        rewrite IHa by exact Hnot. exact Hget.
      * apply (IHb Hnd clave v Hin Hv).
Qed.

Lemma valores_metrica_numeros metrica :
  forallb is_number (valores_metrica contribuciones metrica) = true.
Proof.
  unfold valores_metrica. induction contribuciones as [|c cs IH]; [reflexivity|].
  simpl. exact IH.
Qed.

Lemma valores_metrica_o_cero metrica :
  map valor_de (valores_metrica contribuciones metrica) = map (metrica_o_cero metrica) contribuciones.
Proof.
  unfold valores_metrica. rewrite map_map. apply map_ext. intros c. reflexivity.
Qed.

Hypothesis pesos_no_nulos : ~ (Qsum pesos == 0)%Q.

Lemma promediar_metricas_total nombres acc :
  exists d,
    foldM (fun metricas_agregadas metrica =>
             bind (np_average (valores_metrica contribuciones metrica) pesos) (fun x =>
               Ok (dict_set metricas_agregadas metrica x)))
          nombres acc = Ok d
    /\ (forall metrica, In metrica nombres ->
          dict_get d metrica
          = Some (suma_ponderada (map (metrica_o_cero metrica) contribuciones) pesos
                  / Qsum pesos)%Q)
    /\ (forall metrica, ~ In metrica nombres -> dict_get d metrica = dict_get acc metrica).
Proof.
  revert acc. induction nombres as [|m0 nombres IH]; intros acc.
  - exists acc. split; [reflexivity|]. split; [intros ? [] | reflexivity].
  - cbn [foldM].
    rewrite (np_average_numeros (valores_metrica contribuciones m0) pesos
               (valores_metrica_numeros m0)); cycle 1.
    { unfold valores_metrica, pesos. rewrite length_map, length_pesos_de. reflexivity. }
    { exact pesos_no_nulos. }
    cbn [bind]. destruct (IH (dict_set acc m0
      (suma_ponderada (map valor_de (valores_metrica contribuciones m0)) pesos / Qsum pesos)%Q))
      as (d & Hd & Hin & Hout).
    exists d. split; [exact Hd|]. split.
    + intros metrica Hm.
      destruct (in_dec String.string_dec metrica nombres) as [Hi|Hni].
      * apply Hin, Hi.
      * destruct Hm as [<-|Hm]; [|contradiction].
        rewrite (Hout _ Hni), dict_get_set_eq, valores_metrica_o_cero. reflexivity.
    + intros metrica Hm. rewrite Hout by (intros Hi; apply Hm; right; exact Hi).
      apply dict_get_set_ne. intros ->. apply Hm. left. reflexivity.
Qed.
End Generico.

Lemma pesos_no_nulos_de cs :
  cs <> [] -> Forall (fun c => 0 < c_num_muestras c)%Z cs ->
  (fold_right Z.add 0 (map c_num_muestras cs) < 2 ^ 63)%Z ->
  (Qsum (pesos_de cs) == 1)%Q /\ ~ (Qsum (pesos_de cs) == 0)%Q.
Proof.
  intros Hne Hpos Hcota.
  assert (H1 : (Qsum (pesos_de cs) == 1)%Q).
  { unfold pesos_de. apply Qsum_normalizar.
    - destruct cs; [congruence | discriminate].
    - rewrite Forall_map. exact Hpos.
    - exact Hcota. }
  split; [exact H1|]. rewrite H1. discriminate.
Qed.

(** C8: in the generic aggregation, with positive sample counts whose sum
    is below 2^63, the value
    stored for a scalar key of the first contribution is the sum over all
    contributions of weight times value, where a contribution that lacks
    the key counts with the value 0 and with its full weight (the weights
    are those of all the contributions and are not renormalised); the same
    holds for every validation metric of the first contribution.  When all
    the parameters are scalars the aggregation does return a model. *)
Theorem generico_clave_ausente_vale_cero (c0 : Contribucion) (resto : list Contribucion)
    (ahora : string) :
  let cs := c0 :: resto in
  let pesos := pesos_de cs in
  Forall (fun c => 0 < c_num_muestras c)%Z cs ->
  (fold_right Z.add 0 (map c_num_muestras cs) < 2 ^ 63)%Z ->
  List.NoDup (keys (c_parametros c0)) ->
  (forall m, _agregar_modelo_generico cs ahora = Ok m ->
     (forall clave v, In (clave, v) (c_parametros c0) -> is_number v = true ->
        exists x, dict_get (parametros_agregados m) clave = Some (VFloat x)
                  /\ (x == suma_ponderada (map (valor_o_cero clave) cs) pesos)%Q)
     /\ (forall metrica, dict_in metrica (c_metricas c0) = true ->
        exists y, dict_get (metricas_agregadas m) metrica = Some y
                  /\ (y == suma_ponderada (map (metrica_o_cero metrica) cs) pesos)%Q))
  /\ (Forall (fun c => Forall (fun kv => is_number (snd kv) = true) (c_parametros c)) cs ->
      exists m, _agregar_modelo_generico cs ahora = Ok m).
Proof.
  intros cs pesos Hpos Hcota Hnd. subst cs.
  destruct (pesos_no_nulos_de (c0 :: resto)) as [Hsum Hnz];
    [discriminate | exact Hpos | exact Hcota |].
  fold pesos in Hsum, Hnz.
  assert (Hdiv : forall s, (s / Qsum pesos == s)%Q).
  { intros s. rewrite Hsum. field. }
  split.
  - intros m Hm. unfold _agregar_modelo_generico in Hm.
    cbn [primero bind] in Hm. fold pesos in Hm.
    destruct (foldM (paso_generico (c0 :: resto) pesos) (c_parametros c0) []) as [params|] eqn:Hp;
      cbn [bind] in Hm; [|discriminate].
    destruct (promediar_metricas_total (c0 :: resto) Hnz (keys (c_metricas c0)) [])
      as (d & Hd & Hin & _).
    unfold promediar_metricas in Hm. fold pesos in Hd.
    change (foldM _ (keys (c_metricas c0)) []) with
      (foldM (fun metricas_agregadas metrica =>
                bind (np_average (valores_metrica (c0 :: resto) metrica) pesos) (fun x =>
                  Ok (dict_set metricas_agregadas metrica x)))
             (keys (c_metricas c0)) []) in Hm.
    rewrite Hd in Hm. cbn [bind] in Hm.
    destruct (_calcular_confianza (c0 :: resto)) as [conf|]; cbn [bind] in Hm; [|discriminate].
    injection Hm as <-. cbn [parametros_agregados metricas_agregadas].
    split.
    + intros clave v Hcv Hv.
      destruct (foldM_paso_generico (c0 :: resto) _ _ _ Hp) as [_ Hkeys].
      destruct (Hkeys Hnd clave v Hcv Hv) as (x & Hx & Hget).
      exists x. split; [exact Hget|].
      apply np_average_inv in Hx as (_ & _ & _ & ->).
      rewrite valores_de_valor_o_cero. apply Hdiv.
    + intros metrica Hmet. eexists. split.
      * apply Hin. apply dict_in_keys, Hmet.
      * apply Hdiv.
  - intros Hnum. unfold _agregar_modelo_generico.
    cbn [primero bind]. fold pesos.
    destruct (foldM_total (paso_generico (c0 :: resto) pesos) (c_parametros c0) []) as [params Hp].
    { intros acc [clave v] Hin.
      assert (Hv : is_number v = true).
      { inversion Hnum as [|? ? H0 _]; subst.
        rewrite List.Forall_forall in H0. apply (H0 (clave, v) Hin). }
      unfold paso_generico. rewrite Hv. fold (valores_de (c0 :: resto) clave).
      rewrite (np_average_numeros (valores_de (c0 :: resto) clave) pesos).
      - eexists. reflexivity.
      - unfold valores_de. apply forallb_forall. intros w Hw.
        apply in_map_iff in Hw as (c & <- & Hc).
        unfold dict_get_default.
        destruct (dict_get (c_parametros c) clave) as [w|] eqn:Hg; [|reflexivity].
        rewrite List.Forall_forall in Hnum. specialize (Hnum c Hc).
        rewrite List.Forall_forall in Hnum.
        assert (Hw : In (clave, w) (c_parametros c)).
        { clear -Hg. induction (c_parametros c) as [|[k0 v0] d IH]; [discriminate|].
          simpl in Hg. destruct (String.eqb clave k0) eqn:E.
          - apply String.eqb_eq in E. injection Hg as ->. left. congruence.
          - right. apply IH, Hg. }
        apply (Hnum _ Hw).
      - unfold valores_de, pesos. rewrite length_map, length_pesos_de. reflexivity.
      - exact Hnz. }
    rewrite Hp. cbn [bind].
    destruct (promediar_metricas_total (c0 :: resto) Hnz (keys (c_metricas c0)) [])
      as (d & Hd & _).
    unfold promediar_metricas. fold pesos in Hd.
    change (foldM _ (keys (c_metricas c0)) []) with
      (foldM (fun metricas_agregadas metrica =>
                bind (np_average (valores_metrica (c0 :: resto) metrica) pesos) (fun x =>
                  Ok (dict_set metricas_agregadas metrica x)))
             (keys (c_metricas c0)) []).
    rewrite Hd. cbn [bind].
    rewrite _calcular_confianza_eq. cbn [bind]. eexists. reflexivity.
Qed.

Lemma generico_clave_ausente_vale_cero_witness :
  exists m x,
    _agregar_modelo_generico Ejemplos.media_muestra "t" = Ok m
    /\ dict_get (parametros_agregados m) "coef" = Some (VFloat x)
    /\ (x == 4)%Q.
Proof.
  pose proof (generico_clave_ausente_vale_cero
                (Ejemplos.contrib [("coef"%string, VInt 6)] [("r2"%string, 9 # 10)%Q] 100)
                [Ejemplos.contrib [] [] 100;
                 Ejemplos.contrib [("coef"%string, VInt 6)] [("r2"%string, 9 # 10)%Q] 100]
                "t") as H.
  cbv zeta in H.
  destruct H as [Hval Htot].
  - repeat constructor.
  - reflexivity.
  - repeat constructor. intros [].
  - destruct Htot as [m Hm].
    + repeat constructor.
    + destruct (Hval m Hm) as [Hpar _].
      destruct (Hpar "coef"%string (VInt 6)) as (x & Hx & Hq).
      * left. reflexivity.
      * reflexivity.
      * exists m, x. split; [exact Hm|]. split; [exact Hx|].
        rewrite Hq. reflexivity.
Defined.

(** ** The noise pass *)

Lemma extraer_n_spec (loc scale : Q) (n : nat) (v : nat -> Q) (c : nat) :
  extraer_n loc scale n (mk_generador v c)
  = (map (fun j => (loc + scale * v (c + j)%nat)%Q) (seq 0 n), mk_generador v (c + n)).
Proof.
  revert c. induction n as [|n IH]; intros c.
  - simpl. rewrite Nat.add_0_r. reflexivity.
  - cbn [extraer_n extraer variates consumidos]. rewrite IH.
    cbn [seq map]. rewrite Nat.add_0_r. f_equal.
    + f_equal. rewrite <- seq_shift, map_map. apply map_ext. intros j.
      rewrite Nat.add_succ_r. reflexivity.
    + f_equal. lia.
Qed.

Lemma laplace_avanzar (escala : Q) (g : generador) (i : nat) :
  (0 <= escala)%Q ->
  laplace 0 escala (avanzar g i) = Ok (sorteo escala g i, avanzar g (i + 1)).
Proof.
  intros He. unfold laplace. apply Qle_bool_iff in He. rewrite He.
  unfold extraer, avanzar, sorteo. cbn [variates consumidos].
  replace (S (consumidos g + i)) with (consumidos g + (i + 1))%nat by lia.
  reflexivity.
Qed.

Lemma laplace_size_avanzar (escala : Q) (g : generador) (i n : nat) :
  (0 <= escala)%Q ->
  laplace_size 0 escala n (avanzar g i) = Ok (sorteos escala g i n, avanzar g (i + n)).
Proof.
  intros He. unfold laplace_size. apply Qle_bool_iff in He. rewrite He.
  unfold avanzar. rewrite extraer_n_spec. unfold sorteos, sorteo. do 2 f_equal.
  - apply map_ext. intros j. rewrite Nat.add_assoc. reflexivity.
  - f_equal. lia.
Qed.

Lemma sorteos_S (escala : Q) (g : generador) (i n : nat) :
  sorteos escala g i (S n) = sorteo escala g i :: sorteos escala g (S i) n.
Proof.
  unfold sorteos. cbn [seq map]. rewrite Nat.add_0_r. f_equal.
  rewrite <- seq_shift, map_map. apply map_ext. intros j.
  rewrite Nat.add_succ_r. reflexivity.
Qed.

Lemma perturbar_lista_spec (escala : Q) (g : generador) (i : nat) (l : list valor) :
  map VFloat (add_data (map valor_de l) (sorteos escala g i (length l)))
  = perturbar_lista escala g i l.
Proof.
  revert i. induction l as [|x l IH]; intros i; [reflexivity|].
  cbn [length map]. rewrite sorteos_S. cbn [add_data map perturbar_lista].
  rewrite IH. reflexivity.
Qed.

Lemma escala_no_negativa (epsilon : Q) : (0 < epsilon)%Q -> (0 <= 1 / epsilon)%Q.
Proof.
  intros H. unfold Qdiv. rewrite Qmult_1_l.
  apply Qlt_le_weak, Qinv_lt_0_compat, H.
Qed.

Lemma tolist_vector (d : list Q) :
  tolist (mk_ndarray [length d] d) = VList (map VFloat d).
Proof.
  unfold tolist. cbn [shape data tolist_aux product fold_right]. f_equal.
  induction d as [|x d IH]; [reflexivity|].
  cbn [length seq map]. f_equal.
  rewrite <- seq_shift, map_map. rewrite <- IH. apply map_ext. intros i.
  reflexivity.
Qed.

Lemma length_add_data (xs ys : list Q) :
  length xs = length ys -> length (add_data xs ys) = length xs.
Proof.
  revert ys. induction xs as [|x xs IH]; intros [|y ys] H; try discriminate; [reflexivity|].
  simpl. f_equal. apply IH. injection H as H. exact H.
Qed.

Lemma dict_set_mid {V} (pre : dict V) k v v' rest :
  ~ In k (keys pre) ->
  dict_set (pre ++ (k, v) :: rest) k v' = pre ++ (k, v') :: rest.
Proof.
  induction pre as [|[k0 v0] pre IH]; intros Hn.
  - simpl. rewrite String.eqb_refl. reflexivity.
  - simpl. destruct (String.eqb k k0) eqn:E.
    + apply String.eqb_eq in E. exfalso. apply Hn. left. simpl. congruence.
    + rewrite IH; [reflexivity|]. intros Hin. apply Hn. right. exact Hin.
Qed.

Lemma number_value_valor_de (v : valor) :
  is_number v = true -> number_value v = Some (valor_de v).
Proof. destruct v; try discriminate; intros _; reflexivity. Qed.

Lemma inverso_ok (epsilon : Q) :
  ~ (epsilon == 0)%Q -> inverso epsilon = Ok (1 / epsilon)%Q.
Proof.
  intros H. unfold inverso.
  destruct (Qeq_bool epsilon 0) eqn:E; [|reflexivity].
  apply Qeq_bool_eq in E. contradiction.
Qed.

Section Ruido.
Variable epsilon : Q.
Hypothesis epsilon_positivo : (0 < epsilon)%Q.
Variable g : generador.
Let escala : Q := (1 / epsilon)%Q.

Lemma paso_ruido_spec (pre rest : dict valor) (k : string) (v : valor) (i : nat) :
  ~ In k (keys pre) ->
  paso_ruido epsilon (pre ++ (k, v) :: rest, avanzar g i) (k, v)
  = Ok (pre ++ (k, perturbar_valor escala g i v) :: rest,
        avanzar g (i + sorteos_de v)).
Proof.
  intros Hk.
  assert (Hne : ~ (epsilon == 0)%Q).
  { intros H. rewrite H in epsilon_positivo. discriminate epsilon_positivo. }
  pose proof (escala_no_negativa epsilon epsilon_positivo) as Hesc.
  unfold paso_ruido, perturbar_valor, sorteos_de.
  destruct (is_number v) eqn:Hv.
  - rewrite (inverso_ok _ Hne). cbn [bind].
    rewrite (laplace_avanzar _ _ _ Hesc). cbn [bind].
    rewrite (number_value_valor_de v Hv).
    rewrite dict_set_mid by exact Hk.
    reflexivity.
  - unfold is_number_list. destruct v as [| | | | |l|]; cbn [is_number_list];
      try (rewrite Nat.add_0_r; reflexivity).
    destruct (forallb is_number l) eqn:Hl; [|rewrite Nat.add_0_r; reflexivity].
    rewrite (inverso_ok _ Hne). cbn [bind].
    rewrite (laplace_size_avanzar _ _ _ _ Hesc). cbn [bind].
    rewrite (np_array_lista_numeros l Hl). cbn [bind shape data].
    rewrite dict_set_mid by exact Hk.
    rewrite <- perturbar_lista_spec.
    rewrite <- (tolist_vector (add_data (map valor_de l) (sorteos escala g i (length l)))).
    rewrite length_add_data, length_map; [reflexivity|].
    unfold sorteos. rewrite !length_map, length_seq. reflexivity.
Qed.

Lemma foldM_paso_ruido (items pre : dict valor) (i : nat) :
  List.NoDup (keys (pre ++ items)) ->
  foldM (paso_ruido epsilon) items (pre ++ items, avanzar g i)
  = Ok (pre ++ perturbar escala g i items, avanzar g (i + total_sorteos items)).
Proof.
  revert pre i. induction items as [|[k v] items IH]; intros pre i Hnd.
  - simpl. rewrite Nat.add_0_r. reflexivity.
  - cbn [foldM]. rewrite paso_ruido_spec.
    + cbn [bind perturbar total_sorteos fold_right snd].
      change (pre ++ (k, perturbar_valor escala g i v) :: items)
        with (pre ++ [(k, perturbar_valor escala g i v)] ++ items).
      rewrite app_assoc, IH.
      * rewrite <- app_assoc, Nat.add_assoc. reflexivity.
      * unfold keys in *. rewrite !map_app in *. cbn [map fst] in *.
        rewrite <- app_assoc. exact Hnd.
    + unfold keys in *. rewrite map_app in Hnd. cbn [map fst] in Hnd.
      apply List.NoDup_remove_2 in Hnd. intros Hin. apply Hnd.
      apply in_or_app. left. exact Hin.
Qed.
End Ruido.

Lemma perturbar_valor_otro (escala : Q) (g : generador) (i : nat) (v : valor) :
  is_number v = false -> is_number_list v = false -> perturbar_valor escala g i v = v.
Proof.
  intros H1 H2. unfold perturbar_valor. rewrite H1.
  destruct v; try reflexivity. cbn [is_number_list] in H2. rewrite H2. reflexivity.
Qed.

Lemma perturbar_marco (escala : Q) (g : generador) (i : nat) (items : dict valor) :
  Forall2 (fun kv kv' =>
             fst kv' = fst kv
             /\ (is_number (snd kv) = false -> is_number_list (snd kv) = false ->
                 snd kv' = snd kv))
          items (perturbar escala g i items).
Proof.
  revert i. induction items as [|[k v] items IH]; intros i; [constructor|].
  cbn [perturbar]. constructor; [|apply IH].
  split; [reflexivity|]. cbn [snd]. apply perturbar_valor_otro.
Qed.

(** C7, as the code has it: with a positive epsilon the noise pass returns
    the model with every scalar parameter increased by one
    Laplace(0, 1/epsilon) draw and every flat list of numbers increased
    element by element by as many successive draws, each draw being taken
    once and in the order of the entries; every other parameter entry (a
    matrix of numbers included), the keys and their order, the model type,
    the contribution count, the aggregated metrics, the timestamp, the
    confidence and the version are unchanged. *)
Theorem ruido_solo_en_parametros_numericos (cfg : ConfiguracionPrivacidad)
    (g : generador) (modelo : ModeloAgregado) :
  (0 < epsilon cfg)%Q ->
  List.NoDup (keys (parametros_agregados modelo)) ->
  exists m' g',
    _aplicar_ruido_diferencial cfg g modelo = Ok (m', g')
    /\ parametros_agregados m'
       = perturbar (1 / epsilon cfg) g 0 (parametros_agregados modelo)
    /\ Forall2 (fun kv kv' =>
                  fst kv' = fst kv
                  /\ (is_number (snd kv) = false -> is_number_list (snd kv) = false ->
                      snd kv' = snd kv))
               (parametros_agregados modelo) (parametros_agregados m')
    /\ a_tipo_modelo m' = a_tipo_modelo modelo
    /\ num_contribuciones m' = num_contribuciones modelo
    /\ metricas_agregadas m' = metricas_agregadas modelo
    /\ timestamp_agregacion m' = timestamp_agregacion modelo
    /\ confianza m' = confianza modelo
    /\ version m' = version modelo
    /\ variates g' = variates g
    /\ consumidos g'
       = (consumidos g + total_sorteos (parametros_agregados modelo))%nat.
Proof.
  intros Heps Hnd. unfold _aplicar_ruido_diferencial.
  pose proof (foldM_paso_ruido (epsilon cfg) Heps g (parametros_agregados modelo) [] 0 Hnd)
    as Hfold.
  cbn [app] in Hfold.
  assert (Hg : avanzar g 0 = g).
  { unfold avanzar. rewrite Nat.add_0_r. destruct g; reflexivity. }
  rewrite Hg in Hfold. eexists. eexists.
  unfold dict in *. rewrite Hfold. cbn [bind].
  split; [reflexivity|].
  cbn [parametros_agregados a_tipo_modelo num_contribuciones metricas_agregadas
       timestamp_agregacion confianza version].
  split; [reflexivity|]. split; [apply perturbar_marco|].
  repeat (split; [reflexivity|]). reflexivity.
Qed.

Lemma ruido_solo_en_parametros_numericos_witness :
  exists m' g',
    _aplicar_ruido_diferencial (mk_ConfiguracionPrivacidad 3 true 1 90) Ejemplos.g0
      Ejemplos.modelo_mixto = Ok (m', g')
    /\ consumidos g' = 3%nat
    /\ parametros_agregados m'
       = [("coef"%string, VFloat (9 # 4));
          ("vector"%string, VList [VFloat (9 # 4); VFloat (17 # 4)]);
          ("arboles"%string, VList [VStr "hoja"]);
          ("matriz"%string, VList [VList [VFloat 1]])].
Proof.
  destruct (ruido_solo_en_parametros_numericos
              (mk_ConfiguracionPrivacidad 3 true 1 90) Ejemplos.g0 Ejemplos.modelo_mixto)
    as (m' & g' & Hok & Hpar & _ & _ & _ & _ & _ & _ & _ & _ & Hcons).
  - reflexivity.
  - repeat constructor; simpl; intuition discriminate.
  - exists m', g'. split; [exact Hok|]. split; [exact Hcons|].
    rewrite Hpar. reflexivity.
Defined.

(** C7, as the claim has it, fails: the numbers of a confusion matrix are
    numeric entries of the aggregated parameters, and the noise pass
    returns the matrix as it was without taking a draw; and with a
    negative epsilon the first draw raises, so that no entry is
    perturbed. *)
Lemma ruido_no_alcanza_matrices :
  _aplicar_ruido_diferencial (mk_ConfiguracionPrivacidad 3 true 1 90) Ejemplos.g0
    Ejemplos.con_matriz_confusion
  = Ok (Ejemplos.con_matriz_confusion, Ejemplos.g0)
  /\ _aplicar_ruido_diferencial (mk_ConfiguracionPrivacidad 3 true (- (1)) 90) Ejemplos.g0
       Ejemplos.modelo_mixto
     = Raise ValueError.
Proof.
  split; reflexivity.
Qed.

(** ** Mismatched coefficient vectors and the quorum *)

Lemma mapM_total {A B} (f : A -> result B) (l : list A) :
  (forall x, In x l -> exists y, f x = Ok y) -> exists ys, mapM f l = Ok ys.
Proof.
  induction l as [|x l IH]; intros H; simpl.
  - eexists. reflexivity.
  - destruct (H x (or_introl eq_refl)) as [y Hy]. rewrite Hy. simpl.
    destruct IH as [ys Hys]; [intros z Hz; apply H; right; exact Hz|].
    rewrite Hys. simpl. eexists. reflexivity.
Qed.

Lemma Forall2_In_l {A B} (P : A -> B -> Prop) (l : list A) (l' : list B) (x : A) :
  Forall2 P l l' -> In x l -> exists y, In y l' /\ P x y.
Proof.
  induction 1 as [|a b l l' Hab Hl IH]; intros Hin; [contradiction|].
  destruct Hin as [<-|Hin].
  - exists b. split; [left; reflexivity | exact Hab].
  - destruct (IH Hin) as (y & Hy & Hp). exists y. split; [right; exact Hy | exact Hp].
Qed.

Lemma In_combine_l {A B} (xs : list A) (ws : list B) (x : A) :
  length ws = length xs -> In x xs -> exists w, In (x, w) (combine xs ws).
Proof.
  revert ws. induction xs as [|a xs IH]; intros [|w ws] Hlen Hin; try discriminate;
    try contradiction.
  destruct Hin as [<-|Hin].
  - exists w. left. reflexivity.
  - injection Hlen as Hlen. destruct (IH ws Hlen Hin) as [w' Hw'].
    exists w'. right. exact Hw'.
Qed.

Lemma In_combine_fst {A B} (xs : list A) (ws : list B) (x : A) (w : B) :
  In (x, w) (combine xs ws) -> In x xs.
Proof. apply in_combine_l. Qed.

Section Desiguales.
Variable clave : string.
Variable contribuciones : list Contribucion.
Let todos := map c_parametros contribuciones.
Let pesos := pesos_de contribuciones.

Hypothesis vectores :
  forall c, In c contribuciones -> exists l, vector_de clave c = Some l.

Lemma vector_de_array (c : Contribucion) (l : list valor) (w : Q) :
  vector_de clave c = Some l ->
  bind (dict_index (c_parametros c) clave) (fun v =>
    bind (np_array v) (fun a => Ok (np_scale a w)))
  = Ok (np_scale (mk_ndarray [length l] (map valor_de l)) w).
Proof.
  unfold vector_de, dict_index.
  destruct (dict_get (c_parametros c) clave) as [[| | | | |l'|]|]; try discriminate.
  destruct (forallb is_number l') eqn:Hl; [|discriminate].
  intros [= <-]. cbn [bind]. rewrite (np_array_lista_numeros l' Hl). reflexivity.
Qed.

Lemma arrays_ponderados_vectores :
  exists arrays,
    arrays_ponderados clave todos pesos = Ok arrays
    /\ length arrays = length contribuciones
    /\ forall c l, In c contribuciones -> vector_de clave c = Some l ->
         exists a, In a arrays /\ shape a = [length l].
Proof.
  unfold arrays_ponderados.
  destruct (mapM_total
              (fun '(params, w) =>
                 bind (dict_index params clave) (fun v =>
                 bind (np_array v) (fun a => Ok (np_scale a w))))
              (combine todos pesos)) as [arrays Harr].
  { intros [params w] Hin. apply in_combine_l in Hin.
    unfold todos in Hin. apply in_map_iff in Hin as (c & <- & Hc).
    destruct (vectores c Hc) as [l Hl]. rewrite (vector_de_array c l w Hl).
    eexists. reflexivity. }
  exists arrays. split; [exact Harr|].
  apply mapM_ok_Forall2 in Harr. split.
  - apply Forall2_length in Harr. rewrite <- Harr.
    rewrite length_combine. unfold todos, pesos.
    rewrite length_map, length_pesos_de. lia.
  - intros c l Hc Hl.
    destruct (In_combine_l todos pesos (c_parametros c)) as [w Hw].
    { unfold todos, pesos. rewrite length_map, length_pesos_de. reflexivity. }
    { unfold todos. apply in_map. exact Hc. }
    destruct (Forall2_In_l _ _ _ _ Harr Hw) as (a & Ha & Hfa).
    cbn beta iota in Hfa. rewrite (vector_de_array c l w Hl) in Hfa.
    injection Hfa as <-. exists (np_scale (mk_ndarray [length l] (map valor_de l)) w).
    split; [exact Ha | reflexivity].
Qed.

Hypothesis desiguales :
  exists c1 c2 l1 l2,
    In c1 contribuciones /\ In c2 contribuciones
    /\ vector_de clave c1 = Some l1 /\ vector_de clave c2 = Some l2
    /\ length l1 <> length l2.

Lemma agregar_clave_desiguales (primer acc : dict valor) :
  dict_in clave primer = true ->
  agregar_clave clave todos pesos primer acc = Raise ValueError.
Proof.
  intros Hin. unfold agregar_clave. rewrite Hin.
  destruct arrays_ponderados_vectores as (arrays & -> & _ & Hshape).
  cbn [bind].
  destruct desiguales as (c1 & c2 & l1 & l2 & Hc1 & Hc2 & Hl1 & Hl2 & Hne).
  destruct (Hshape c1 l1 Hc1 Hl1) as (a1 & Ha1 & Hs1).
  destruct (Hshape c2 l2 Hc2 Hl2) as (a2 & Ha2 & Hs2).
  unfold np_sum_axis0. destruct arrays as [|a rest]; [contradiction|].
  destruct (forallb (fun b => shape_eqb (shape b) (shape a)) rest) eqn:Hall;
    [|reflexivity].
  exfalso. rewrite forallb_forall in Hall.
  assert (Heq : forall b, In b (a :: rest) -> shape b = shape a).
  { intros b [<-|Hb]; [reflexivity|].
    specialize (Hall b Hb). unfold shape_eqb in Hall.
    apply bool_decide_eq_true in Hall. exact Hall. }
  apply Hne. pose proof (Heq a1 Ha1) as E1. pose proof (Heq a2 Ha2) as E2.
  congruence.
Qed.
End Desiguales.

Lemma registrar_lookup (self : ProcesadorFederado) (tipo : string) (c : Contribucion) :
  contribuciones (registrar self tipo c) !! tipo
  = Some (default [] (contribuciones self !! tipo) ++ [c]).
Proof. unfold registrar. cbn [contribuciones]. apply lookup_insert_eq. Qed.

Lemma registrar_lookup_ne (self : ProcesadorFederado) (tipo tipo' : string)
    (c : Contribucion) :
  tipo <> tipo' ->
  contribuciones (registrar self tipo c) !! tipo' = contribuciones self !! tipo'.
Proof. intros H. unfold registrar. cbn [contribuciones]. apply lookup_insert_ne, H. Qed.

Lemma registrar_cfg (self : ProcesadorFederado) (tipo : string) (c : Contribucion) :
  configuracion_privacidad (registrar self tipo c) = configuracion_privacidad self.
Proof. reflexivity. Qed.

Lemma registrar_rng (self : ProcesadorFederado) (tipo : string) (c : Contribucion) :
  np_random (registrar self tipo c) = np_random self.
Proof. reflexivity. Qed.

Lemma _guardar_modelo_agregado_memoria (self : ProcesadorFederado) (tipo : string)
    (m : ModeloAgregado) :
  let r := _guardar_modelo_agregado self tipo m in
  modelos_activos (fst r) = modelos_activos self
  /\ contribuciones (fst r) = contribuciones self
  /\ configuracion_privacidad (fst r) = configuracion_privacidad self
  /\ np_random (fst r) = np_random self
  /\ archivos_contribuciones (fst r) = archivos_contribuciones self
  /\ error_de_escritura (fst r) = error_de_escritura self
  /\ snd r = error_de_escritura self (ruta_modelo tipo).
Proof.
  unfold _guardar_modelo_agregado.
  destruct (error_de_escritura self (ruta_modelo tipo)); cbn; repeat split.
Qed.

Lemma _guardar_contribucion_segura_memoria (self : ProcesadorFederado)
    (contribucion_id : string) (c : Contribucion) :
  let r := _guardar_contribucion_segura self contribucion_id c in
  modelos_activos (fst r) = modelos_activos self
  /\ contribuciones (fst r) = contribuciones self
  /\ configuracion_privacidad (fst r) = configuracion_privacidad self
  /\ np_random (fst r) = np_random self
  /\ archivos_modelos (fst r) = archivos_modelos self
  /\ error_de_escritura (fst r) = error_de_escritura self
  /\ snd r = error_de_escritura self (ruta_contribucion contribucion_id).
Proof.
  unfold _guardar_contribucion_segura.
  destruct (error_de_escritura self (ruta_contribucion contribucion_id)); cbn;
    repeat split.
Qed.

(** What [procesar_modelo_anonimo] does once the new contribution is
    registered, in terms of the snapshot that the aggregation and the noise
    pass produce. *)
Lemma procesar_modelo_anonimo_eq (self : ProcesadorFederado) (modelo : ModeloFederado)
    (contribucion_id ahora : string) :
  let tipo := tipo_modelo modelo in
  let c := contribucion_de modelo contribucion_id in
  let self1 := registrar self tipo c in
  let cs := default [] (contribuciones self !! tipo) ++ [c] in
  let cfg := configuracion_privacidad self in
  procesar_modelo_anonimo self modelo contribucion_id ahora
  = if min_contribuciones cfg <=? Z.of_nat (length cs)
    then match modelo_nuevo cfg (np_random self) tipo cs ahora with
         | Ok (m, g') =>
             let '(self2, error) :=
               _guardar_modelo_agregado (con_agregado self1 tipo m g') tipo m in
             match error with
             | Some e => (self2, Some e)
             | None => _guardar_contribucion_segura self2 contribucion_id c
             end
         | Raise e => (self1, Some e)
         end
    else _guardar_contribucion_segura self1 contribucion_id c.
Proof.
  intros tipo c self1 cs cfg. subst tipo c self1 cs cfg.
  unfold procesar_modelo_anonimo. cbv zeta.
  rewrite !registrar_lookup, !registrar_cfg.
  change (default [] (Some ?x)) with x.
  destruct (Z.leb_spec (min_contribuciones (configuracion_privacidad self))
              (Z.of_nat (length (default [] (contribuciones self !! tipo_modelo modelo)
                                   ++ [contribucion_de modelo contribucion_id]))))
    as [Hq|Hq]; [|reflexivity].
  unfold _agregar_modelo. rewrite registrar_lookup, registrar_cfg.
  destruct (Z.ltb_spec
              (Z.of_nat (length (default [] (contribuciones self !! tipo_modelo modelo)
                                   ++ [contribucion_de modelo contribucion_id])))
              (min_contribuciones (configuracion_privacidad self))) as [Hlt|_]; [lia|].
  rewrite registrar_rng.
  destruct (modelo_nuevo _ _ _ _ _) as [[m g']|e]; reflexivity.
Qed.

(** C4: when every contribution has a vector of numbers under
    ["coeficientes"] and two of the vectors differ in length, the
    regression aggregation raises [ValueError] and returns no model at
    all: no key is dropped and nothing else is aggregated.  The append
    that triggered it re-raises the error, keeps the contribution in the
    list and leaves the stored snapshot, or its absence, as it was. *)
Theorem coeficientes_desiguales_abortan (contribuciones : list Contribucion)
    (ahora : string) :
  (forall c, In c contribuciones -> exists l, vector_de "coeficientes" c = Some l) ->
  (exists c1 c2 l1 l2,
      In c1 contribuciones /\ In c2 contribuciones
      /\ vector_de "coeficientes" c1 = Some l1
      /\ vector_de "coeficientes" c2 = Some l2
      /\ length l1 <> length l2) ->
  _agregar_modelo_prediccion contribuciones ahora = Raise ValueError
  /\ (forall self modelo contribucion_id,
        tipo_modelo modelo = "prediccion_demanda"%string ->
        default [] (Federado.contribuciones self !! "prediccion_demanda"%string)
          ++ [contribucion_de modelo contribucion_id] = contribuciones ->
        min_contribuciones (configuracion_privacidad self)
          <= Z.of_nat (length contribuciones) ->
        procesar_modelo_anonimo self modelo contribucion_id ahora
        = (registrar self "prediccion_demanda" (contribucion_de modelo contribucion_id),
           Some ValueError)
        /\ obtener_modelo_agregado
             (fst (procesar_modelo_anonimo self modelo contribucion_id ahora))
             "prediccion_demanda"
           = obtener_modelo_agregado self "prediccion_demanda").
Proof.
  intros Hvec Hdes.
  assert (Hagg : _agregar_modelo_prediccion contribuciones ahora = Raise ValueError).
  { unfold _agregar_modelo_prediccion.
    destruct Hdes as (c1 & c2 & l1 & l2 & Hc1 & Hdes').
    destruct contribuciones as [|c0 resto] eqn:Hcs; [contradiction|].
    rewrite <- Hcs in *. rewrite Hcs at 1. cbn [map primero bind].
    rewrite (agregar_clave_desiguales "coeficientes" contribuciones Hvec).
    - reflexivity.
    - exists c1, c2, l1, l2. split; [exact Hc1 | exact Hdes'].
    - destruct (Hvec c0) as [l0 Hl0]; [rewrite Hcs; left; reflexivity|].
      unfold vector_de in Hl0. unfold dict_in.
      destruct (dict_get (c_parametros c0) "coeficientes"); [reflexivity | discriminate]. }
  split; [exact Hagg|].
  intros self modelo contribucion_id Htipo Hcs Hq.
  assert (Hproc : procesar_modelo_anonimo self modelo contribucion_id ahora
                  = (registrar self "prediccion_demanda"
                       (contribucion_de modelo contribucion_id), Some ValueError)).
  { rewrite procesar_modelo_anonimo_eq. cbv zeta. rewrite Htipo, Hcs.
    destruct (Z.leb_spec (min_contribuciones (configuracion_privacidad self))
                (Z.of_nat (length contribuciones))) as [_|Hlt]; [|lia].
    unfold modelo_nuevo, agregador. cbn [String.eqb Ascii.eqb Bool.eqb].
    rewrite Hagg. reflexivity. }
  split; [exact Hproc|]. rewrite Hproc. reflexivity.
Qed.

Lemma coeficientes_desiguales_abortan_witness :
  _agregar_modelo_prediccion Ejemplos.coeficientes_desiguales "2024-01-02T00:00:00"
  = Raise ValueError.
Proof.
  apply (coeficientes_desiguales_abortan Ejemplos.coeficientes_desiguales "2024-01-02T00:00:00").
  - intros c [<-|[<-|[<-|[]]]]; eexists; reflexivity.
  - exists (Ejemplos.contrib [("coeficientes"%string, Ejemplos.vec [1; 2])] [("mse"%string, 1 # 2)%Q] 100),
           (Ejemplos.contrib [("coeficientes"%string, Ejemplos.vec [1; 2; 3])] [("mse"%string, 1 # 2)%Q] 200),
           (map VInt [1; 2]), (map VInt [1; 2; 3]).
    split; [left; reflexivity|]. split; [right; left; reflexivity|].
    split; [reflexivity|]. split; [reflexivity|]. discriminate.
Defined.

Lemma coeficientes_desiguales_sin_agregado :
  _agregar_modelo_prediccion Ejemplos.coeficientes_desiguales "2024-01-02T00:00:00"
  = Raise ValueError
  /\ forallb (fun t => validar_anonimizacion Ejemplos.repr0 (fst (fst t)))
       Ejemplos.tareas_desiguales = true
  /\ obtener_modelo_agregado (procesar_todos (nuevo Ejemplos.g0) Ejemplos.tareas_desiguales)
       "prediccion_demanda" = None.
Proof. split; [|split]; vm_compute; reflexivity. Qed.

Lemma num_almacenadas_registrar (self : ProcesadorFederado) (tipo tipo' : string)
    (c : Contribucion) :
  num_almacenadas (registrar self tipo c) tipo'
  = num_almacenadas self tipo' + (if decide (tipo = tipo') then 1 else 0).
Proof.
  unfold num_almacenadas. destruct (decide (tipo = tipo')) as [<-|Hne].
  - rewrite registrar_lookup. change (default [] (Some ?x)) with x.
    rewrite length_app. cbn [length]. lia.
  - rewrite (registrar_lookup_ne self tipo tipo' c Hne). lia.
Qed.

(** The three shapes of the processor after [procesar_modelo_anonimo]. *)
Lemma procesar_modelo_anonimo_casos (self : ProcesadorFederado) (modelo : ModeloFederado)
    (contribucion_id ahora : string) :
  let tipo := tipo_modelo modelo in
  let self1 := registrar self tipo (contribucion_de modelo contribucion_id) in
  let self' := fst (procesar_modelo_anonimo self modelo contribucion_id ahora) in
  configuracion_privacidad self' = configuracion_privacidad self
  /\ contribuciones self' = contribuciones self1
  /\ (modelos_activos self' = modelos_activos self
      \/ (min_contribuciones (configuracion_privacidad self) <= num_almacenadas self1 tipo
          /\ exists m, modelos_activos self' = <[tipo := m]> (modelos_activos self))).
Proof.
  intros tipo self1 self'. subst self'. rewrite procesar_modelo_anonimo_eq. cbv zeta.
  fold tipo. fold self1.
  assert (Hn : num_almacenadas self1 tipo
               = Z.of_nat (length (default [] (contribuciones self !! tipo)
                                     ++ [contribucion_de modelo contribucion_id]))).
  { unfold num_almacenadas, self1. rewrite registrar_lookup. reflexivity. }
  rewrite <- Hn.
  destruct (Z.leb_spec (min_contribuciones (configuracion_privacidad self))
              (num_almacenadas self1 tipo)) as [Hq|Hq].
  - destruct (modelo_nuevo _ _ _ _ _) as [[m g']|e]; cbn [fst].
    + pose proof (_guardar_modelo_agregado_memoria (con_agregado self1 tipo m g') tipo m)
        as (Ha & Hc & Hf & _).
      cbv zeta in Ha, Hc, Hf.
      destruct (_guardar_modelo_agregado (con_agregado self1 tipo m g') tipo m)
        as [self2 [e|]]; cbn [fst] in *.
      * split; [exact Hf|]. split; [exact Hc|].
        right. split; [exact Hq|]. exists m. exact Ha.
      * pose proof (_guardar_contribucion_segura_memoria self2 contribucion_id
                      (contribucion_de modelo contribucion_id)) as (Ha' & Hc' & Hf' & _).
        cbv zeta in Ha', Hc', Hf'.
        split; [rewrite Hf'; exact Hf|]. split; [rewrite Hc'; exact Hc|].
        right. split; [exact Hq|]. exists m. rewrite Ha'. exact Ha.
    + split; [reflexivity|]. split; [reflexivity|]. left. reflexivity.
  - pose proof (_guardar_contribucion_segura_memoria self1 contribucion_id
                  (contribucion_de modelo contribucion_id)) as (Ha' & Hc' & Hf' & _).
    cbv zeta in Ha', Hc', Hf'.
    split; [exact Hf'|]. split; [exact Hc'|]. left. exact Ha'.
Qed.

Lemma procesar_preserva_quorum (self : ProcesadorFederado) (modelo : ModeloFederado)
    (contribucion_id ahora : string) :
  quorum_respetado self ->
  quorum_respetado (fst (procesar_modelo_anonimo self modelo contribucion_id ahora)).
Proof.
  intros Hinv tipo' Hsome.
  destruct (procesar_modelo_anonimo_casos self modelo contribucion_id ahora)
    as (Hcfg & Hcontr & Hmod).
  cbv zeta in *.
  set (self' := fst (procesar_modelo_anonimo self modelo contribucion_id ahora)) in *.
  set (self1 := registrar self (tipo_modelo modelo)
                  (contribucion_de modelo contribucion_id)) in *.
  assert (Hnum : num_almacenadas self' tipo' = num_almacenadas self1 tipo').
  { unfold num_almacenadas. rewrite Hcontr. reflexivity. }
  rewrite Hcfg, Hnum.
  pose proof (num_almacenadas_registrar self (tipo_modelo modelo) tipo'
                (contribucion_de modelo contribucion_id)) as Hreg.
  fold self1 in Hreg.
  destruct Hmod as [Hsame|(Hq & m & Hins)].
  - rewrite Hsame in Hsome. specialize (Hinv tipo' Hsome).
    rewrite Hreg. destruct (decide (tipo_modelo modelo = tipo')); lia.
  - destruct (decide (tipo_modelo modelo = tipo')) as [<-|Hne]; [exact Hq|].
    rewrite Hins, lookup_insert_ne in Hsome by exact Hne.
    specialize (Hinv tipo' Hsome). lia.
Qed.

Lemma procesar_todos_preserva (tareas : list tarea) (self : ProcesadorFederado) :
  quorum_respetado self ->
  quorum_respetado (procesar_todos self tareas)
  /\ configuracion_privacidad (procesar_todos self tareas) = configuracion_privacidad self
  /\ forall tipo,
       num_almacenadas (procesar_todos self tareas) tipo
       <= num_almacenadas self tipo + Z.of_nat (length tareas).
Proof.
  revert self. induction tareas as [|[[modelo cid] ahora] tareas IH]; intros self Hinv.
  - split; [exact Hinv|]. split; [reflexivity|]. intros tipo. cbn. lia.
  - unfold procesar_todos. cbn [fold_left].
    fold (procesar_todos (fst (procesar_modelo_anonimo self modelo cid ahora)) tareas).
    destruct (IH _ (procesar_preserva_quorum self modelo cid ahora Hinv))
      as (H1 & H2 & H3).
    destruct (procesar_modelo_anonimo_casos self modelo cid ahora) as (Hcfg & Hcontr & _).
    cbv zeta in *.
    split; [exact H1|]. split; [rewrite H2; exact Hcfg|].
    intros tipo. specialize (H3 tipo).
    assert (Hnum : num_almacenadas (fst (procesar_modelo_anonimo self modelo cid ahora)) tipo
                   = num_almacenadas
                       (registrar self (tipo_modelo modelo) (contribucion_de modelo cid))
                       tipo).
    { unfold num_almacenadas. rewrite Hcontr. reflexivity. }
    rewrite Hnum, num_almacenadas_registrar in H3.
    cbn [length]. destruct (decide (tipo_modelo modelo = tipo)); lia.
Qed.

(** C2, as the code has it: starting with no aggregated model, after any
    sequence of appends a model type has an aggregated model only if its
    stored contribution count has reached the quorum; while the count
    cannot have reached it the fetch returns nothing.  From any state so
    reached, an append that brings or keeps the count at the quorum or
    above runs a fresh aggregation over the whole stored list.  When the
    aggregation returns, its result replaces the snapshot as a whole, and
    this before any file is written: the append then re-raises exactly
    when the file of the snapshot or that of the contribution cannot be
    written, with the snapshot already replaced.  When the aggregation
    raises, the append re-raises its error and the snapshot is the one
    before.  Below the quorum the snapshot is not touched. *)
Theorem agregado_solo_con_quorum (self : ProcesadorFederado) (tareas : list tarea)
    (tipo : string) :
  modelos_activos self = ∅ ->
  let final := procesar_todos self tareas in
  let quorum := min_contribuciones (configuracion_privacidad self) in
  (is_Some (obtener_modelo_agregado final tipo) -> quorum <= num_almacenadas final tipo)
  /\ (num_almacenadas self tipo + Z.of_nat (length tareas) < quorum ->
      obtener_modelo_agregado final tipo = None)
  /\ (forall modelo contribucion_id ahora,
        tipo_modelo modelo = tipo ->
        let cs := default [] (contribuciones final !! tipo)
                    ++ [contribucion_de modelo contribucion_id] in
        let siguiente := procesar_modelo_anonimo final modelo contribucion_id ahora in
        (quorum <= Z.of_nat (length cs) ->
         match modelo_nuevo (configuracion_privacidad final) (np_random final)
                 tipo cs ahora with
         | Ok (m, _) =>
             obtener_modelo_agregado (fst siguiente) tipo = Some m
             /\ snd siguiente
                = error_al_guardar final
                    [ruta_modelo tipo; ruta_contribucion contribucion_id]
         | Raise e =>
             snd siguiente = Some e
             /\ obtener_modelo_agregado (fst siguiente) tipo
                = obtener_modelo_agregado final tipo
         end)
        /\ (Z.of_nat (length cs) < quorum ->
            snd siguiente = error_al_guardar final [ruta_contribucion contribucion_id]
            /\ obtener_modelo_agregado (fst siguiente) tipo
               = obtener_modelo_agregado final tipo)).
Proof.
  intros Hvacio final quorum.
  assert (Hinv : quorum_respetado self).
  { intros t Hsome. rewrite Hvacio, lookup_empty in Hsome.
    destruct Hsome as [? Hsome]. discriminate Hsome. }
  destruct (procesar_todos_preserva tareas self Hinv) as (Hfinal & Hcfg & Hcuenta).
  fold final in Hfinal, Hcfg, Hcuenta.
  assert (Hsolo : is_Some (obtener_modelo_agregado final tipo) ->
                  quorum <= num_almacenadas final tipo).
  { intros Hsome. unfold quorum. rewrite <- Hcfg. apply Hfinal, Hsome. }
  split; [exact Hsolo|]. split.
  - intros Hpocas. destruct (obtener_modelo_agregado final tipo) as [m|] eqn:Hm;
      [|reflexivity].
    exfalso. specialize (Hcuenta tipo).
    assert (quorum <= num_almacenadas final tipo) by (apply Hsolo; eexists; reflexivity).
    lia.
  - intros modelo contribucion_id ahora Htipo cs siguiente.
    subst siguiente. rewrite procesar_modelo_anonimo_eq. cbv zeta.
    rewrite Htipo. fold cs. rewrite Hcfg. fold quorum. rewrite <- Hcfg.
    unfold error_al_guardar. cbn [fold_right].
    split.
    + intros Hq.
      destruct (Z.leb_spec quorum (Z.of_nat (length cs))) as [_|Hlt]; [|lia].
      destruct (modelo_nuevo _ _ _ _ _) as [[m g']|e]; cbn [fst snd];
        [|split; reflexivity].
      set (self1 := registrar final tipo (contribucion_de modelo contribucion_id)).
      pose proof (_guardar_modelo_agregado_memoria (con_agregado self1 tipo m g') tipo m)
        as (Ha & _ & _ & _ & _ & Hw & He).
      cbv zeta in Ha, Hw, He.
      destruct (_guardar_modelo_agregado (con_agregado self1 tipo m g') tipo m)
        as [self2 error]; cbn [fst snd] in *.
      change (error_de_escritura (con_agregado self1 tipo m g'))
        with (error_de_escritura final) in *.
      rewrite <- He.
      destruct error as [e|]; cbn [fst snd].
      * split; [|reflexivity].
        unfold obtener_modelo_agregado. rewrite Ha. apply lookup_insert_eq.
      * pose proof (_guardar_contribucion_segura_memoria self2 contribucion_id
                      (contribucion_de modelo contribucion_id))
          as (Ha' & _ & _ & _ & _ & _ & He').
        cbv zeta in Ha', He'. split.
        -- unfold obtener_modelo_agregado. rewrite Ha', Ha. apply lookup_insert_eq.
        -- rewrite He', Hw.
           destruct (error_de_escritura final (ruta_contribucion contribucion_id));
             reflexivity.
    + intros Hlt.
      destruct (Z.leb_spec quorum (Z.of_nat (length cs))) as [Hq|_]; [lia|].
      pose proof (_guardar_contribucion_segura_memoria
                    (registrar final tipo (contribucion_de modelo contribucion_id))
                    contribucion_id (contribucion_de modelo contribucion_id))
        as (Ha' & _ & _ & _ & _ & _ & He').
      cbv zeta in Ha', He'. split.
      * rewrite He'. cbn [registrar error_de_escritura].
        destruct (error_de_escritura final (ruta_contribucion contribucion_id));
          reflexivity.
      * unfold obtener_modelo_agregado. rewrite Ha'. reflexivity.
Qed.

Lemma quorum_sin_agregado :
  forallb (fun t => validar_anonimizacion Ejemplos.repr0 (fst (fst t)))
    Ejemplos.tareas_sin_coeficientes = true
  /\ min_contribuciones
       (configuracion_privacidad
          (procesar_todos (nuevo Ejemplos.g0) Ejemplos.tareas_sin_coeficientes)) = 3
  /\ num_almacenadas (procesar_todos (nuevo Ejemplos.g0) Ejemplos.tareas_sin_coeficientes)
       "prediccion_demanda" = 3
  /\ obtener_modelo_agregado
       (procesar_todos (nuevo Ejemplos.g0) Ejemplos.tareas_sin_coeficientes)
       "prediccion_demanda" = None.
Proof.
  split; [vm_compute; reflexivity|].
  split; [vm_compute; reflexivity|].
  split; vm_compute; reflexivity.
Qed.

Lemma agregado_solo_con_quorum_witness :
  obtener_modelo_agregado (procesar_todos (nuevo Ejemplos.g0) Ejemplos.dos_tareas)
    "optimizacion_precios" = None.
Proof.
  pose proof (agregado_solo_con_quorum (nuevo Ejemplos.g0) Ejemplos.dos_tareas
                "optimizacion_precios") as H.
  cbv zeta in H.
  destruct H as (_ & H & _); [reflexivity|].
  apply H. vm_compute. reflexivity.
Defined.

(** * Further properties of the code *)

(** ** The fetch endpoint *)

(** X1: the fetch endpoint never answers 404.  When no aggregated model
    is registered for the type, its own 404 is caught by [except Exception]
    and the answer is a 500 whose detail embeds the 404 message, and no
    audit row is written; when a model is registered it is returned and
    one audit row is appended, unless the audit database cannot be
    written, which is a 500 too. *)
Theorem obtener_endpoint_nunca_404 (procesador : ProcesadorFederado)
    (registro : RegistroConsultas) (tipo_modelo ahora : string) :
  let r := obtener_modelo_agregado_endpoint procesador registro tipo_modelo ahora in
  (Federado.obtener_modelo_agregado procesador tipo_modelo = None ->
   r = (registro,
        Raise (HTTPException 500
                 ("Error obteniendo modelo: 404: No hay modelo agregado disponible para "
                    +:+ tipo_modelo))))
  /\ status_http (snd r) <> 404
  /\ (forall m,
        Federado.obtener_modelo_agregado procesador tipo_modelo = Some m ->
        (bd_escribible registro = true ->
         snd r = Ok m
         /\ log_consultas (fst r)
            = log_consultas registro
                ++ [mk_Consulta "modelo_agregado" tipo_modelo ahora "modelo_entregado"])
        /\ (bd_escribible registro = false ->
            status_http (snd r) = 500 /\ fst r = registro)).
Proof.
  intros r. subst r.
  unfold obtener_modelo_agregado_endpoint, obtener_modelo_agregado_try.
  destruct (Federado.obtener_modelo_agregado procesador tipo_modelo) as [m|].
  - unfold registrar_consulta_modelo.
    destruct (bd_escribible registro) eqn:Hbd; cbn [bind fst snd status_http].
    + split; [discriminate|]. split; [discriminate|].
      intros m' [= <-]. split; [intros _; split; reflexivity | discriminate].
    + split; [discriminate|]. split; [discriminate|].
      intros m' [= <-]. split; [discriminate | intros _; split; reflexivity].
  - cbn [fst snd status_http]. split; [intros _; reflexivity|].
    split; [discriminate|]. intros m' H. discriminate H.
Qed.

Lemma obtener_endpoint_nunca_404_witness :
  status_http
    (snd (obtener_modelo_agregado_endpoint (nuevo Ejemplos.g0)
            (mk_RegistroConsultas [] true) "prediccion_demanda" "2024-01-01T00:00:00"))
  = 500.
Proof.
  pose proof (obtener_endpoint_nunca_404 (nuevo Ejemplos.g0)
                (mk_RegistroConsultas [] true) "prediccion_demanda"
                "2024-01-01T00:00:00") as H.
  cbv zeta in H. destruct H as (H & _ & _).
  rewrite H; reflexivity.
Defined.

(** ** The metrics gate *)

Lemma lista_corta_spec (v : valor) :
  lista_corta v = true <-> exists l, v = VList l /\ (length l < 10)%nat.
Proof.
  destruct v; simpl; try (split; [discriminate | intros (l0 & H & _); discriminate H]).
  rewrite Nat.ltb_lt. split.
  - intros H. exists l. split; [reflexivity | exact H].
  - intros (l0 & [= <-] & H). exact H.
Qed.

(** X2: the metrics gate rejects exactly when the segment hash is shorter
    than 16 characters or some metric is a list of fewer than 10 items.
    For metrics the pydantic validator accepts, in particular when every
    metric is a number as the field type requires, only the length of the
    hash decides. *)
Theorem validar_metricas_anonimas_spec (metricas : MetricasEmpresa) :
  (validar_metricas_anonimas metricas = false
   <-> ((String.length (me_giro_hash metricas) < 16)%nat
        \/ exists clave l,
             In (clave, VList l) (me_metricas_agregadas metricas)
             /\ (length l < 10)%nat))
  /\ (validar_metricas_agregadas (me_metricas_agregadas metricas)
      = Ok (me_metricas_agregadas metricas) ->
      validar_metricas_anonimas metricas
      = negb (String.length (me_giro_hash metricas) <? 16)%nat)
  /\ (Forall (fun kv => is_number (snd kv) = true) (me_metricas_agregadas metricas) ->
      validar_metricas_agregadas (me_metricas_agregadas metricas)
      = Ok (me_metricas_agregadas metricas)).
Proof.
  unfold validar_metricas_anonimas, validar_metricas_agregadas.
  split; [|split].
  - destruct (Nat.ltb_spec (String.length (me_giro_hash metricas)) 16) as [Hh|Hh].
    { split; [intros _; left; exact Hh | reflexivity]. }
    destruct (existsb _ (me_metricas_agregadas metricas)) eqn:Hex.
    + split; [intros _|reflexivity]. right.
      apply existsb_exists in Hex as ([k v] & Hin & Hv). cbn [snd] in Hv.
      apply lista_corta_spec in Hv as (l & -> & Hl). exists k, l. split; assumption.
    + split; [discriminate|]. intros [H|(k & l & Hin & Hl)]; [lia|].
      assert (existsb (fun kv => lista_corta (snd kv)) (me_metricas_agregadas metricas)
              = true) as Habs.
      { apply existsb_exists. exists (k, VList l). split; [exact Hin|].
        apply lista_corta_spec. exists l. split; [reflexivity | exact Hl]. }
      congruence.
  - destruct (existsb _ (me_metricas_agregadas metricas)); [discriminate|].
    intros _. destruct (String.length (me_giro_hash metricas) <? 16)%nat; reflexivity.
  - intros Hnum.
    destruct (existsb _ (me_metricas_agregadas metricas)) eqn:Hex; [|reflexivity].
    apply existsb_exists in Hex as ([k v] & Hin & Hv).
    rewrite List.Forall_forall in Hnum. specialize (Hnum _ Hin). cbn [snd] in *.
    destruct v; discriminate.
Qed.

Lemma validar_metricas_anonimas_spec_witness :
  validar_metricas_agregadas (me_metricas_agregadas Ejemplos.metricas_ok)
  = Ok (me_metricas_agregadas Ejemplos.metricas_ok).
Proof.
  apply (validar_metricas_anonimas_spec Ejemplos.metricas_ok).
  repeat constructor.
Defined.

(** ** The metrics store *)

Section MetricasStore.
Variable sha256_hexdigest : string -> string.

Lemma procesar_metricas_num (self : EstadoMetricas) (m : MetricasEmpresa) (giro : string) :
  num_metricas (fst (procesar_metricas_anonimas sha256_hexdigest self m)) giro
  = num_metricas self giro + (if String.eqb (me_giro_hash m) giro then 1 else 0).
Proof.
  unfold num_metricas, procesar_metricas_anonimas, _guardar_metricas_seguras.
  cbn [fst metricas_por_giro].
  destruct (String.eqb_spec (me_giro_hash m) giro) as [<-|Hne].
  - rewrite lookup_insert_eq. change (default [] (Some ?x)) with x.
    rewrite length_app. cbn [length]. lia.
  - rewrite lookup_insert_ne by exact Hne. lia.
Qed.

Lemma procesar_metricas_todas_num (envios : list MetricasEmpresa) (self : EstadoMetricas)
    (giro : string) :
  num_metricas (procesar_metricas_todas sha256_hexdigest self envios) giro
  = num_metricas self giro + envios_de giro envios.
Proof.
  revert self. induction envios as [|e envios IH]; intros self.
  - unfold envios_de. cbn. lia.
  - unfold procesar_metricas_todas. cbn [fold_left].
    fold (procesar_metricas_todas sha256_hexdigest
            (fst (procesar_metricas_anonimas sha256_hexdigest self e)) envios).
    rewrite IH, procesar_metricas_num. unfold envios_de. cbn [List.filter].
    destruct (String.eqb (me_giro_hash e) giro); cbn [length]; lia.
Qed.
End MetricasStore.

(** X3: starting with no metrics, the total a submission is answered
    with is one more than the number of earlier submissions with the same
    segment hash, and the lists of the other segments are not touched. *)
Theorem total_contribuciones_cuenta (sha256_hexdigest : string -> string)
    (envios : list MetricasEmpresa) (m : MetricasEmpresa) :
  let antes := procesar_metricas_todas sha256_hexdigest (mk_EstadoMetricas ∅ ∅) envios in
  let '(despues, resultado) := procesar_metricas_anonimas sha256_hexdigest antes m in
  total_contribuciones resultado = 1 + envios_de (me_giro_hash m) envios
  /\ (forall giro, giro <> me_giro_hash m ->
        metricas_por_giro despues !! giro = metricas_por_giro antes !! giro).
Proof.
  intros antes.
  destruct (procesar_metricas_anonimas sha256_hexdigest antes m) as [despues resultado] eqn:E.
  unfold procesar_metricas_anonimas in E. injection E as <- <-.
  cbn [total_contribuciones]. split.
  - rewrite length_app. cbn [length].
    pose proof (procesar_metricas_todas_num sha256_hexdigest envios
                  (mk_EstadoMetricas ∅ ∅) (me_giro_hash m)) as H.
    fold antes in H. unfold num_metricas in H. cbn [metricas_por_giro] in H.
    rewrite lookup_empty in H. cbn [default length] in H. lia.
  - intros giro Hne. unfold _guardar_metricas_seguras. cbn [metricas_por_giro].
    apply lookup_insert_ne. congruence.
Qed.

(** X4: the id of a metrics submission depends on its timestamp and
    segment hash only: two submissions that agree on both get the same id,
    the in-memory list grows by one each time, but the second file
    replaces the first one. *)
Theorem ids_de_metricas_colisionan (sha256_hexdigest : string -> string)
    (self : EstadoMetricas) (m1 m2 : MetricasEmpresa) :
  me_timestamp_envio m1 = me_timestamp_envio m2 ->
  me_giro_hash m1 = me_giro_hash m2 ->
  let '(self1, r1) := procesar_metricas_anonimas sha256_hexdigest self m1 in
  let '(self2, r2) := procesar_metricas_anonimas sha256_hexdigest self1 m2 in
  res_id r2 = res_id r1
  /\ total_contribuciones r2 = total_contribuciones r1 + 1
  /\ dom (archivos_metricas self2) = dom (archivos_metricas self1)
  /\ option_map ms_periodo (archivos_metricas self2 !! res_id r1)
     = Some (me_periodo_inicio m2 +:+ "_" +:+ me_periodo_fin m2).
Proof.
  intros Ht Hg.
  unfold procesar_metricas_anonimas, _guardar_metricas_seguras, metricas_id_de.
  cbn [res_id total_contribuciones archivos_metricas metricas_por_giro].
  rewrite <- Ht, <- Hg, lookup_insert_eq. change (default [] (Some ?x)) with x.
  split; [reflexivity|]. split.
  - rewrite !length_app. cbn [length]. lia.
  - split.
    + rewrite !dom_insert_L. set_solver.
    + rewrite lookup_insert_eq. reflexivity.
Qed.

Lemma ids_de_metricas_colisionan_witness :
  dom (archivos_metricas
         (fst (procesar_metricas_anonimas Ejemplos.sha0
                 (fst (procesar_metricas_anonimas Ejemplos.sha0 Ejemplos.estado_vacio Ejemplos.metricas_ok))
                 Ejemplos.metricas_ok)))
  = dom (archivos_metricas (fst (procesar_metricas_anonimas Ejemplos.sha0 Ejemplos.estado_vacio Ejemplos.metricas_ok))).
Proof.
  pose proof (ids_de_metricas_colisionan Ejemplos.sha0 Ejemplos.estado_vacio Ejemplos.metricas_ok Ejemplos.metricas_ok
                eq_refl eq_refl) as H.
  destruct (procesar_metricas_anonimas Ejemplos.sha0 Ejemplos.estado_vacio Ejemplos.metricas_ok) as [self1 r1].
  cbn [fst] in *.
  destruct (procesar_metricas_anonimas Ejemplos.sha0 self1 Ejemplos.metricas_ok) as [self2 r2].
  cbn [fst]. destruct H as (_ & _ & H & _). exact H.
Defined.

(** ** The metrics endpoint *)

(** X5: the metrics endpoint never answers 400.  Metrics the gate rejects
    get a 500 that embeds the 400 message and leave the store as it was;
    metrics the gate accepts get the answer ["procesado"] with the new
    total for their segment. *)
Theorem enviar_metricas_nunca_400 (sha256_hexdigest : string -> string)
    (estado : EstadoMetricas) (metricas : MetricasEmpresa) (ahora : string) :
  let r := enviar_metricas_anonimas sha256_hexdigest estado metricas ahora in
  status_http (snd r) <> 400
  /\ (validar_metricas_anonimas metricas = false ->
      r = (estado,
           Raise (HTTPException 500
                    (prefijo_500_metricas +:+ "400: " +:+ detalle_400_metricas))))
  /\ (validar_metricas_anonimas metricas = true ->
      exists respuesta,
        snd r = Ok respuesta
        /\ rmt_status respuesta = "procesado"%string
        /\ rmt_contribuciones_totales respuesta
           = 1 + Z.of_nat (length (default []
                                     (metricas_por_giro estado !! me_giro_hash metricas)))
        /\ fst r = fst (procesar_metricas_anonimas sha256_hexdigest estado metricas)).
Proof.
  intros r. subst r. unfold enviar_metricas_anonimas.
  destruct (validar_metricas_anonimas metricas); cbn [negb].
  - unfold procesar_metricas_anonimas. cbn [fst snd status_http].
    split; [discriminate|]. split; [discriminate|]. intros _.
    eexists. split; [reflexivity|]. cbn [rmt_status rmt_contribuciones_totales
      res_id total_contribuciones]. split; [reflexivity|]. split; [|reflexivity].
    rewrite length_app. cbn [length]. lia.
  - cbn [fst snd status_http]. split; [discriminate|].
    split; [intros _; reflexivity | discriminate].
Qed.

Lemma enviar_metricas_nunca_400_witness :
  status_http (snd (enviar_metricas_anonimas Ejemplos.sha0 Ejemplos.estado_vacio Ejemplos.metricas_hash_corto
                      "2024-02-01T00:00:01")) = 500.
Proof.
  pose proof (enviar_metricas_nunca_400 Ejemplos.sha0 Ejemplos.estado_vacio Ejemplos.metricas_hash_corto
                "2024-02-01T00:00:01") as H.
  cbv zeta in H. destruct H as (_ & H & _).
  rewrite H; reflexivity.
Defined.

(** ** The submit handler when the gate accepts *)

(** X6: when the gate accepts a model and the store can be written, the
    submit handler answers ["recibido"] with the contribution id, queues
    exactly one processing task after the pending ones, does not touch the
    processor, and stores metadata whose segment hash is cut to its first
    8 characters; when the store cannot be written the answer is a 500 and
    nothing is queued or stored. *)
Theorem enviar_modelo_aceptado (repr_float : Q -> string) (srv : Servidor)
    (modelo : ModeloFederado) (contribucion_id ahora : string) :
  validar_anonimizacion repr_float modelo = true ->
  let r := enviar_modelo_federado repr_float srv modelo contribucion_id ahora in
  (escribible (almacen srv) = true ->
   snd r = Ok (mk_Respuesta "recibido" contribucion_id mensaje_recibido ahora)
   /\ background_tasks (fst r) = background_tasks srv ++ [(modelo, contribucion_id)]
   /\ procesador_federado (fst r) = procesador_federado srv
   /\ option_map m_giro_hash_parcial (metadatos (almacen (fst r)) !! contribucion_id)
      = Some (String.substring 0 8 (giro_hash modelo) +:+ "..."))
  /\ (escribible (almacen srv) = false ->
      status_http (snd r) = 500 /\ fst r = srv).
Proof.
  intros Hval r. subst r.
  unfold enviar_modelo_federado, enviar_modelo_federado_try, guardar_metadatos_contribucion.
  rewrite Hval. cbn [negb].
  destruct (escribible (almacen srv)); cbn [bind fst snd status_http].
  - split; [intros _|discriminate]. split; [reflexivity|]. split; [reflexivity|].
    split; [reflexivity|]. cbn [almacen metadatos]. rewrite lookup_insert_eq. reflexivity.
  - split; [discriminate|]. intros _. split; reflexivity.
Qed.

Lemma enviar_modelo_aceptado_witness :
  snd (enviar_modelo_federado Ejemplos.repr0 Ejemplos.servidor0
         (Ejemplos.modelo "prediccion_demanda" [("coeficientes"%string, Ejemplos.vec [1; 2])]
            [] 100)
         "00112233aabbccdd" "2024-01-01T00:00:01")
  = Ok (mk_Respuesta "recibido" "00112233aabbccdd" mensaje_recibido "2024-01-01T00:00:01").
Proof.
  apply (enviar_modelo_aceptado Ejemplos.repr0 Ejemplos.servidor0
           (Ejemplos.modelo "prediccion_demanda"
              [("coeficientes"%string, Ejemplos.vec [1; 2])] [] 100)
           "00112233aabbccdd" "2024-01-01T00:00:01").
  - vm_compute. reflexivity.
  - reflexivity.
Defined.

(** ** The contribution history *)

(** X7: the contribution history only grows: after any sequence of
    tasks the list stored for a type is the list before followed by the
    contributions of the tasks of that type, in order, whether or not
    their aggregation raised. *)
Theorem contribuciones_nunca_se_purgan (tareas : list tarea) (self : ProcesadorFederado)
    (tipo : string) :
  default [] (contribuciones (procesar_todos self tareas) !! tipo)
  = default [] (contribuciones self !! tipo) ++ contribuciones_de_tipo tipo tareas.
Proof.
  revert self. induction tareas as [|[[modelo cid] ahora] tareas IH]; intros self.
  - cbn. rewrite app_nil_r. reflexivity.
  - unfold procesar_todos. cbn [fold_left].
    fold (procesar_todos (fst (procesar_modelo_anonimo self modelo cid ahora)) tareas).
    rewrite IH.
    destruct (procesar_modelo_anonimo_casos self modelo cid ahora) as (_ & Hcontr & _).
    cbv zeta in Hcontr. rewrite Hcontr. cbn [contribuciones_de_tipo flat_map].
    destruct (String.eqb_spec (tipo_modelo modelo) tipo) as [<-|Hne].
    + rewrite registrar_lookup. change (default [] (Some ?x)) with x.
      rewrite <- app_assoc. reflexivity.
    + rewrite registrar_lookup_ne by exact Hne. reflexivity.
Qed.

(** X8: an append always registers the contribution in memory.  When it
    returns normally the contribution file is written, with the model type
    ["unknown"]; when it re-raises, no contribution file is written.  At
    or above the quorum: when the aggregation raises, the append re-raises
    its error and neither the snapshot nor its file is touched; when the
    aggregation returns, the snapshot in memory is replaced first, and the
    append then re-raises the error of the snapshot file if that cannot be
    written, and otherwise writes it and ends as the writing of the
    contribution file does.  Below the quorum the snapshot is untouched. *)
Theorem archivo_de_contribucion (self : ProcesadorFederado) (modelo : ModeloFederado)
    (contribucion_id ahora : string) :
  let r := procesar_modelo_anonimo self modelo contribucion_id ahora in
  let tipo := tipo_modelo modelo in
  let c := contribucion_de modelo contribucion_id in
  let cs := default [] (contribuciones self !! tipo) ++ [c] in
  let quorum := min_contribuciones (configuracion_privacidad self) in
  In c (default [] (contribuciones (fst r) !! tipo))
  /\ match snd r with
     | None =>
         archivos_contribuciones (fst r) !! contribucion_id
         = Some (mk_ContribucionSegura contribucion_id (timestamp modelo) "unknown"
                   (Z.of_nat (length (parametros modelo)))
                   (metricas_validacion modelo) (num_muestras_entrenamiento modelo))
     | Some _ => archivos_contribuciones (fst r) = archivos_contribuciones self
     end
  /\ (quorum <= Z.of_nat (length cs) ->
      match modelo_nuevo (configuracion_privacidad self) (np_random self) tipo cs ahora with
      | Raise e =>
          snd r = Some e
          /\ modelos_activos (fst r) = modelos_activos self
          /\ archivos_modelos (fst r) = archivos_modelos self
      | Ok (m, _) =>
          modelos_activos (fst r) = <[tipo := m]> (modelos_activos self)
          /\ match error_de_escritura self (ruta_modelo tipo) with
             | Some e =>
                 snd r = Some e /\ archivos_modelos (fst r) = archivos_modelos self
             | None =>
                 snd r = error_de_escritura self (ruta_contribucion contribucion_id)
                 /\ archivos_modelos (fst r) = <[tipo := m]> (archivos_modelos self)
             end
      end)
  /\ (Z.of_nat (length cs) < quorum ->
      snd r = error_de_escritura self (ruta_contribucion contribucion_id)
      /\ modelos_activos (fst r) = modelos_activos self
      /\ archivos_modelos (fst r) = archivos_modelos self).
Proof.
  intros r tipo c cs quorum. subst r. split.
  - destruct (procesar_modelo_anonimo_casos self modelo contribucion_id ahora)
      as (_ & Hcontr & _).
    cbv zeta in Hcontr. rewrite Hcontr. unfold tipo. rewrite registrar_lookup.
    change (default [] (Some ?x)) with x. apply in_or_app. right. left. reflexivity.
  - rewrite procesar_modelo_anonimo_eq. cbv zeta.
    fold tipo. fold c. fold cs. fold quorum.
    unfold _guardar_modelo_agregado, _guardar_contribucion_segura, con_agregado.
    cbn [error_de_escritura registrar].
    destruct (Z.leb_spec quorum (Z.of_nat (length cs))) as [Hq|Hq].
    + destruct (modelo_nuevo _ _ _ _ _) as [[m g']|e].
      * destruct (error_de_escritura self (ruta_modelo tipo)) as [e1|];
          cbn [error_de_escritura].
        -- cbn [fst snd modelos_activos archivos_modelos archivos_contribuciones].
           split; [reflexivity|].
           split; [intros _; repeat split | intros Hlt; lia].
        -- destruct (error_de_escritura self (ruta_contribucion contribucion_id))
             as [e2|];
             cbn [fst snd modelos_activos archivos_modelos archivos_contribuciones].
           ++ split; [reflexivity|].
              split; [intros _; repeat split | intros Hlt; lia].
           ++ split; [rewrite lookup_insert_eq; reflexivity|].
              split; [intros _; repeat split | intros Hlt; lia].
      * cbn [fst snd registrar modelos_activos archivos_modelos archivos_contribuciones].
        split; [reflexivity|].
        split; [intros _; repeat split | intros Hlt; lia].
    + destruct (error_de_escritura self (ruta_contribucion contribucion_id)) as [e2|];
        cbn [fst snd registrar modelos_activos archivos_modelos archivos_contribuciones].
      * split; [reflexivity|].
        split; [intros Hle; lia | intros _; repeat split].
      * split; [rewrite lookup_insert_eq; reflexivity|].
        split; [intros Hle; lia | intros _; repeat split].
Qed.

(** An append that reaches the quorum under a model type holding a null
    byte: the aggregation returns and the snapshot is replaced, then the
    file of the snapshot cannot be opened and the append re-raises. *)
Lemma archivo_de_contribucion_witness :
  let self := procesar_todos (nuevo Ejemplos.g0) Ejemplos.dos_tareas_con_nul in
  let r := procesar_modelo_anonimo self
             (Ejemplos.modelo Ejemplos.tipo_con_nul [("coef"%string, VInt 3)] [] 300)
             "id3" "2024-01-02T00:00:00" in
  snd r = Some ValueError
  /\ is_Some (modelos_activos (fst r) !! Ejemplos.tipo_con_nul)
  /\ modelos_activos self !! Ejemplos.tipo_con_nul = None
  /\ archivos_modelos (fst r) = archivos_modelos self
  /\ archivos_contribuciones (fst r) = archivos_contribuciones self.
Proof.
  intros self r.
  pose proof (archivo_de_contribucion self
                (Ejemplos.modelo Ejemplos.tipo_con_nul [("coef"%string, VInt 3)] [] 300)
                "id3" "2024-01-02T00:00:00") as H.
  cbv zeta in H. fold r in H. destruct H as (_ & Harch & Hq & _).
  assert (Hmin : min_contribuciones (configuracion_privacidad self)
                 <= Z.of_nat (length (default [] (contribuciones self
                                                    !! Ejemplos.tipo_con_nul)
                                        ++ [contribucion_de
                                              (Ejemplos.modelo Ejemplos.tipo_con_nul
                                                 [("coef"%string, VInt 3)] [] 300)
                                              "id3"]))).
  { vm_compute. discriminate. }
  specialize (Hq Hmin).
  destruct (modelo_nuevo _ _ _ _ _) as [[m g']|e] eqn:Hm; [|vm_compute in Hm; discriminate].
  destruct Hq as (Hact & Hesc).
  assert (Herr : error_de_escritura self (ruta_modelo Ejemplos.tipo_con_nul)
                 = Some ValueError) by (vm_compute; reflexivity).
  cbn [tipo_modelo Ejemplos.modelo] in Hesc, Hact.
  rewrite Herr in Hesc. destruct Hesc as (Hsnd & Hmod).
  split; [exact Hsnd|].
  split; [rewrite Hact, lookup_insert_eq; eexists; reflexivity|].
  split; [vm_compute; reflexivity|].
  split; [exact Hmod|].
  rewrite Hsnd in Harch. exact Harch.
Defined.

(** ** The noise pass with epsilon = 0 *)

Lemma inverso_cero (epsilon : Q) :
  (epsilon == 0)%Q -> inverso epsilon = Raise ZeroDivisionError.
Proof.
  intros H. unfold inverso. apply Qeq_bool_iff in H. rewrite H. reflexivity.
Qed.

Lemma foldM_paso_ruido_cero (epsilon : Q) (items d : dict valor) (g : generador) :
  (epsilon == 0)%Q ->
  foldM (paso_ruido epsilon) items (d, g)
  = if existsb (fun kv => es_numerico (snd kv)) items
    then Raise ZeroDivisionError else Ok (d, g).
Proof.
  intros Heps. induction items as [|[k v] items IH]; [reflexivity|].
  cbn [foldM existsb snd]. unfold paso_ruido at 1. unfold es_numerico at 1.
  destruct (is_number v) eqn:Hn.
  - rewrite (inverso_cero _ Heps). reflexivity.
  - destruct (is_number_list v) eqn:Hl.
    + destruct v; try discriminate. rewrite (inverso_cero _ Heps). reflexivity.
    + cbn [bind orb]. exact IH.
Qed.

(** X9: with epsilon = 0 the noise pass raises [ZeroDivisionError] as
    soon as the parameters hold a scalar or a vector of numbers, and
    returns the model unchanged, without drawing, when they hold none. *)
Theorem ruido_con_epsilon_cero (cfg : ConfiguracionPrivacidad) (g : generador)
    (modelo : ModeloAgregado) :
  (epsilon cfg == 0)%Q ->
  _aplicar_ruido_diferencial cfg g modelo
  = if existsb (fun kv => es_numerico (snd kv)) (parametros_agregados modelo)
    then Raise ZeroDivisionError
    else Ok (modelo, g).
Proof.
  intros Heps. unfold _aplicar_ruido_diferencial.
  unfold dict in *. rewrite (foldM_paso_ruido_cero _ _ _ _ Heps).
  destruct (existsb _ (parametros_agregados modelo)); [reflexivity|].
  cbn [bind]. destruct modelo; reflexivity.
Qed.

Lemma ruido_con_epsilon_cero_witness :
  _aplicar_ruido_diferencial (mk_ConfiguracionPrivacidad 3 true 0 90) Ejemplos.g0
    Ejemplos.modelo_mixto = Raise ZeroDivisionError.
Proof.
  rewrite (ruido_con_epsilon_cero (mk_ConfiguracionPrivacidad 3 true 0 90) Ejemplos.g0
             Ejemplos.modelo_mixto); reflexivity.
Defined.

(** ** Rounding *)

Lemma round_half_even_cotas (x : Q) :
  Qfloor x <= round_half_even x <= Qfloor x + 1.
Proof.
  unfold round_half_even.
  destruct (Qcompare (x - inject_Z (Qfloor x)) (1 # 2)); [|lia|lia].
  destruct (Z.even (Qfloor x)); lia.
Qed.

Lemma round_half_even_entero (n : Z) : round_half_even (inject_Z n) = n.
Proof.
  unfold round_half_even. rewrite Qfloor_Z.
  assert (H : (inject_Z n - inject_Z n ?= 1 # 2)%Q = Lt).
  { rewrite <- Qlt_alt. lra. }
  rewrite H. reflexivity.
Qed.

Lemma round_half_even_mono (x y : Q) :
  (x <= y)%Q -> round_half_even x <= round_half_even y.
Proof.
  intros Hxy.
  pose proof (Qfloor_resp_le x y Hxy) as Hf.
  pose proof (round_half_even_cotas x) as Hx.
  pose proof (round_half_even_cotas y) as Hy.
  destruct (Z.eq_dec (Qfloor x) (Qfloor y)) as [Heq|Hne]; [|lia].
  unfold round_half_even. rewrite <- Heq.
  destruct (Qcompare (x - inject_Z (Qfloor x)) (1 # 2)) eqn:Cx;
    destruct (Qcompare (y - inject_Z (Qfloor x)) (1 # 2)) eqn:Cy;
    try (destruct (Z.even (Qfloor x)); lia); try lia; exfalso.
  - apply Qeq_alt in Cx. apply Qlt_alt in Cy. lra.
  - apply Qgt_alt in Cx. apply Qeq_alt in Cy. lra.
  - apply Qgt_alt in Cx. apply Qlt_alt in Cy. lra.
Qed.

Lemma round3_mono (x y : Q) : (x <= y)%Q -> (round3 x <= round3 y)%Q.
Proof.
  intros H. unfold round3.
  assert (Hz : round_half_even (x * 1000) <= round_half_even (y * 1000)).
  { apply round_half_even_mono. lra. }
  rewrite Zle_Qle in Hz. apply Qmult_le_compat_r; [exact Hz|].
  apply Qinv_le_0_compat. discriminate.
Qed.

(** ** The range of the confidence score *)

Lemma Qsum_cotas (l : list Q) :
  Forall (fun q => 0 <= q <= 1)%Q l ->
  (0 <= Qsum l <= inject_Z (Z.of_nat (length l)))%Q.
Proof.
  induction 1 as [|q l [Hq0 Hq1] Hl [IH0 IH1]].
  - simpl. split; apply Qle_refl.
  - cbn [Qsum fold_right length]. fold (Qsum l).
    rewrite Nat2Z.inj_succ, <- Z.add_1_r, inject_Z_plus.
    change (inject_Z 1) with 1%Q. split; lra.
Qed.

Lemma media_cotas (l : list Q) :
  l <> [] -> Forall (fun q => 0 <= q <= 1)%Q l -> (0 <= media l <= 1)%Q.
Proof.
  intros Hne Hl. destruct (Qsum_cotas l Hl) as [H0 H1]. unfold media.
  assert (Hpos : (0 < inject_Z (Z.of_nat (length l)))%Q).
  { change 0%Q with (inject_Z 0). rewrite <- Zlt_Qlt.
    destruct l; [congruence | cbn [length]; lia]. }
  split.
  - apply Qle_shift_div_l; [exact Hpos | lra].
  - apply Qle_shift_div_r; [exact Hpos | lra].
Qed.

Lemma confianza_base_cotas (n : Z) :
  1 <= n -> (1 # 10 <= confianza_base n <= 9 # 10)%Q.
Proof.
  intros Hn. unfold confianza_base. rewrite Zle_Qle in Hn.
  change (inject_Z 1) with 1%Q in Hn. split.
  - apply Q.min_glb; lra.
  - eapply Qle_trans; [apply Q.le_min_l | lra].
Qed.

Lemma confianza_base_mono (n m : Z) :
  n <= m -> (confianza_base n <= confianza_base m)%Q.
Proof.
  intros H. unfold confianza_base. rewrite Zle_Qle in H.
  apply Q.min_le_compat_l. lra.
Qed.

Lemma round3_cotas (x : Q) :
  (0 <= x <= 9 # 10)%Q -> (0 <= round3 x <= 9 # 10)%Q.
Proof.
  intros [H0 H1].
  assert (E0 : (round3 0 == 0)%Q) by reflexivity.
  assert (E9 : (round3 (9 # 10) == 9 # 10)%Q) by reflexivity.
  split.
  - apply (Qle_trans _ (round3 0)); [rewrite E0; apply Qle_refl|].
    apply round3_mono, H0.
  - apply (Qle_trans _ (round3 (9 # 10))); [|rewrite E9; apply Qle_refl].
    apply round3_mono, H1.
Qed.

(** X10: when every primary quality metric of the contributions lies in
    [0,1], the confidence score of a non-empty list lies in [0, 0.9]. *)
Theorem confianza_en_rango (c0 : Contribucion) (resto : list Contribucion) :
  Forall (fun q => 0 <= q <= 1)%Q (calidades (c0 :: resto)) ->
  exists q, _calcular_confianza (c0 :: resto) = Ok q /\ (0 <= q <= 9 # 10)%Q.
Proof.
  intros Hcal. rewrite _calcular_confianza_eq. eexists. split; [reflexivity|].
  apply round3_cotas.
  assert (Hn : 1 <= Z.of_nat (length (c0 :: resto))) by (cbn [length]; lia).
  destruct (confianza_base_cotas _ Hn) as [Hb0 Hb1].
  destruct (c_metricas c0); [split; lra|].
  destruct (calidades (c0 :: resto)) as [|q l] eqn:E; [split; lra|].
  destruct (media_cotas (q :: l)) as [Hm0 Hm1]; [discriminate | exact Hcal |].
  split; nra.
Qed.

Lemma confianza_en_rango_witness :
  exists q, _calcular_confianza Ejemplos.primera_sin_metricas = Ok q
            /\ (0 <= q <= 9 # 10)%Q.
Proof.
  apply (confianza_en_rango (Ejemplos.contrib [] [] 100)
           [Ejemplos.contrib [] [("r2"%string, 9 # 10)%Q] 200;
            Ejemplos.contrib [] [("r2"%string, 8 # 10)%Q] 300]).
  repeat constructor; discriminate.
Defined.

(** X11: for two lists whose first contributions report metrics and
    whose mean primary quality is the same and not negative, the longer
    list does not get the lower confidence score. *)
Theorem confianza_no_decrece (c0 c0' : Contribucion) (resto resto' : list Contribucion) :
  (length (c0 :: resto) <= length (c0' :: resto'))%nat ->
  c_metricas c0 <> [] -> c_metricas c0' <> [] ->
  calidades (c0 :: resto) <> [] -> calidades (c0' :: resto') <> [] ->
  (media (calidades (c0 :: resto)) == media (calidades (c0' :: resto')))%Q ->
  (0 <= media (calidades (c0 :: resto)))%Q ->
  exists q q',
    _calcular_confianza (c0 :: resto) = Ok q
    /\ _calcular_confianza (c0' :: resto') = Ok q'
    /\ (q <= q')%Q.
Proof.
  intros Hlen Hm Hm' Hc Hc' Heq Hpos.
  rewrite !_calcular_confianza_eq. eexists. eexists.
  split; [reflexivity|]. split; [reflexivity|]. apply round3_mono.
  destruct (c_metricas c0); [congruence|].
  destruct (c_metricas c0'); [congruence|].
  destruct (calidades (c0 :: resto)) as [|a l]; [congruence|].
  destruct (calidades (c0' :: resto')) as [|a' l']; [congruence|].
  assert (Hb : (confianza_base (Z.of_nat (length (c0 :: resto)))
                <= confianza_base (Z.of_nat (length (c0' :: resto'))))%Q).
  { apply confianza_base_mono. lia. }
  rewrite <- Heq. apply Qmult_le_compat_r; assumption.
Qed.

(** ** Weighted sums of vectors *)

Lemma Qsum_add_data (xs ys : list Q) :
  length xs = length ys -> (Qsum (add_data xs ys) == Qsum xs + Qsum ys)%Q.
Proof.
  revert ys. induction xs as [|x xs IH]; intros [|y ys] H; try discriminate.
  - simpl. lra.
  - injection H as H. cbn [add_data Qsum fold_right]. fold (Qsum xs) (Qsum ys).
    fold (Qsum (add_data xs ys)). rewrite (IH ys H). lra.
Qed.

Lemma Qsum_escala (xs : list Q) (w : Q) :
  (Qsum (map (fun x => x * w) xs) == Qsum xs * w)%Q.
Proof.
  induction xs as [|x xs IH]; simpl; [lra|].
  fold (Qsum (map (fun x0 => x0 * w)%Q xs)) (Qsum xs). rewrite IH. lra.
Qed.

Lemma suma_de_datos (ds : list (list Q)) (d0 : list Q) (k : nat) :
  length d0 = k ->
  Forall (fun d => length d = k) ds ->
  length (fold_left add_data ds d0) = k
  /\ (Qsum (fold_left add_data ds d0) == Qsum d0 + Qsum (map Qsum ds))%Q.
Proof.
  revert d0. induction ds as [|d ds IH]; intros d0 H0 Hds.
  - simpl. split; [exact H0 | lra].
  - inversion Hds as [|? ? Hd Hrest]; subst. cbn [fold_left map].
    destruct (IH (add_data d0 d)) as [IHl IHs].
    + rewrite length_add_data; [reflexivity | congruence].
    + exact Hrest.
    + split; [exact IHl|]. rewrite IHs, Qsum_add_data by congruence.
      cbn [Qsum fold_right]. fold (Qsum (map Qsum ds)). lra.
Qed.

Section Vectores.
Variable clave : string.
Variable k : nat.

Lemma arrays_ponderados_iguales (cs : list Contribucion) (ws : list Q) :
  (forall c, In c cs -> exists l, vector_de clave c = Some l /\ length l = k) ->
  arrays_ponderados clave (map c_parametros cs) ws
  = Ok (map (ponderado clave k) (combine cs ws)).
Proof.
  revert ws. induction cs as [|c cs IH]; intros ws Hvec; [reflexivity|].
  destruct ws as [|w ws]; [reflexivity|].
  unfold arrays_ponderados in *. cbn [map combine mapM].
  destruct (Hvec c (or_introl eq_refl)) as (l & Hl & Hk).
  rewrite (vector_de_array clave c l w Hl). cbn [bind].
  rewrite IH by (intros c' Hc'; apply Hvec; right; exact Hc'). cbn [bind].
  unfold ponderado at 2, vector_o_vacio. cbn [fst snd]. rewrite Hl, Hk. reflexivity.
Qed.

Lemma np_sum_axis0_iguales (arrays : list ndarray) :
  arrays <> [] ->
  Forall (fun a => shape a = [k] /\ length (data a) = k) arrays ->
  exists d,
    np_sum_axis0 arrays = Ok (mk_ndarray [k] d)
    /\ length d = k
    /\ (Qsum d == Qsum (map (fun a => Qsum (data a)) arrays))%Q.
Proof.
  intros Hne Hall. destruct arrays as [|a rest]; [congruence|].
  inversion Hall as [|? ? [Hs Hd] Hrest]; subst.
  unfold np_sum_axis0.
  assert (Hf : forallb (fun b => shape_eqb (shape b) (shape a)) rest = true).
  { apply forallb_forall. intros b Hb. rewrite List.Forall_forall in Hrest.
    destruct (Hrest b Hb) as [Hsb _]. unfold shape_eqb.
    apply bool_decide_eq_true. congruence. }
  rewrite Hf, Hs.
  destruct (suma_de_datos (map data rest) (data a) (length (data a)) eq_refl)
    as [Hlen Hsum].
  { rewrite List.Forall_forall. intros d Hd'. apply in_map_iff in Hd' as (b & <- & Hb).
    rewrite List.Forall_forall in Hrest. destruct (Hrest b Hb) as [_ Hl]. exact Hl. }
  eexists. split; [reflexivity|]. split; [exact Hlen|].
  rewrite Hsum. cbn [map Qsum fold_right]. rewrite map_map. reflexivity.
Qed.

Lemma agregar_clave_vectores (cs : list Contribucion) (ws : list Q)
    (primer acc : dict valor) :
  cs <> [] -> length ws = length cs ->
  (forall c, In c cs -> exists l, vector_de clave c = Some l /\ length l = k) ->
  dict_in clave primer = true ->
  exists d,
    agregar_clave clave (map c_parametros cs) ws primer acc
    = Ok (dict_set acc clave (VList (map VFloat d)))
    /\ length d = k
    /\ (Qsum d
        == Qsum (map (fun cw => Qsum (vector_o_vacio clave (fst cw)) * snd cw)
                   (combine cs ws)))%Q.
Proof.
  intros Hne Hlen Hvec Hin. unfold agregar_clave. rewrite Hin.
  rewrite (arrays_ponderados_iguales cs ws Hvec). cbn [bind].
  destruct (np_sum_axis0_iguales (map (ponderado clave k) (combine cs ws))) as (d & Hd & Hk & Hs).
  - destruct cs; [congruence|]. destruct ws; [discriminate|]. discriminate.
  - rewrite List.Forall_forall. intros a Ha. apply in_map_iff in Ha as ([c w] & <- & Hcw).
    unfold ponderado, np_scale, vector_o_vacio. cbn [shape data fst snd].
    split; [reflexivity|]. rewrite !length_map.
    apply in_combine_l in Hcw. destruct (Hvec c Hcw) as (l & -> & Hl). exact Hl.
  - exists d. rewrite Hd. cbn [bind]. rewrite <- Hk, tolist_vector.
    split; [reflexivity|]. split; [reflexivity|].
    rewrite Hs, map_map. clear. induction (combine cs ws) as [|[c w] l IH]; [reflexivity|].
    cbn [map Qsum fold_right]. unfold ponderado at 1, np_scale. cbn [data fst snd].
    rewrite Qsum_escala.
    fold (Qsum (map (fun x => Qsum (data (ponderado clave k x))) l)).
    fold (Qsum (map (fun cw => Qsum (vector_o_vacio clave cw.1) * cw.2)%Q l)).
    rewrite IH. reflexivity.
Qed.
End Vectores.

(** X12: in the classification aggregation with positive sample counts
    whose sum is below 2^63, when every contribution has a class-probability vector of one common
    length that sums to 1, the aggregated vector has that length and sums
    to 1; without a confusion matrix in the first contribution the
    aggregation does return a model. *)
Theorem probabilidades_suman_uno (c0 : Contribucion) (resto : list Contribucion)
    (ahora : string) (k : nat) :
  let cs := c0 :: resto in
  Forall (fun c => 0 < c_num_muestras c) cs ->
  fold_right Z.add 0 (map c_num_muestras cs) < 2 ^ 63 ->
  (forall c, In c cs ->
     exists l, vector_de "probabilidades_clase" c = Some l
               /\ length l = k /\ (Qsum (map valor_de l) == 1)%Q) ->
  (forall m, _agregar_modelo_clasificacion cs ahora = Ok m ->
     exists d,
       dict_get (parametros_agregados m) "probabilidades_clase"
       = Some (VList (map VFloat d))
       /\ length d = k /\ (Qsum d == 1)%Q)
  /\ (dict_in "matriz_confusion" (c_parametros c0) = false ->
      exists m, _agregar_modelo_clasificacion cs ahora = Ok m).
Proof.
  intros cs Hpos Hcota Hvec. subst cs.
  destruct (pesos_no_nulos_de (c0 :: resto)) as [Hsum Hnz];
    [discriminate | exact Hpos | exact Hcota |].
  assert (Hin : dict_in "probabilidades_clase" (c_parametros c0) = true).
  { destruct (Hvec c0 (or_introl eq_refl)) as (l & Hl & _).
    unfold vector_de in Hl. unfold dict_in.
    destruct (dict_get (c_parametros c0) "probabilidades_clase");
      [reflexivity | discriminate]. }
  assert (Hagg : forall acc, exists d,
             agregar_clave "probabilidades_clase" (map c_parametros (c0 :: resto))
               (pesos_de (c0 :: resto)) (c_parametros c0) acc
             = Ok (dict_set acc "probabilidades_clase" (VList (map VFloat d)))
             /\ length d = k /\ (Qsum d == 1)%Q).
  { intros acc.
    destruct (agregar_clave_vectores "probabilidades_clase" k (c0 :: resto)
                (pesos_de (c0 :: resto)) (c_parametros c0) acc)
      as (d & Hd & Hk & Hs).
    - discriminate.
    - apply length_pesos_de.
    - intros c Hc. destruct (Hvec c Hc) as (l & Hl & Hlen & _). exists l. split; assumption.
    - exact Hin.
    - exists d. split; [exact Hd|]. split; [exact Hk|].
      rewrite Hs, <- Hsum.
      assert (Hgen : forall cs' ws,
                 (forall c, In c cs' -> In c (c0 :: resto)) ->
                 length ws = length cs' ->
                 (Qsum (map (fun cw => Qsum (vector_o_vacio "probabilidades_clase" cw.1)
                                       * cw.2) (combine cs' ws)) == Qsum ws)%Q).
      { induction cs' as [|c cs' IH]; intros [|w ws] Hsub Hl; try discriminate;
          [reflexivity|].
        cbn [combine map Qsum fold_right fst snd].
        fold (Qsum ws).
        fold (Qsum (map (fun cw => Qsum (vector_o_vacio "probabilidades_clase" cw.1)
                                   * cw.2)%Q (combine cs' ws))).
        rewrite IH; [|intros c' Hc'; apply Hsub; right; exact Hc' | injection Hl as Hl; exact Hl].
        destruct (Hvec c (Hsub c (or_introl eq_refl))) as (l & Hl' & _ & H1).
        unfold vector_o_vacio. rewrite Hl'. cbn [default]. change (id l) with l.
        rewrite H1. lra. }
      apply Hgen; [intros c Hc; exact Hc | apply length_pesos_de]. }
  split.
  - intros m Hm. unfold _agregar_modelo_clasificacion in Hm. cbn [map primero bind] in Hm.
    destruct (agregar_clave "matriz_confusion" _ _ _ []) as [pa1|];
      cbn [bind] in Hm; [|discriminate].
    destruct (Hagg pa1) as (d & Hd & Hk & Hs).
    cbn [map] in Hd. rewrite Hd in Hm. cbn [bind] in Hm.
    destruct (promediar_metricas _ _ _) as [ms|]; cbn [bind] in Hm; [|discriminate].
    destruct (_calcular_confianza _) as [conf|]; cbn [bind] in Hm; [|discriminate].
    injection Hm as <-. cbn [parametros_agregados].
    exists d. split; [apply dict_get_set_eq|]. split; assumption.
  - intros Hno. unfold _agregar_modelo_clasificacion. cbn [map primero bind].
    unfold agregar_clave at 1. rewrite Hno. cbn [bind].
    destruct (Hagg []) as (d & Hd & _). cbn [map] in Hd. rewrite Hd. cbn [bind].
    destruct (promediar_metricas_total (c0 :: resto) Hnz
                ["accuracy"; "precision"; "recall"; "f1"]%string [])
      as (ms & Hms & _).
    unfold promediar_metricas.
    change (foldM _ ["accuracy"; "precision"; "recall"; "f1"]%string []) with
      (foldM (fun metricas_agregadas metrica =>
                bind (np_average (valores_metrica (c0 :: resto) metrica)
                        (pesos_de (c0 :: resto)))
                  (fun x => Ok (dict_set metricas_agregadas metrica x)))
             ["accuracy"; "precision"; "recall"; "f1"]%string []).
    rewrite Hms. cbn [bind]. rewrite _calcular_confianza_eq. cbn [bind].
    eexists. reflexivity.
Qed.

Lemma probabilidades_suman_uno_witness :
  exists m d,
    _agregar_modelo_clasificacion Ejemplos.probabilidades3 "2024-01-01T00:00:00" = Ok m
    /\ dict_get (parametros_agregados m) "probabilidades_clase"
       = Some (VList (map VFloat d))
    /\ (Qsum d == 1)%Q.
Proof.
  pose proof (probabilidades_suman_uno
                (Ejemplos.contrib
                   [("probabilidades_clase"%string, VList [VFloat (1 # 2); VFloat (1 # 2)])]
                   [("accuracy"%string, 9 # 10)%Q] 100)
                [Ejemplos.contrib
                   [("probabilidades_clase"%string, VList [VFloat (1 # 4); VFloat (3 # 4)])]
                   [("accuracy"%string, 8 # 10)%Q] 300;
                 Ejemplos.contrib
                   [("probabilidades_clase"%string, VList [VInt 1; VInt 0])]
                   [("accuracy"%string, 7 # 10)%Q] 100]
                "2024-01-01T00:00:00" 2%nat) as H.
  cbv zeta in H. destruct H as [Hval Htot].
  - repeat constructor.
  - reflexivity.
  - intros c [<-|[<-|[<-|[]]]]; eexists; (split; [reflexivity|]); split; reflexivity.
  - destruct Htot as [m Hm]; [reflexivity|].
    destruct (Hval m Hm) as (d & Hd & _ & Hs).
    exists m, d. split; [exact Hm|]. split; assumption.
Defined.

(** ** Convexity of the generic average *)

Lemma generico_parametro_escalar (c0 : Contribucion) (resto : list Contribucion)
    (ahora : string) (m : ModeloAgregado) (clave : string) (v : valor) :
  Forall (fun c => 0 < c_num_muestras c) (c0 :: resto) ->
  fold_right Z.add 0 (map c_num_muestras (c0 :: resto)) < 2 ^ 63 ->
  List.NoDup (keys (c_parametros c0)) ->
  _agregar_modelo_generico (c0 :: resto) ahora = Ok m ->
  In (clave, v) (c_parametros c0) -> is_number v = true ->
  exists x,
    dict_get (parametros_agregados m) clave = Some (VFloat x)
    /\ (x == suma_ponderada (map (valor_o_cero clave) (c0 :: resto))
              (pesos_de (c0 :: resto)))%Q.
Proof.
  intros Hpos Hcota Hnd Hm Hcv Hv.
  destruct (pesos_no_nulos_de (c0 :: resto)) as [Hsum Hnz];
    [discriminate | exact Hpos | exact Hcota |].
  unfold _agregar_modelo_generico in Hm. cbn [primero bind] in Hm.
  destruct (foldM (paso_generico (c0 :: resto) (pesos_de (c0 :: resto)))
              (c_parametros c0) []) as [params|] eqn:Hp; cbn [bind] in Hm; [|discriminate].
  destruct (promediar_metricas _ _ _) as [ms|]; cbn [bind] in Hm; [|discriminate].
  destruct (_calcular_confianza _) as [conf|]; cbn [bind] in Hm; [|discriminate].
  injection Hm as <-. cbn [parametros_agregados].
  destruct (foldM_paso_generico (c0 :: resto) _ _ _ Hp) as [_ Hkeys].
  destruct (Hkeys Hnd clave v Hcv Hv) as (x & Hx & Hget).
  exists x. split; [exact Hget|].
  apply np_average_inv in Hx as (_ & _ & _ & ->).
  rewrite valores_de_valor_o_cero, Hsum. field.
Qed.

Lemma pesos_no_negativos (cs : list Contribucion) :
  Forall (fun c => 0 < c_num_muestras c) cs ->
  fold_right Z.add 0 (map c_num_muestras cs) < 2 ^ 63 ->
  Forall (fun w => 0 <= w)%Q (pesos_de cs).
Proof.
  intros Hpos Hcota. unfold pesos_de, normalizar.
  assert (Ht0 : 0 <= fold_right Z.add 0 (map c_num_muestras cs)).
  { clear -Hpos. induction Hpos; simpl; lia. }
  rewrite int64_sin_desborde by lia.
  set (total := fold_right Z.add 0 (map c_num_muestras cs)).
  assert (Ht : 0 <= total) by exact Ht0.
  rewrite List.Forall_forall. intros w Hw.
  apply in_map_iff in Hw as (n & <- & Hn). apply in_map_iff in Hn as (c & <- & Hc).
  rewrite List.Forall_forall in Hpos. specialize (Hpos c Hc).
  unfold Qdiv. apply Qmult_le_0_compat.
  - change 0%Q with (inject_Z 0). rewrite <- Zle_Qle. lia.
  - apply Qinv_le_0_compat. change 0%Q with (inject_Z 0). rewrite <- Zle_Qle. exact Ht.
Qed.

Lemma suma_ponderada_cotas (xs ws : list Q) (lo hi : Q) :
  length xs = length ws ->
  Forall (fun w => 0 <= w)%Q ws ->
  Forall (fun x => lo <= x <= hi)%Q xs ->
  (lo * Qsum ws <= suma_ponderada xs ws <= hi * Qsum ws)%Q.
Proof.
  unfold suma_ponderada.
  revert ws. induction xs as [|x xs IH]; intros [|w ws] Hlen Hw Hx; try discriminate.
  - simpl. split; lra.
  - inversion Hw as [|? ? Hw0 Hws]; subst. inversion Hx as [|? ? [Hlo Hhi] Hxs]; subst.
    injection Hlen as Hlen. destruct (IH ws Hlen Hws Hxs) as [IH1 IH2].
    cbn [mul_data Qsum fold_right]. fold (Qsum ws). fold (Qsum (mul_data xs ws)).
    split; nra.
Qed.

(** X13: in the generic aggregation with positive sample counts whose
    sum is below 2^63, the aggregated value of a scalar key lies between any two bounds that
    enclose the values of all the contributions, a missing value counting
    as 0. *)
Theorem generico_entre_cotas (c0 : Contribucion) (resto : list Contribucion)
    (ahora : string) (m : ModeloAgregado) (clave : string) (v : valor) (lo hi : Q) :
  Forall (fun c => 0 < c_num_muestras c) (c0 :: resto) ->
  fold_right Z.add 0 (map c_num_muestras (c0 :: resto)) < 2 ^ 63 ->
  List.NoDup (keys (c_parametros c0)) ->
  _agregar_modelo_generico (c0 :: resto) ahora = Ok m ->
  In (clave, v) (c_parametros c0) -> is_number v = true ->
  Forall (fun c => lo <= valor_o_cero clave c <= hi)%Q (c0 :: resto) ->
  exists x,
    dict_get (parametros_agregados m) clave = Some (VFloat x) /\ (lo <= x <= hi)%Q.
Proof.
  intros Hpos Hcota Hnd Hm Hcv Hv Hcotas.
  destruct (generico_parametro_escalar c0 resto ahora m clave v Hpos Hcota Hnd Hm Hcv Hv)
    as (x & Hget & Hx).
  exists x. split; [exact Hget|].
  destruct (pesos_no_nulos_de (c0 :: resto)) as [Hsum _];
    [discriminate | exact Hpos | exact Hcota |].
  destruct (suma_ponderada_cotas (map (valor_o_cero clave) (c0 :: resto))
              (pesos_de (c0 :: resto)) lo hi) as [H1 H2].
  - rewrite length_map, length_pesos_de. reflexivity.
  - apply pesos_no_negativos; assumption.
  - rewrite Forall_map. exact Hcotas.
  - rewrite Hsum in H1, H2. rewrite Hx. split; lra.
Qed.

Lemma generico_entre_cotas_witness :
  exists m x,
    _agregar_modelo_generico Ejemplos.coef123 "t" = Ok m
    /\ dict_get (parametros_agregados m) "coef" = Some (VFloat x)
    /\ (1 <= x <= 3)%Q.
Proof.
  destruct (_agregar_modelo_generico Ejemplos.coef123 "t") as [m|] eqn:Hm;
    [|vm_compute in Hm; discriminate Hm].
  destruct (generico_entre_cotas
              (Ejemplos.contrib [("coef"%string, VInt 1)] [] 100)
              [Ejemplos.contrib [("coef"%string, VInt 2)] [] 200;
               Ejemplos.contrib [("coef"%string, VInt 3)] [] 300]
              "t" m "coef" (VInt 1) 1 3) as (x & Hx & Hc).
  - repeat constructor.
  - reflexivity.
  - repeat constructor. intros [].
  - exact Hm.
  - left. reflexivity.
  - reflexivity.
  - repeat constructor; vm_compute; discriminate.
  - exists m, x. split; [reflexivity|]. split; assumption.
Defined.

(** ** The pooled trees *)

Lemma seleccionar_arboles_desde (cs : list Contribucion) (ws : list Q) (acc : list valor) :
  (forall c, In c cs -> exists l, dict_get (c_parametros c) "arboles" = Some (VList l)) ->
  foldM (fun arboles_agregados '(params, w) =>
           bind (dict_index params "arboles") (fun v =>
           bind (py_sequence v) (fun arboles =>
             let num_arboles :=
               Z.max 1 (py_int (inject_Z (Z.of_nat (length arboles)) * w)) in
             Ok (arboles_agregados ++ firstn (Z.to_nat num_arboles) arboles))))
        (combine (map c_parametros cs) ws) acc
  = Ok (acc ++ flat_map (fun cw => firstn (num_arboles_de (length (arboles_de cw.1)) cw.2)
                                     (arboles_de cw.1))
                (combine cs ws)).
Proof.
  revert ws acc. induction cs as [|c cs IH]; intros ws acc Hl.
  - cbn. rewrite app_nil_r. reflexivity.
  - destruct ws as [|w ws]; [cbn; rewrite app_nil_r; reflexivity|].
    cbn [map combine foldM flat_map fst snd].
    destruct (Hl c (or_introl eq_refl)) as (l & Hc).
    unfold dict_index, arboles_de. rewrite Hc. cbn [bind py_sequence].
    rewrite IH by (intros c' Hc'; apply Hl; right; exact Hc').
    rewrite <- app_assoc. reflexivity.
Qed.

(** X14: for contributions with positive sample counts whose sum is
    below 2^63 (so that every weight is a finite number), when every
    contribution has a list under ["arboles"], the ensemble selection
    returns a pool in which every tree comes from the list of some
    contribution, the first tree of every non-empty list is present (each
    contribution gives at least one tree, however small its weight), and
    there are no more trees than the contributions have. *)
Theorem arboles_seleccionados (cs : list Contribucion) :
  Forall (fun c => 0 < c_num_muestras c) cs ->
  fold_right Z.add 0 (map c_num_muestras cs) < 2 ^ 63 ->
  (forall c, In c cs -> exists l, dict_get (c_parametros c) "arboles" = Some (VList l)) ->
  exists pooled,
    seleccionar_arboles (map c_parametros cs) (pesos_de cs) = Ok pooled
    /\ (forall t, In t pooled -> exists c, In c cs /\ In t (arboles_de c))
    /\ (forall c t l, In c cs -> arboles_de c = t :: l -> In t pooled)
    /\ (length pooled <= length (flat_map arboles_de cs))%nat.
Proof.
  intros _ _ Hl.
  pose proof (seleccionar_arboles_desde cs (pesos_de cs) [] Hl) as Hsel.
  cbn [app] in Hsel. eexists. split; [exact Hsel|].
  pose proof (length_pesos_de cs) as Hlen.
  split; [|split].
  - intros t Ht. apply in_flat_map in Ht as ([c w] & Hcw & Ht). cbn [fst snd] in Ht.
    exists c. split; [apply in_combine_l in Hcw; exact Hcw|].
    clear -Ht. revert Ht. generalize (num_arboles_de (length (arboles_de c)) w).
    intros n. revert n. induction (arboles_de c) as [|a l IH]; intros [|n] H;
      cbn in H; try contradiction.
    destruct H as [<-|H]; [left; reflexivity | right; apply (IH n H)].
  - intros c t l Hc Harb. destruct (In_combine_l cs (pesos_de cs) c Hlen Hc) as [w Hw].
    apply in_flat_map. exists (c, w). split; [exact Hw|]. cbn [fst snd].
    rewrite Harb. unfold num_arboles_de.
    destruct (Z.to_nat (Z.max 1 _)) as [|n] eqn:E; [lia|]. left. reflexivity.
  - generalize (pesos_de cs). clear. induction cs as [|c cs IH]; intros ws.
    + cbn. lia.
    + destruct ws as [|w ws]; [cbn; lia|].
      cbn [combine flat_map fst snd]. rewrite !length_app.
      specialize (IH ws).
      rewrite length_firstn. lia.
Qed.

Lemma arboles_seleccionados_witness :
  exists pooled,
    seleccionar_arboles (map c_parametros Ejemplos.con_arboles) (pesos_de Ejemplos.con_arboles) = Ok pooled
    /\ In (VStr "b1") pooled.
Proof.
  destruct (arboles_seleccionados Ejemplos.con_arboles) as (pooled & Hsel & _ & Hprimero & _).
  - repeat constructor.
  - reflexivity.
  - intros c [<-|[<-|[]]]; eexists; reflexivity.
  - exists pooled. split; [exact Hsel|].
    apply (Hprimero
             (Ejemplos.contrib [("arboles"%string, VList [VStr "b1"; VStr "b2"])] [] 100)
             (VStr "b1") [VStr "b2"]).
    + right. left. reflexivity.
    + reflexivity.
Defined.

(** ** The prediction helpers *)

Lemma round2_mono (x y : Q) : (x <= y)%Q -> (round2 x <= round2 y)%Q.
Proof.
  intros H. unfold round2.
  assert (Hz : round_half_even (x * 100) <= round_half_even (y * 100)).
  { apply round_half_even_mono. lra. }
  rewrite Zle_Qle in Hz. apply Qmult_le_compat_r; [exact Hz|].
  apply Qinv_le_0_compat. discriminate.
Qed.

(** X15: the confidence intervals keep the dates and the order of the
    predictions; for a non-negative prediction the rounded prediction lies
    between the lower and the upper limit, and for a negative one the two
    limits are swapped. *)
Theorem intervalos_de_confianza (predicciones : list Prediccion) :
  map i_fecha (_calcular_intervalos_confianza predicciones) = map p_fecha predicciones
  /\ Forall2 (fun pred iv =>
                (0 <= p_prediccion pred ->
                 limite_inferior iv <= round2 (p_prediccion pred) <= limite_superior iv)%Q
                /\ (p_prediccion pred <= 0 ->
                    limite_superior iv <= round2 (p_prediccion pred) <= limite_inferior iv)%Q)
             predicciones (_calcular_intervalos_confianza predicciones).
Proof.
  unfold _calcular_intervalos_confianza. split.
  - rewrite map_map. reflexivity.
  - induction predicciones as [|pred l IH]; [constructor|].
    cbn [map]. constructor; [|exact IH]. cbn [limite_inferior limite_superior].
    split; intros Hv; split; apply round2_mono; lra.
Qed.

(** X16: the projections number [meses_futuro], for the months 1, 2, ...;
    the confidence of each lies between 0.5 and 0.85 and is 0.5 from the
    eighth month on. *)
Theorem proyecciones_generadas (datos_historicos : list Q) (meses_futuro : Z) :
  let ps := _generar_proyecciones datos_historicos meses_futuro in
  length ps = Z.to_nat meses_futuro
  /\ map mes ps = map Z.of_nat (seq 1 (Z.to_nat meses_futuro))
  /\ Forall (fun p => (1 # 2 <= pr_confianza p <= 85 # 100)%Q
                      /\ (8 <= mes p -> (pr_confianza p == 1 # 2)%Q)) ps.
Proof.
  intros ps. subst ps. unfold _generar_proyecciones.
  split; [rewrite length_map, length_seq; reflexivity|].
  split; [rewrite map_map; reflexivity|].
  rewrite List.Forall_forall. intros p Hp.
  apply in_map_iff in Hp as (i & <- & Hi). apply in_seq in Hi.
  cbn [pr_confianza mes].
  assert (H1 : (1 <= inject_Z (Z.of_nat i))%Q).
  { change 1%Q with (inject_Z 1). rewrite <- Zle_Qle. lia. }
  pose proof (Q.le_max_l 0.5 (0.9 - inject_Z (Z.of_nat i) * 0.05)) as Hl.
  assert (Hu : (Qmax 0.5 (0.9 - inject_Z (Z.of_nat i) * 0.05) <= 85 # 100)%Q)
    by (apply Q.max_lub; lra).
  split; [split; lra|].
  intros H8. rewrite Zle_Qle in H8. change (inject_Z 8) with 8%Q in H8.
  apply (Qeq_trans _ 0.5); [apply Q.max_l; lra | reflexivity].
Qed.


Lemma confianza_no_decrece_witness :
  exists q q',
    _calcular_confianza Ejemplos.r2_bueno3 = Ok q
    /\ _calcular_confianza Ejemplos.r2_bueno4 = Ok q'
    /\ (q <= q')%Q.
Proof.
  apply (confianza_no_decrece
           (Ejemplos.contrib [] [("r2"%string, 8 # 10)%Q] 100)
           (Ejemplos.contrib [] [("r2"%string, 8 # 10)%Q] 100)
           [Ejemplos.contrib [] [("r2"%string, 8 # 10)%Q] 100;
            Ejemplos.contrib [] [("r2"%string, 8 # 10)%Q] 100]
           Ejemplos.r2_bueno3).
  - cbn. lia.
  - discriminate.
  - discriminate.
  - discriminate.
  - discriminate.
  - reflexivity.
  - vm_compute. discriminate.
Defined.

(** ** The client-side gate *)

Lemma py_in_vacio (s : string) : py_in EmptyString s = true.
Proof. destruct s; reflexivity. Qed.

(** X17: a client whose [empresa_id] is the empty string rejects every
    model in its pre-flight check: the empty string is a substring of any
    serialisation. *)
Theorem puerta_cliente_empresa_vacia (repr_float : Q -> string) (self : ClienteFederado)
    (modelo : ModeloFederado) :
  empresa_id self = EmptyString ->
  _validar_anonimizacion_modelo repr_float self modelo = false.
Proof.
  intros H. unfold _validar_anonimizacion_modelo. rewrite H.
  cbn [lower existsb]. rewrite py_in_vacio. reflexivity.
Qed.

Lemma puerta_cliente_empresa_vacia_witness :
  _validar_anonimizacion_modelo Ejemplos.repr0 Ejemplos.cliente_sin_id
    (Ejemplos.modelo "prediccion_demanda" [("coeficientes"%string, Ejemplos.vec [1; 2])]
       [] 1000) = false.
Proof.
  apply (puerta_cliente_empresa_vacia Ejemplos.repr0 Ejemplos.cliente_sin_id). reflexivity.
Defined.

(** X18: a model the client gate accepts is accepted by the server gate
    as soon as the client's segment hash has 16 characters, its minimum
    sample count is at least 50, and the serialised parameters contain
    none of the three identifiers only the server forbids. *)
Theorem puerta_cliente_implica_servidor (repr_float : Q -> string)
    (self : ClienteFederado) (modelo : ModeloFederado) :
  _validar_anonimizacion_modelo repr_float self modelo = true ->
  (16 <= String.length (cf_giro_hash self))%nat ->
  50 <= min_muestras_entrenamiento self ->
  (forall identificador,
     In identificador ["rfc"; "razon_social"; "contacto"]%string ->
     py_in identificador (lower (json_dumps repr_float (VDict (parametros modelo))))
     = false) ->
  validar_anonimizacion repr_float modelo = true.
Proof.
  unfold _validar_anonimizacion_modelo, validar_anonimizacion.
  intros Hcli Hhash Hmin Hserv.
  set (str := lower (json_dumps repr_float (VDict (parametros modelo)))) in *.
  cbn [existsb identificadores_prohibidos] in *.
  destruct (py_in (lower (empresa_id self)) str); [discriminate|].
  destruct (py_in "empresa" str); [discriminate|].
  destruct (py_in "nombre" str); [discriminate|].
  destruct (py_in "direccion" str); [discriminate|].
  destruct (py_in "telefono" str); [discriminate|].
  destruct (py_in "email" str); [discriminate|].
  cbn [orb] in *.
  rewrite (Hserv "rfc"%string), (Hserv "razon_social"%string),
    (Hserv "contacto"%string) by (simpl; tauto).
  cbn [orb].
  destruct (String.eqb_spec (giro_hash modelo) (cf_giro_hash self)) as [->|];
    [|discriminate].
  cbn [negb] in Hcli.
  destruct (Nat.ltb_spec (String.length (cf_giro_hash self)) 16); [lia|].
  destruct (Z.ltb_spec (num_muestras_entrenamiento modelo)
              (min_muestras_entrenamiento self)); [discriminate|].
  destruct (Z.ltb_spec (num_muestras_entrenamiento modelo) 50); [lia | reflexivity].
Qed.

Lemma puerta_cliente_implica_servidor_witness :
  validar_anonimizacion Ejemplos.repr0
    (Ejemplos.modelo "prediccion_demanda" [("coeficientes"%string, Ejemplos.vec [1; 2])]
       [] 1000) = true.
Proof.
  apply (puerta_cliente_implica_servidor Ejemplos.repr0 Ejemplos.cliente0).
  - vm_compute. reflexivity.
  - cbn. lia.
  - cbn. lia.
  - intros identificador [<-|[<-|[<-|[]]]]; vm_compute; reflexivity.
Defined.

Lemma intervalos_de_confianza_witness :
  (limite_inferior (mk_Intervalo "2024-01-01" (round2 (100 - 100 * 0.15))
                      (round2 (100 + 100 * 0.15)))
   <= round2 100)%Q.
Proof.
  destruct (intervalos_de_confianza [mk_Prediccion "2024-01-01" 100 (1 # 2)]) as [_ H].
  inversion H as [|? ? ? ? [Hpos _] _]; subst.
  apply Hpos. discriminate.
Defined.

Lemma proyecciones_generadas_witness :
  length (_generar_proyecciones [] 6) = 6%nat.
Proof.
  apply (proyecciones_generadas [] 6).
Defined.

Lemma total_contribuciones_cuenta_witness :
  total_contribuciones
    (snd (procesar_metricas_anonimas Ejemplos.sha0
            (procesar_metricas_todas Ejemplos.sha0 Ejemplos.estado_vacio
               [Ejemplos.metricas_ok])
            Ejemplos.metricas_ok)) = 2.
Proof.
  pose proof (total_contribuciones_cuenta Ejemplos.sha0 [Ejemplos.metricas_ok]
                Ejemplos.metricas_ok) as H.
  cbv zeta in H.
  change (mk_EstadoMetricas ∅ ∅) with Ejemplos.estado_vacio in H.
  destruct (procesar_metricas_anonimas Ejemplos.sha0
              (procesar_metricas_todas Ejemplos.sha0 Ejemplos.estado_vacio
                 [Ejemplos.metricas_ok])
              Ejemplos.metricas_ok) as [despues resultado].
  destruct H as [H _]. cbn [snd]. rewrite H. reflexivity.
Defined.
